(** * InfraScope: collection, analysis and recommendation core

    A shallow embedding of the Python backend of InfraScope
    ([backend/app/services/*.py], [backend/app/routes/servers.py],
    [backend/app/models.py]) together with the properties stated about it.

    Conventions of the embedding.

    - A Python [float] is a rational number ([Q]) and arithmetic is exact.
      [round(x, n)] and the [:.nf] format round the exact value to the
      nearest multiple of [10^-n], a tie going to the even neighbour, which
      is what CPython does on the exact value of a float.  Statements about
      numbers use [==] ([Qeq]).
    - A Python [int] is a [Z]; a [datetime] is a [Z] (seconds).
    - A [str] is a [string]; case folding is the ASCII one.
    - A [dict] iterated in insertion order is an association list with the
      update-in-place semantics of Python ([PyDict]).
    - A database table is the list of its rows in the order a [select]
      returns them; the session is passed explicitly.

    The file is organised as the repository is: one module per source file,
    first the program, then its properties. *)

From Stdlib Require Import ZArith QArith Qround Qabs List String Ascii Bool Lia Lqa.
From Stdlib Require Import Permutation Sorted.
Import ListNotations.

Local Open Scope Z_scope.

(* ================================================================== *)
(** * Python numbers *)
(* ================================================================== *)

Module Py.

(** Comparisons of floats, as booleans. *)
Definition ltb (x y : Q) : bool := negb (Qle_bool y x).
Definition leb (x y : Q) : bool := Qle_bool x y.
Definition gtb (x y : Q) : bool := ltb y x.
Definition geb (x y : Q) : bool := leb y x.

(** [min(a, b)] keeps [a] unless [b < a]; [max(a, b)] keeps [a] unless
    [b > a]. *)
Definition min (a b : Q) : Q := if ltb b a then b else a.
Definition max (a b : Q) : Q := if gtb b a then b else a.

(** [sum(xs)]: left to right from [0]. *)
Definition sum (xs : list Q) : Q := fold_left Qplus xs 0%Q.
Definition sumZ (xs : list Z) : Z := fold_left Z.add xs 0.

Definition len {A} (xs : list A) : Z := Z.of_nat (List.length xs).

(** Nearest integer, ties to even. *)
Definition round_half_even (q : Q) : Z :=
  let f := Qfloor q in
  match (q - inject_Z f ?= 1 # 2)%Q with
  | Lt => f
  | Gt => f + 1
  | Eq => if Z.even f then f else f + 1
  end.

Definition pow10 (n : nat) : Z := 10 ^ Z.of_nat n.

(** [round(x, n)] for [n >= 0]. *)
Definition round (x : Q) (ndigits : nat) : Q :=
  (inject_Z (round_half_even (x * inject_Z (pow10 ndigits)))
     / inject_Z (pow10 ndigits))%Q.

(** Decimal digits. *)
Definition digit (d : Z) : ascii := ascii_of_nat (48 + Z.to_nat d).

(** The last [width] decimal digits of [n >= 0], zero padded. *)
Fixpoint digits_fixed (width : nat) (n : Z) : string :=
  match width with
  | O => EmptyString
  | S w => (digits_fixed w (n / 10) ++ String (digit (n mod 10)) EmptyString)%string
  end.

(** All decimal digits of [n >= 0] (["0"] for zero).  The fuel is the bit
    length of [n], which bounds its number of decimal digits. *)
Fixpoint digits_fuel (fuel : nat) (n : Z) : string :=
  match fuel with
  | O => String (digit (n mod 10)) EmptyString
  | S k =>
      if n <? 10 then String (digit n) EmptyString
      else (digits_fuel k (n / 10) ++ String (digit (n mod 10)) EmptyString)%string
  end.

Definition str_nat (n : Z) : string := digits_fuel (Z.to_nat (Z.log2 n)) n.

(** [f"{x:.nf}"] for [n >= 1]: sign, integer part, point, [n] digits. *)
Definition format_fixed (x : Q) (ndigits : nat) : string :=
  let m := round_half_even (Qabs x * inject_Z (pow10 ndigits)) in
  ((if ltb x 0 then "-" else "")
     ++ str_nat (m / pow10 ndigits) ++ "." ++ digits_fixed ndigits (m mod pow10 ndigits))%string.

(** [s.lower()] on ASCII. *)
Definition lower_ascii (c : ascii) : ascii :=
  let n := nat_of_ascii c in
  if andb (Nat.leb 65 n) (Nat.leb n 90) then ascii_of_nat (n + 32) else c.

Fixpoint lower (s : string) : string :=
  match s with
  | EmptyString => EmptyString
  | String c s' => String (lower_ascii c) (lower s')
  end.

(** [pat in s]. *)
Fixpoint contains (pat s : string) : bool :=
  orb (String.prefix pat s)
      match s with
      | EmptyString => false
      | String _ s' => contains pat s'
      end.

(** [sep.join(xs)]. *)
Fixpoint join (sep : string) (xs : list string) : string :=
  match xs with
  | [] => EmptyString
  | [x] => x
  | x :: rest => (x ++ sep ++ join sep rest)%string
  end.

(** [s[:n]]. *)
Definition take (n : nat) (s : string) : string := substring 0 n s.

(** Stable ascending sort for a total [le]. *)
Fixpoint insert_sorted {A} (le : A -> A -> bool) (x : A) (l : list A) : list A :=
  match l with
  | [] => [x]
  | y :: rest =>
      if le x y then x :: y :: rest
      else y :: insert_sorted le x rest
  end.

Definition sorted_by {A} (le : A -> A -> bool) (xs : list A) : list A :=
  fold_right (insert_sorted le) [] xs.

(** [sorted(xs, key=key)] for a numeric key. *)
Definition sorted {A} (key : A -> Q) (xs : list A) : list A :=
  sorted_by (fun x y => leb (key x) (key y)) xs.

(** A dict keyed by strings: [d.get(k)]. *)
Fixpoint get {V} (k : string) (d : list (string * V)) : option V :=
  match d with
  | [] => None
  | (k', v) :: d' => if String.eqb k k' then Some v else get k d'
  end.

Definition get_default {V} (k : string) (default : V) (d : list (string * V)) : V :=
  match get k d with Some v => v | None => default end.

End Py.

(** ** Insertion-ordered dictionaries keyed by integers *)

Module PyDict.

Definition t (V : Type) : Type := list (Z * V).

Definition empty {V} : t V := [].

(** [d[k] = v]: overwrite in place, or append. *)
Fixpoint set {V} (k : Z) (v : V) (d : t V) : t V :=
  match d with
  | [] => [(k, v)]
  | (k', v') :: d' => if k =? k' then (k, v) :: d' else (k', v') :: set k v d'
  end.

(** [d.get(k)]. *)
Fixpoint get {V} (k : Z) (d : t V) : option V :=
  match d with
  | [] => None
  | (k', v) :: d' => if k =? k' then Some v else get k d'
  end.

Definition items {V} (d : t V) : list (Z * V) := d.
Definition values {V} (d : t V) : list V := map snd d.

(** [{key(x): x for x in xs}]. *)
Definition of_list {V} (key : V -> Z) (xs : list V) : t V :=
  fold_left (fun d x => set (key x) x d) xs empty.

End PyDict.

(* ================================================================== *)
(** * models.py *)
(* ================================================================== *)

Module Models.

Inductive ServerSource := cloud | dedicated.

Inductive UtilizationTier := idle | low | moderate | high | critical.

Inductive ServiceType := docker | systemd | port.

Inductive Confidence := conf_high | conf_medium | conf_low.

Inductive RecommendationStatus := pending | accepted | dismissed.

Definition tier_value (t : UtilizationTier) : string :=
  match t with
  | idle => "idle" | low => "low" | moderate => "moderate"
  | high => "high" | critical => "critical"
  end.

(** Position in the ladder idle < low < moderate < high < critical. *)
Definition tier_rank (t : UtilizationTier) : nat :=
  match t with
  | idle => 0 | low => 1 | moderate => 2 | high => 3 | critical => 4
  end.

Definition tier_eqb (a b : UtilizationTier) : bool :=
  Nat.eqb (tier_rank a) (tier_rank b).

Definition service_type_value (t : ServiceType) : string :=
  match t with docker => "docker" | systemd => "systemd" | port => "port" end.

Definition is_pending (s : RecommendationStatus) : bool :=
  match s with pending => true | _ => false end.

Record Server := mkServer {
  id : Z;
  hetzner_id : string;
  name : string;
  server_type : string;
  source : ServerSource;
  status : string;
  datacenter : string;
  ipv4 : string;
  cores : Z;
  memory_gb : Q;
  disk_gb : Z;
  monthly_cost_eur : Q;
  labels : option (list (string * string));
  project_name : option string;
  created_at : Z;
  last_seen_at : Z;
  updated_at : Z
}.

Record MetricSnapshot := mkMetricSnapshot {
  ms_id : Z;
  ms_server_id : Z;
  timestamp : Z;
  cpu_percent : Q;
  memory_percent : Q;
  disk_percent : Q;
  network_in_mbps : Q;
  network_out_mbps : Q;
  load_avg_1m : option Q
}.

Record RunningService := mkRunningService {
  rs_id : Z;
  rs_server_id : Z;
  service_type : ServiceType;
  rs_name : string;
  rs_port : option Z;
  rs_status : string;
  rs_cpu_percent : option Q;
  memory_mb : option Q;
  discovered_at : Z;
  rs_last_seen_at : Z
}.

Record ConsolidationRecommendation := mkRecommendation {
  rec_id : option Z;          (* [None] until the row is flushed *)
  group_name : string;
  server_ids : list Z;
  target_server_type : string;
  current_total_cost_eur : Q;
  projected_cost_eur : Q;
  monthly_savings_eur : Q;
  rationale : string;
  confidence : Confidence;
  rec_status : RecommendationStatus;
  rec_created_at : Z
}.

(** The database the session talks to. *)
Record Db := mkDb {
  servers : list Server;
  metric_snapshots : list MetricSnapshot;
  running_services : list RunningService;
  consolidation_recommendations : list ConsolidationRecommendation
}.

(** The integer primary key given to a new row: one above the largest. *)
Definition next_id (ids : list Z) : Z := 1 + fold_right Z.max 0 ids.

End Models.

(* ================================================================== *)
(** * services/analyzer.py *)
(* ================================================================== *)

Module Analyzer.
Import Models.

Definition classify_utilization (avg_cpu_30d : Q) : UtilizationTier :=
  if Py.ltb avg_cpu_30d 5 then idle
  else if Py.ltb avg_cpu_30d 20 then low
  else if Py.ltb avg_cpu_30d 60 then moderate
  else if Py.ltb avg_cpu_30d 85 then high
  else critical.

(** The dict [analyze_server] returns. *)
Record Analysis := mkAnalysis {
  a_server_id : Z;
  avg_cpu_30d : Q;
  avg_memory_30d : Q;
  peak_cpu_30d : Q;
  peak_memory_30d : Q;
  utilization_tier : UtilizationTier
}.

Definition timedelta_days (n : Z) : Z := n * 86400.

(** SQL aggregates over a column: [NULL] when no row is selected. *)
Definition sql_avg (xs : list Q) : option Q :=
  match xs with
  | [] => None
  | _ :: _ => Some (Py.sum xs / inject_Z (Py.len xs))%Q
  end.

Definition sql_max (xs : list Q) : option Q :=
  match xs with
  | [] => None
  | x :: rest => Some (fold_left Py.max rest x)
  end.

(** The rows the statement of [analyze_server] selects. *)
Definition window_rows (db : Db) (server_id now : Z) : list MetricSnapshot :=
  let cutoff := now - timedelta_days 30 in
  filter (fun m => (ms_server_id m =? server_id) && (cutoff <=? timestamp m))
         (metric_snapshots db).

Definition analyze_server (db : Db) (server_id now : Z) : option Analysis :=
  let rows := window_rows db server_id now in
  match sql_avg (map cpu_percent rows), sql_avg (map memory_percent rows),
        sql_max (map cpu_percent rows), sql_max (map memory_percent rows) with
  | Some row_avg_cpu, Some row_avg_memory, Some row_peak_cpu, Some row_peak_memory =>
      let avg_cpu := Py.round row_avg_cpu 2 in
      let avg_memory := Py.round row_avg_memory 2 in
      let peak_cpu := Py.round row_peak_cpu 2 in
      let peak_memory := Py.round row_peak_memory 2 in
      Some {| a_server_id := server_id;
              avg_cpu_30d := avg_cpu;
              avg_memory_30d := avg_memory;
              peak_cpu_30d := peak_cpu;
              peak_memory_30d := peak_memory;
              utilization_tier := classify_utilization avg_cpu |}
  | _, _, _, _ => None
  end.

Definition analyze_all_servers (db : Db) (now : Z) : list Analysis :=
  let server_ids := map id (servers db) in
  map (fun sid =>
         match analyze_server db sid now with
         | Some analysis => analysis
         | None =>
             (* Server exists but has no metrics: treated as idle *)
             {| a_server_id := sid;
                avg_cpu_30d := 0;
                avg_memory_30d := 0;
                peak_cpu_30d := 0;
                peak_memory_30d := 0;
                utilization_tier := idle |}
         end)
      server_ids.

End Analyzer.

(* ================================================================== *)
(** * services/collector.py *)
(* ================================================================== *)

Module Collector.
Import Models.

(** A scalar of a metrics payload. *)
Inductive Json := JNum (q : Q) | JStr (s : string) | JNull.

(** [time_series]: series name to its ["values"], each point a list. *)
Definition TimeSeries : Type := list (string * list (list Json)).

(** [hetzner_cloud.get_server_metrics(hetzner_id, type, start, end)];
    [None] when the call raises. *)
Definition MetricsApi : Type := string -> string -> Z -> Z -> option TimeSeries.

Definition timedelta_minutes (n : Z) : Z := n * 60.

Section WithFloatParser.

(** [float(s)] on a string; [None] is [ValueError]. *)
Variable float_of_string : string -> option Q.

(** [float(v)]; [None] is [ValueError] or [TypeError]. *)
Definition float (v : Json) : option Q :=
  match v with
  | JNum q => Some q
  | JStr s => float_of_string s
  | JNull => None
  end.

(** The CPU loop: a point shorter than 2 or not a number is skipped. *)
Definition cpu_values (timeseries : TimeSeries) : list Q :=
  flat_map
    (fun '(_name, series) =>
       flat_map
         (fun point =>
            match nth_error point 1 with
            | Some v => match float v with Some q => [q] | None => [] end
            | None => []
            end)
         series)
    timeseries.

(** [[float(p[1]) for p in values if len(p) >= 2]]; [None] when a
    conversion raises. *)
Fixpoint vals (series : list (list Json)) : option (list Q) :=
  match series with
  | [] => Some []
  | p :: rest =>
      match nth_error p 1 with
      | None => vals rest
      | Some v =>
          match float v, vals rest with
          | Some q, Some qs => Some (q :: qs)
          | _, _ => None
          end
      end
  end.

Definition mean (xs : list Q) : Q := (Py.sum xs / inject_Z (Py.len xs))%Q.

Definition nonempty {A} (xs : list A) : bool :=
  match xs with [] => false | _ :: _ => true end.

(** The disk loop; an exception leaves the [try] with what was set. *)
Fixpoint disk_loop (disk_ts : TimeSeries) (disk_pct : Q) : Q :=
  match disk_ts with
  | [] => disk_pct
  | (_name, series) :: rest =>
      match vals series with
      | None => disk_pct
      | Some vs =>
          if nonempty vs
             && negb (Py.contains "bandwidth.read" _name)
             && negb (Py.contains "bandwidth.write" _name)
          then disk_loop rest (Py.max disk_pct (mean vs))
          else disk_loop rest disk_pct
      end
  end.

(** The network loop, on [(net_in, net_out)]. *)
Fixpoint net_loop (net_ts : TimeSeries) (net : Q * Q) : Q * Q :=
  match net_ts with
  | [] => net
  | (_name, series) :: rest =>
      match vals series with
      | None => net
      | Some vs =>
          if nonempty vs then
            let avg_val := mean vs in
            let mbps := (avg_val * 8 / 1000000)%Q in
            if Py.contains "in" _name then net_loop rest (mbps, snd net)
            else if Py.contains "out" _name then net_loop rest (fst net, mbps)
            else net_loop rest net
          else net_loop rest net
      end
  end.

(** The CPU percentage of the cycle: the mean of the samples, divided by
    the core count when it exceeds 100, capped at 100. *)
Definition normalized_cpu (server_cores : Z) (values : list Q) : Q :=
  let avg_cpu := mean values in
  let avg_cpu :=
    if (0 <? server_cores) && Py.gtb avg_cpu 100
    then (avg_cpu / inject_Z server_cores)%Q else avg_cpu in
  Py.min 100 avg_cpu.

Definition _collect_cloud_metrics
           (api : MetricsApi) (db : Db) (server : Server)
           (hetzner_id : string) (now : Z) : Db :=
  let start := now - timedelta_minutes 10 in
  match api hetzner_id "cpu"%string start now with
  | None => db
  | Some timeseries =>
      let values := cpu_values timeseries in
      if negb (nonempty values) then db
      else
        let avg_cpu := normalized_cpu (cores server) values in
        let disk_pct :=
          match api hetzner_id "disk"%string start now with
          | Some disk_ts => disk_loop disk_ts 0
          | None => 0%Q
          end in
        let '(net_in, net_out) :=
          match api hetzner_id "network"%string start now with
          | Some net_ts => net_loop net_ts (0%Q, 0%Q)
          | None => (0%Q, 0%Q)
          end in
        let snapshot :=
          {| ms_id := next_id (map ms_id (metric_snapshots db));
             ms_server_id := id server;
             timestamp := now;
             cpu_percent := Py.round avg_cpu 2;
             memory_percent := 0;  (* the Cloud API exposes no memory % *)
             disk_percent := Py.round disk_pct 2;
             network_in_mbps := Py.round net_in 4;
             network_out_mbps := Py.round net_out 4;
             load_avg_1m := None |} in
        {| servers := servers db;
           metric_snapshots := metric_snapshots db ++ [snapshot];
           running_services := running_services db;
           consolidation_recommendations := consolidation_recommendations db |}
  end.

End WithFloatParser.

End Collector.

(* ================================================================== *)
(** * services/recommender.py *)
(* ================================================================== *)

Module Recommender.
Import Models Analyzer.
Local Open Scope string_scope.

(** Hetzner Cloud approximate pricing (EUR / month). *)
Definition PRICE_MAP : list (string * Q) :=
  [ ("cx11", 3.29%Q); ("cx21", 5.39%Q); ("cx31", 10.49%Q); ("cx41", 17.49%Q);
    ("cpx11", 3.85%Q); ("cpx21", 7.19%Q); ("cpx31", 13.49%Q); ("cpx41", 24.49%Q);
    ("ccx13", 12.49%Q); ("ccx23", 22.49%Q); ("ccx33", 42.49%Q) ].

(** Current type to recommended smaller type. *)
Definition DOWNGRADE_MAP : list (string * string) :=
  [ ("cx41", "cx31"); ("cx31", "cx21"); ("cx21", "cx11");
    ("cpx41", "cpx31"); ("cpx31", "cpx21"); ("cpx21", "cpx11");
    ("ccx33", "ccx23"); ("ccx23", "ccx13") ].

(** The letter a two-byte character stands for under [re.IGNORECASE], by
    its UTF-8 bytes: U+0130 and U+0131 (C4 B0 and C4 B1) for [i], U+017F
    (C5 BF) for [s].  No other character beyond ASCII matches a letter of
    the pattern. *)
Definition is_byte (n : nat) (c : ascii) : bool := Nat.eqb (nat_of_ascii c) n.

Definition folded_pair (c d : ascii) : option ascii :=
  if is_byte 196 c && (is_byte 176 d || is_byte 177 d) then Some "i"%char
  else if is_byte 197 c && is_byte 191 d then Some "s"%char
  else None.

(** The text as [re.IGNORECASE] compares it with the lower-case pattern. *)
Fixpoint ignorecase (s : string) : string :=
  match s with
  | EmptyString => EmptyString
  | String c rest =>
      match rest with
      | String d rest' =>
          match folded_pair c d with
          | Some letter => String letter (ignorecase rest')
          | None => String (Py.lower_ascii c) (ignorecase rest)
          end
      | EmptyString => String (Py.lower_ascii c) EmptyString
      end
  end.

(** [_STAGING_PATTERN.search(s)]: (staging|dev|test), ignoring case. *)
Definition _STAGING_PATTERN_search (s : string) : bool :=
  let l := ignorecase s in
  Py.contains "staging" l || Py.contains "dev" l || Py.contains "test" l.

(** Simplified core count per type. *)
Definition type_cores : list (string * Z) :=
  [ ("cx11", 1); ("cx21", 2); ("cx31", 4); ("cx41", 8);
    ("cpx11", 2); ("cpx21", 3); ("cpx31", 4); ("cpx41", 8);
    ("ccx13", 2); ("ccx23", 4); ("ccx33", 8) ]%Z.

Definition total_original_cores (servers : list Server) : Z :=
  let s := Py.sumZ (map cores servers) in
  if (s =? 0)%Z then 1%Z else s.

(** The first candidate whose cores reach the target. *)
Fixpoint first_fitting (target_cores : Q) (candidates : list (string * Q))
  : option string :=
  match candidates with
  | [] => None
  | (type_name, _price) :: rest =>
      let cores := Py.get_default type_name 1%Z type_cores in
      if Py.geb (inject_Z cores) target_cores then Some type_name
      else first_fitting target_cores rest
  end.

Definition _pick_target_type_for_combined_load
           (combined_peak_cpu : Q) (servers : list Server) : string :=
  let effective_cores_needed :=
    ((combined_peak_cpu / 100) * inject_Z (total_original_cores servers))%Q in
  let target_cores := Py.max (effective_cores_needed / 0.7)%Q 1%Q in
  (* Sort candidates by price ascending *)
  let candidates := Py.sorted snd PRICE_MAP in
  match first_fitting target_cores candidates with
  | Some type_name => type_name
  | None =>
      (* Fallback: biggest type *)
      match List.last (map (fun c => Some (fst c)) candidates) None with
      | Some t => t
      | None => "cx41"
      end
  end.

(** Rule 1: servers with < 5 % avg CPU. *)
Definition _find_idle_servers
           (now : Z)
           (server_by_id : PyDict.t Server)
           (analysis_by_id : PyDict.t Analysis)
  : list ConsolidationRecommendation :=
  flat_map
    (fun '(sid, analysis) =>
       if negb (tier_eqb (utilization_tier analysis) idle) then []
       else
         match PyDict.get sid server_by_id with
         | None => []
         | Some server =>
             (* Skip servers that are already stopped *)
             if negb (String.eqb (status server) "running") then []
             else
               let monthly_cost := monthly_cost_eur server in
               if Py.leb monthly_cost 0 then []
               else
                 let current_type := Py.lower (server_type server) in
                 let '(target_cost, savings, target_label, action_text) :=
                   match Py.get current_type DOWNGRADE_MAP with
                   | Some smaller_type =>
                       let target_cost := Py.get_default smaller_type 0%Q PRICE_MAP in
                       let savings := (monthly_cost - target_cost)%Q in
                       (target_cost, savings, smaller_type,
                        "This server is barely using its resources — averaging just "
                          ++ Py.format_fixed (avg_cpu_30d analysis) 1
                          ++ "% CPU over 30 days (peak "
                          ++ Py.format_fixed (peak_cpu_30d analysis) 1
                          ++ "%). Downgrading from "
                          ++ server_type server ++ " to " ++ smaller_type
                          ++ " would save EUR " ++ Py.format_fixed savings 2
                          ++ "/mo. Alternatively, its workloads could "
                          ++ "be consolidated onto another server to free up this instance entirely.")
                   | None =>
                       (0%Q, monthly_cost, "downsize / consolidate",
                        "This server is barely using its resources — averaging just "
                          ++ Py.format_fixed (avg_cpu_30d analysis) 1
                          ++ "% CPU over 30 days (peak "
                          ++ Py.format_fixed (peak_cpu_30d analysis) 1
                          ++ "%). Its workloads could likely "
                          ++ "be consolidated onto another server, saving the full "
                          ++ "EUR " ++ Py.format_fixed monthly_cost 2
                          ++ "/mo. Review what's running on it "
                          ++ "to decide the best path.")
                   end in
                 [ {| rec_id := None;
                      group_name := "Underutilized: " ++ name server;
                      server_ids := [id server];
                      target_server_type := target_label;
                      current_total_cost_eur := monthly_cost;
                      projected_cost_eur := target_cost;
                      monthly_savings_eur := savings;
                      rationale := action_text;
                      confidence := conf_high;
                      rec_status := pending;
                      rec_created_at := now |} ]
         end)
    (PyDict.items analysis_by_id).

(** The servers rule 2 collects. *)
Definition is_staging (server : Server) : bool :=
  if negb (String.eqb (status server) "running") then false
  else
    let name_match := _STAGING_PATTERN_search (name server) in
    let project_match :=
      _STAGING_PATTERN_search
        (match project_name server with Some p => p | None => "" end) in
    let label_match :=
      existsb (fun kv => _STAGING_PATTERN_search (snd kv))
              (match labels server with Some l => l | None => [] end) in
    name_match || project_match || label_match.

(** Rule 2: merge staging/dev/test servers onto one instance. *)
Definition _find_staging_consolidation
           (now : Z)
           (server_by_id : PyDict.t Server)
           (analysis_by_id : PyDict.t Analysis)
  : list ConsolidationRecommendation :=
  let staging_servers := filter is_staging (PyDict.values server_by_id) in
  (* Only recommend consolidation if there are at least 2 staging servers *)
  if (Py.len staging_servers <? 2)%Z then []
  else
    let total_cost := Py.sum (map monthly_cost_eur staging_servers) in
    let server_ids := map id staging_servers in
    let combined_peak_cpu :=
      Py.sum (map (fun s => match PyDict.get (id s) analysis_by_id with
                            | Some a => peak_cpu_30d a
                            | None => 0%Q
                            end)
                  staging_servers) in
    let target_type :=
      _pick_target_type_for_combined_load combined_peak_cpu staging_servers in
    let target_cost := Py.get_default target_type (total_cost * 0.5)%Q PRICE_MAP in
    let savings := Py.max (total_cost - target_cost)%Q 0%Q in
    if Py.leb savings 0 then []
    else
      let server_names := Py.join ", " (map name staging_servers) in
      [ {| rec_id := None;
           group_name := "Staging/dev server consolidation";
           server_ids := server_ids;
           target_server_type := target_type;
           current_total_cost_eur := Py.round total_cost 2;
           projected_cost_eur := Py.round target_cost 2;
           monthly_savings_eur := Py.round savings 2;
           rationale :=
             "These non-production servers (" ++ server_names ++ ") cost a combined "
               ++ "EUR " ++ Py.format_fixed total_cost 2
               ++ "/mo but their total peak CPU is only "
               ++ Py.format_fixed combined_peak_cpu 1 ++ "%. They could share a single "
               ++ target_type ++ " (EUR " ++ Py.format_fixed target_cost 2
               ++ "/mo) with room to spare, "
               ++ "saving EUR " ++ Py.format_fixed savings 2 ++ "/mo.";
           confidence := conf_medium;
           rec_status := pending;
           rec_created_at := now |} ].

(** Rule 3: downgrade servers whose peak CPU stays below 30 %. *)
Definition _find_rightsizing_candidates
           (now : Z)
           (server_by_id : PyDict.t Server)
           (analysis_by_id : PyDict.t Analysis)
  : list ConsolidationRecommendation :=
  flat_map
    (fun '(sid, analysis) =>
       let peak_cpu := peak_cpu_30d analysis in
       if Py.geb peak_cpu 30 then []
       (* Already covered by the idle rule *)
       else if tier_eqb (utilization_tier analysis) idle then []
       else
         match PyDict.get sid server_by_id with
         | None => []
         | Some server =>
             if negb (String.eqb (status server) "running") then []
             else
               let current_type := Py.lower (server_type server) in
               match Py.get current_type DOWNGRADE_MAP with
               | None => []  (* already the smallest tier or not in the map *)
               | Some smaller_type =>
                   let current_cost := monthly_cost_eur server in
                   let current_cost :=
                     if Py.leb current_cost 0
                     then Py.get_default current_type 0%Q PRICE_MAP
                     else current_cost in
                   let target_cost := Py.get_default smaller_type current_cost PRICE_MAP in
                   let savings := (current_cost - target_cost)%Q in
                   if Py.leb savings 0 then []
                   else
                     [ {| rec_id := None;
                          group_name := "Right-size: " ++ name server;
                          server_ids := [id server];
                          target_server_type := smaller_type;
                          current_total_cost_eur := Py.round current_cost 2;
                          projected_cost_eur := Py.round target_cost 2;
                          monthly_savings_eur := Py.round savings 2;
                          rationale :=
                            "'" ++ name server ++ "' peaks at only "
                              ++ Py.format_fixed peak_cpu 1 ++ "% CPU "
                              ++ "(avg " ++ Py.format_fixed (avg_cpu_30d analysis) 1
                              ++ "%) on a " ++ current_type ++ ". "
                              ++ "A " ++ smaller_type ++ " can comfortably handle this workload "
                              ++ "and would save EUR " ++ Py.format_fixed savings 2
                              ++ "/mo while still leaving "
                              ++ "plenty of headroom for traffic spikes.";
                          confidence := conf_medium;
                          rec_status := pending;
                          rec_created_at := now |} ]
               end
         end)
    (PyDict.items analysis_by_id).

(** [db.add(rec)] for each new record, then [commit]: the rows get the
    next primary keys in order. *)
Definition with_id (i : Z) (r : ConsolidationRecommendation)
  : ConsolidationRecommendation :=
  {| rec_id := Some i;
     group_name := group_name r;
     server_ids := server_ids r;
     target_server_type := target_server_type r;
     current_total_cost_eur := current_total_cost_eur r;
     projected_cost_eur := projected_cost_eur r;
     monthly_savings_eur := monthly_savings_eur r;
     rationale := rationale r;
     confidence := confidence r;
     rec_status := rec_status r;
     rec_created_at := rec_created_at r |}.

Definition key_of (r : ConsolidationRecommendation) : Z :=
  match rec_id r with Some i => i | None => 0%Z end.

Fixpoint add_all (table news : list ConsolidationRecommendation)
  : list ConsolidationRecommendation :=
  match news with
  | [] => table
  | r :: rest => add_all (table ++ [with_id (next_id (map key_of table)) r])%list rest
  end.

(** Run all recommendation rules and persist the results; returns the new
    records and the database after the commit. *)
Definition generate_recommendations (db : Db) (now : Z)
  : list ConsolidationRecommendation * Db :=
  (* Fetch analysis data and servers *)
  let analyses := analyze_all_servers db now in
  let analysis_by_id := PyDict.of_list a_server_id analyses in
  let server_by_id := PyDict.of_list id (servers db) in
  (* Clear stale pending recommendations *)
  let kept :=
    filter (fun r => negb (is_pending (rec_status r)))
           (consolidation_recommendations db) in
  let new_recs :=
    (_find_idle_servers now server_by_id analysis_by_id
       ++ _find_staging_consolidation now server_by_id analysis_by_id
       ++ _find_rightsizing_candidates now server_by_id analysis_by_id)%list in
  let table := add_all kept new_recs in
  (skipn (List.length kept) table,
   {| servers := servers db;
      metric_snapshots := metric_snapshots db;
      running_services := running_services db;
      consolidation_recommendations := table |}).

End Recommender.

(* ================================================================== *)
(** * schemas.py and routes/servers.py *)
(* ================================================================== *)

Module Schemas.

Record AgentServiceReport := mkAgentServiceReport {
  name : string;
  service_type : string;   (* docker, systemd, port *)
  port : option Z;
  status : string;
  cpu_percent : option Q;
  memory_mb : option Q
}.

Record AgentReport := mkAgentReport {
  hostname : string;
  server_ip : string;
  ar_cpu_percent : Q;
  memory_percent : Q;
  disk_percent : Q;
  network_in_mbps : Q;
  network_out_mbps : Q;
  load_avg_1m : option Q;
  services : list AgentServiceReport;
  secret : string
}.

End Schemas.

Module Routes.
Import Models.
Local Open Scope string_scope.

(** What a route hands back to the caller. *)
Inductive Response (A : Type) :=
| Ok (body : A)
| HTTPException (status_code : Z) (detail : string)
| Unhandled (exception : string).
Arguments Ok {A}.
Arguments HTTPException {A}.
Arguments Unhandled {A}.

Definition _classify_utilization (avg_cpu_30d : Q) : UtilizationTier :=
  if Py.ltb avg_cpu_30d 5 then idle
  else if Py.ltb avg_cpu_30d 20 then low
  else if Py.ltb avg_cpu_30d 60 then moderate
  else if Py.ltb avg_cpu_30d 85 then high
  else critical.

(** [ServiceType(s)]; [None] is [ValueError]. *)
Definition ServiceType_of (s : string) : option ServiceType :=
  if String.eqb s "docker" then Some docker
  else if String.eqb s "systemd" then Some systemd
  else if String.eqb s "port" then Some port
  else None.

(** [select(Server).where(Server.ipv4 == ip)]. *)
Definition select_by_ip (db : Db) (ip : string) : list Server :=
  filter (fun s => String.eqb (ipv4 s) ip) (servers db).

Definition set_seen (srv : Server) (now : Z) (hostname : string) : Server :=
  {| id := id srv;
     hetzner_id := hetzner_id srv;
     name := hostname;
     server_type := server_type srv;
     source := source srv;
     status := Models.status srv;
     datacenter := datacenter srv;
     ipv4 := ipv4 srv;
     cores := cores srv;
     memory_gb := memory_gb srv;
     disk_gb := disk_gb srv;
     monthly_cost_eur := monthly_cost_eur srv;
     labels := labels srv;
     project_name := project_name srv;
     created_at := created_at srv;
     last_seen_at := now;
     updated_at := now |}.

(** The rows built from [report.services]; [None] when a service type is
    not one of the enumeration. *)
Fixpoint new_services (server_id now next : Z)
         (reports : list Schemas.AgentServiceReport)
  : option (list RunningService) :=
  match reports with
  | [] => Some []
  | svc_report :: rest =>
      match ServiceType_of (Schemas.service_type svc_report) with
      | None => None
      | Some ty =>
          match new_services server_id now (next + 1) rest with
          | None => None
          | Some rows =>
              Some ({| rs_id := next;
                       rs_server_id := server_id;
                       Models.service_type := ty;
                       rs_name := Schemas.name svc_report;
                       rs_port := Schemas.port svc_report;
                       rs_status := Schemas.status svc_report;
                       rs_cpu_percent := Schemas.cpu_percent svc_report;
                       Models.memory_mb := Schemas.memory_mb svc_report;
                       discovered_at := now;
                       rs_last_seen_at := now |} :: rows)
          end
      end
  end.

(** [POST /agent/report].  The session commits once, at the end: a request
    that raises leaves the database as it was. *)
Definition agent_report (agent_secret : string) (now : Z)
           (report : Schemas.AgentReport) (db : Db)
  : Response string * Db :=
  (* Validate agent secret *)
  if negb (String.eqb (Schemas.secret report) agent_secret)
  then (HTTPException 403 "Invalid agent secret", db)
  else
    (* Find or create the server by IP *)
    let found :=
      match select_by_ip db (Schemas.server_ip report) with
      | [] =>
          let hid := "agent-" ++ Schemas.server_ip report in
          (* [hetzner_id] is unique: the flush fails on a second row *)
          if existsb (fun s => String.eqb (hetzner_id s) hid) (servers db)
          then inl "IntegrityError"
          else
            let srv :=
              {| id := next_id (map id (servers db));
                 hetzner_id := hid;
                 name := Schemas.hostname report;
                 server_type := "dedicated";
                 source := dedicated;
                 status := "running";
                 datacenter := "";
                 ipv4 := Schemas.server_ip report;
                 cores := 0;
                 memory_gb := 0;
                 disk_gb := 0;
                 monthly_cost_eur := 0;
                 labels := None;
                 project_name := None;
                 created_at := now;
                 last_seen_at := now;
                 updated_at := now |} in
            inr (srv, (servers db ++ [srv])%list)
      | [srv] =>
          let srv' := set_seen srv now (Schemas.hostname report) in
          inr (srv',
               map (fun s => if (id s =? id srv)%Z then srv' else s) (servers db))
      | _ :: _ :: _ => inl "MultipleResultsFound"
      end in
    match found with
    | inl exception => (Unhandled exception, db)
    | inr (srv, servers') =>
        (* Insert metric snapshot *)
        let snapshot :=
          {| ms_id := next_id (map ms_id (metric_snapshots db));
             ms_server_id := id srv;
             timestamp := now;
             Models.cpu_percent := Schemas.ar_cpu_percent report;
             Models.memory_percent := Schemas.memory_percent report;
             Models.disk_percent := Schemas.disk_percent report;
             Models.network_in_mbps := Schemas.network_in_mbps report;
             Models.network_out_mbps := Schemas.network_out_mbps report;
             Models.load_avg_1m := Schemas.load_avg_1m report |} in
        (* Remove stale services for this server, then insert fresh ones *)
        let remaining :=
          filter (fun r => negb (rs_server_id r =? id srv)%Z) (running_services db) in
        match new_services (id srv) now (next_id (map rs_id remaining))
                           (Schemas.services report) with
        | None => (Unhandled "ValueError", db)
        | Some fresh =>
            (Ok "ok",
             {| servers := servers';
                metric_snapshots := (metric_snapshots db ++ [snapshot])%list;
                running_services := (remaining ++ fresh)%list;
                consolidation_recommendations := consolidation_recommendations db |})
        end
    end.

(** [GET /servers/{server_id}/services]: the rows of the server, by name. *)
Definition get_server_services (server_id : Z) (db : Db)
  : Response (list RunningService) :=
  if negb (existsb (fun s => (id s =? server_id)%Z) (servers db))
  then HTTPException 404 "Server not found"
  else
    Ok (Py.sorted_by (fun a b => String.leb (rs_name a) (rs_name b))
                     (filter (fun r => (rs_server_id r =? server_id)%Z)
                             (running_services db))).

End Routes.

(* ================================================================== *)
(** * services/hetzner_cloud.py and services/hetzner_robot.py *)
(* ================================================================== *)

Module HetznerClient.
Local Open Scope string_scope.

(** The two clients share [_request]; they differ in the error class. *)
Inductive Api := Cloud | Robot.

Definition MAX_RETRIES : nat := 3.
Definition INITIAL_BACKOFF_S : Q := 1.

Section WithPayload.

(** What [response.json()] returns. *)
Variable Payload : Type.

Record HttpResponse := mkHttpResponse {
  status_code : Z;
  retry_after : option string;   (* the Retry-After header *)
  text : string;
  json : option Payload           (* [None]: the body is not JSON *)
}.

Inductive Outcome :=
| Return (data : Payload)
| RaiseHetznerError (api : Api) (status_code : Z) (detail : string)
| RaiseValueError
| RaiseJSONDecodeError.

(** [float(s)] on a header; [None] is [ValueError]. *)
Variable float_of_string : string -> option Q.

(** [float(response.headers.get("Retry-After", str(backoff)))]. *)
Definition retry_after_of (response : HttpResponse) (backoff : Q) : option Q :=
  match retry_after response with
  | Some s => float_of_string s
  | None => Some backoff
  end.

(** The [for attempt in range(1, MAX_RETRIES + 1)] loop.  [transport n] is
    the response to the [n]-th request of the call; the second component
    is what was passed to [asyncio.sleep], in order. *)
Fixpoint attempts (api : Api) (transport : nat -> HttpResponse)
         (remaining attempt : nat) (backoff : Q) (slept : list Q)
  : Outcome * list Q :=
  match remaining with
  | O =>
      (* Exhausted all retries on 429 *)
      (RaiseHetznerError api 429 "Rate limit exceeded after max retries", slept)
  | S remaining' =>
      let response := transport attempt in
      if (status_code response =? 429)%Z then
        match retry_after_of response backoff with
        | None => (RaiseValueError, slept)
        | Some retry_after =>
            attempts api transport remaining' (S attempt) (backoff * 2)%Q
                     (slept ++ [retry_after])%list
        end
      else if (400 <=? status_code response)%Z then
        let detail := Py.take 500 (text response) in
        (RaiseHetznerError api (status_code response) detail, slept)
      else
        match json response with
        | Some data => (Return data, slept)
        | None => (RaiseJSONDecodeError, slept)
        end
  end.

Definition _request (api : Api) (transport : nat -> HttpResponse)
  : Outcome * list Q :=
  attempts api transport MAX_RETRIES 0 INITIAL_BACKOFF_S [].

End WithPayload.

Arguments status_code {Payload}.
Arguments retry_after {Payload}.
Arguments text {Payload}.
Arguments json {Payload}.
Arguments Return {Payload}.
Arguments RaiseHetznerError {Payload}.
Arguments RaiseValueError {Payload}.
Arguments RaiseJSONDecodeError {Payload}.
Arguments retry_after_of {Payload}.
Arguments attempts {Payload}.
Arguments _request {Payload}.

End HetznerClient.

(* ================================================================== *)
(** * routes/recommendations.py *)
(* ================================================================== *)

Module RecommendationRoutes.
Import Models Routes.
Local Open Scope string_scope.

(** [RecommendationStatus(s)]; [None] is [ValueError]. *)
Definition RecommendationStatus_of (s : string) : option RecommendationStatus :=
  if String.eqb s "pending" then Some pending
  else if String.eqb s "accepted" then Some accepted
  else if String.eqb s "dismissed" then Some dismissed
  else None.

Definition status_eqb (a b : RecommendationStatus) : bool :=
  match a, b with
  | pending, pending | accepted, accepted | dismissed, dismissed => true
  | _, _ => false
  end.

(** [ORDER BY monthly_savings_eur DESC]; rows of equal savings stay in
    table order. *)
Definition order_by_savings_desc (rows : list ConsolidationRecommendation)
  : list ConsolidationRecommendation :=
  Py.sorted_by (fun a b => Py.geb (monthly_savings_eur a) (monthly_savings_eur b)) rows.

(** [GET /recommendations]. *)
Definition list_recommendations (status : option string) (db : Db)
  : Response (list ConsolidationRecommendation) :=
  match status with
  | None => Ok (order_by_savings_desc (consolidation_recommendations db))
  | Some s =>
      (* Validate the status value *)
      match RecommendationStatus_of s with
      | None =>
          HTTPException 400
            ("Invalid status '" ++ s
               ++ "'. Must be one of: pending, accepted, dismissed")
      | Some status_enum =>
          Ok (order_by_savings_desc
                (filter (fun r => status_eqb (rec_status r) status_enum)
                        (consolidation_recommendations db)))
      end
  end.

(** [ConsolidationRecommendation.id == rec_id]. *)
Definition has_id (rec_id : Z) (r : ConsolidationRecommendation) : bool :=
  match Models.rec_id r with
  | Some i => (i =? rec_id)%Z
  | None => false
  end.

(** [rec.status = status]. *)
Definition set_status (r : ConsolidationRecommendation) (status : RecommendationStatus)
  : ConsolidationRecommendation :=
  {| rec_id := Models.rec_id r;
     group_name := group_name r;
     server_ids := server_ids r;
     target_server_type := target_server_type r;
     current_total_cost_eur := current_total_cost_eur r;
     projected_cost_eur := projected_cost_eur r;
     monthly_savings_eur := monthly_savings_eur r;
     rationale := rationale r;
     confidence := confidence r;
     rec_status := status;
     rec_created_at := rec_created_at r |}.

(** The body the two decisions share: select the row, 404 without one, set
    the status, commit, return the row. *)
Definition decide (status : RecommendationStatus) (rec_id : Z) (db : Db)
  : Response ConsolidationRecommendation * Db :=
  match filter (has_id rec_id) (consolidation_recommendations db) with
  | [] => (HTTPException 404 "Recommendation not found", db)
  | [rec] =>
      let rec' := set_status rec status in
      (Ok rec',
       {| servers := servers db;
          metric_snapshots := metric_snapshots db;
          running_services := running_services db;
          consolidation_recommendations :=
            map (fun r => if has_id rec_id r then rec' else r)
                (consolidation_recommendations db) |})
  | _ :: _ :: _ => (Unhandled "MultipleResultsFound", db)
  end.

(** [POST /recommendations/{rec_id}/dismiss]. *)
Definition dismiss_recommendation (rec_id : Z) (db : Db)
  : Response ConsolidationRecommendation * Db :=
  decide dismissed rec_id db.

(** [POST /recommendations/{rec_id}/accept]. *)
Definition accept_recommendation (rec_id : Z) (db : Db)
  : Response ConsolidationRecommendation * Db :=
  decide accepted rec_id db.

End RecommendationRoutes.

(* ================================================================== *)
(** * routes/costs.py *)
(* ================================================================== *)

Module Costs.
Import Models.
Local Open Scope string_scope.

Record CostBreakdown := mkCostBreakdown {
  category : string;
  cost_eur : Q;
  count : Z
}.

Record CostOverview := mkCostOverview {
  total_monthly_eur : Q;
  cloud_cost_eur : Q;
  dedicated_cost_eur : Q;
  potential_savings_eur : Q;
  server_count : Z;
  by_datacenter : list CostBreakdown;
  by_project : list CostBreakdown
}.

Section GroupBy.

Context {K : Type} (eqb : K -> K -> bool) (key : Server -> K).

(** The row joins the group of its key, or opens a new one. *)
Fixpoint insert_group (k : K) (row : Server) (groups : list (K * list Server))
  : list (K * list Server) :=
  match groups with
  | [] => [(k, [row])]
  | (k', rows) :: rest =>
      if eqb k k' then (k', (rows ++ [row])%list) :: rest
      else (k', rows) :: insert_group k row rest
  end.

(** [GROUP BY key]: one group per key, in order of first appearance. *)
Definition group_by (rows : list Server) : list (K * list Server) :=
  fold_left (fun groups row => insert_group (key row) row groups) rows [].

End GroupBy.

(** [func.coalesce(func.sum(Server.monthly_cost_eur), 0.0)]. *)
Definition sum_cost (rows : list Server) : Q := Py.sum (map monthly_cost_eur rows).

Definition source_eqb (a b : ServerSource) : bool :=
  match a, b with
  | cloud, cloud | dedicated, dedicated => true
  | _, _ => false
  end.

Definition option_string_eqb (a b : option string) : bool :=
  match a, b with
  | Some x, Some y => String.eqb x y
  | None, None => true
  | _, _ => false
  end.

(** [s or default] on a string. *)
Definition or_default (s default : string) : string :=
  if String.eqb s "" then default else s.

(** [sorted(items, key=lambda b: b.cost_eur, reverse=True)]. *)
Definition sorted_by_cost_desc (items : list CostBreakdown) : list CostBreakdown :=
  Py.sorted_by (fun a b => Py.geb (cost_eur a) (cost_eur b)) items.

(** The loop over the rows grouped by source, on [(cloud_cost, dedicated_cost)]. *)
Definition source_loop (source_rows : list (ServerSource * Q)) : Q * Q :=
  fold_left
    (fun costs '(source, cost) =>
       match source with
       | cloud => (cost, snd costs)
       | dedicated => (fst costs, cost)
       end)
    source_rows (0%Q, 0%Q).

(** [GET /costs/overview]. *)
Definition cost_overview (db : Db) : CostOverview :=
  (* Total cost and server count *)
  let total_monthly_eur := sum_cost (servers db) in
  let server_count := Py.len (servers db) in
  (* Cloud vs dedicated breakdown *)
  let source_rows :=
    map (fun '(source, rows) => (source, sum_cost rows))
        (group_by source_eqb source (servers db)) in
  let '(cloud_cost, dedicated_cost) := source_loop source_rows in
  (* By datacenter *)
  let by_datacenter :=
    map (fun '(dc, rows) =>
           {| category := or_default dc "unknown";
              cost_eur := Py.round (sum_cost rows) 2;
              count := Py.len rows |})
        (group_by String.eqb datacenter (servers db)) in
  (* By project *)
  let by_project :=
    map (fun '(project, rows) =>
           {| category :=
                match project with
                | Some p => or_default p "unassigned"
                | None => "unassigned"
                end;
              cost_eur := Py.round (sum_cost rows) 2;
              count := Py.len rows |})
        (group_by option_string_eqb project_name (servers db)) in
  (* Potential savings from pending recommendations *)
  let potential_savings_eur :=
    Py.sum (map monthly_savings_eur
                (filter (fun r => is_pending (rec_status r))
                        (consolidation_recommendations db))) in
  {| total_monthly_eur := Py.round total_monthly_eur 2;
     cloud_cost_eur := Py.round cloud_cost 2;
     dedicated_cost_eur := Py.round dedicated_cost 2;
     potential_savings_eur := Py.round potential_savings_eur 2;
     server_count := server_count;
     by_datacenter := sorted_by_cost_desc by_datacenter;
     by_project := sorted_by_cost_desc by_project |}.

End Costs.

(* ================================================================== *)
(** * services/hetzner_cloud.py: the paginated GET *)
(* ================================================================== *)

Module HetznerCloud.
Import HetznerClient.
Local Open Scope string_scope.

(** [meta.pagination.last_page] of a decoded page: the key (or one of the
    dicts above it) is missing, or it holds [null], or a number. *)
Inductive LastPage := Missing | Null | Number (n : Z).

Section WithItems.

(** A raw item of a listing: a server or a server type. *)
Variable Item : Type.

(** A decoded page: [data.get(result_key, [])] and the paging information. *)
Record Page := mkPage {
  items : list Item;
  last_page : LastPage
}.

(** How [_get_all_pages] ends. *)
Inductive Result :=
| Items (all_items : list Item)
| RequestFailed (outcome : Outcome Page)   (* what [_request] raised *)
| RaiseTypeError.                          (* [page >= None] *)

Variable float_of_string : string -> option Q.

(** [transport page n]: the response to the [n]-th request for the page. *)
Variable transport : Z -> nat -> HttpResponse Page.

(** The [while True] loop; [None] when the fuel runs out first. *)
Fixpoint pages_loop (fuel : nat) (page : Z) (all_items : list Item) : option Result :=
  match fuel with
  | O => None
  | S fuel' =>
      match fst (_request float_of_string Cloud (transport page)) with
      | Return data =>
          let all_items := (all_items ++ items data)%list in
          (* Hetzner uses meta.pagination for paging info *)
          match last_page data with
          | Missing => Some (Items all_items)   (* total_pages = page *)
          | Null => Some RaiseTypeError
          | Number total_pages =>
              if (page >=? total_pages)%Z then Some (Items all_items)
              else pages_loop fuel' (page + 1)%Z all_items
          end
      | failure => Some (RequestFailed failure)
      end
  end.

Definition _get_all_pages (fuel : nat) : option Result := pages_loop fuel 1%Z [].

End WithItems.

Arguments items {Item}.
Arguments last_page {Item}.
Arguments Items {Item}.
Arguments RequestFailed {Item}.
Arguments RaiseTypeError {Item}.
Arguments pages_loop {Item}.
Arguments _get_all_pages {Item}.

End HetznerCloud.

(* ================================================================== *)
(** * agent/infrascope-agent.py: the local queue *)
(* ================================================================== *)

Module Agent.
Local Open Scope string_scope.

(** A file of the queue directory: its name and its text.  The directory
    is the list of its files; a missing directory is an empty one. *)
Record File := mkFile {
  fname : string;
  text : string
}.

(** [s.endswith(suffix)]. *)
Fixpoint ends_with (suffix s : string) : bool :=
  String.eqb s suffix
  || match s with
     | EmptyString => false
     | String _ rest => ends_with suffix rest
     end.

(** [QUEUE_DIR.glob("report-*.json")] on a name. *)
Definition is_report (name : string) : bool :=
  String.prefix "report-" name && ends_with ".json" name.

(** [f.unlink()]. *)
Definition unlink (f : File) (dir : list File) : list File :=
  filter (fun g => negb (String.eqb (fname g) (fname f))) dir.

(** [path.write_text(text)]: the file is created, or its text replaced. *)
Fixpoint write_text (name text : string) (dir : list File) : list File :=
  match dir with
  | [] => [mkFile name text]
  | g :: rest =>
      if String.eqb (fname g) name then mkFile name text :: rest
      else g :: write_text name text rest
  end.

Section WithReports.

Variable Report : Type.

(** [json.loads(text)]; [None] when it raises. *)
Variable json_loads : string -> option Report.
Variable json_dumps : Report -> string.

(** [send_report(report)]: [Some true] when the server answers 200,
    [Some false] for another answer or a [URLError], [None] when
    [urlopen] raises anything else. *)
Variable send_report : Report -> option bool.

(** The loop of [flush_queue] over the sorted report files, on the
    directory and the reports delivered so far. *)
Fixpoint flush_loop (files dir : list File) (sent : list Report)
  : list File * list Report :=
  match files with
  | [] => (dir, sent)
  | f :: rest =>
      match json_loads (text f) with
      | None => flush_loop rest (unlink f dir) sent   (* Corrupted file, remove it *)
      | Some report =>
          match send_report report with
          | Some true => flush_loop rest (unlink f dir) (sent ++ [report])%list
          | Some false => (dir, sent)                 (* Server still down, stop trying *)
          | None => flush_loop rest (unlink f dir) sent
          end
      end
  end.

(** Try to send queued reports. *)
Definition flush_queue (dir : list File) : list File * list Report :=
  flush_loop
    (Py.sorted_by (fun a b => String.leb (fname a) (fname b))
                  (filter (fun f => is_report (fname f)) dir))
    dir [].

(** Queue a report locally if the server is unreachable; [now] is
    [int(time.time())]. *)
Definition queue_report (now : Z) (report : Report) (dir : list File) : list File :=
  write_text ("report-" ++ Py.str_nat now ++ ".json") (json_dumps report) dir.

(** One turn of the loop of [main], without the sleep: flush the queue,
    send the new report, queue it when it is not delivered.  An exception of
    [send_report] ends the turn. *)
Definition main_turn (now : Z) (report : Report) (dir : list File)
  : list File * list Report :=
  let '(dir, sent) := flush_queue dir in
  match send_report report with
  | Some true => (dir, (sent ++ [report])%list)
  | Some false => (queue_report now report dir, sent)
  | None => (dir, sent)
  end.

End WithReports.

Arguments flush_loop {Report}.
Arguments flush_queue {Report}.
Arguments queue_report {Report}.
Arguments main_turn {Report}.

End Agent.

(* ================================================================== *)
(** * routes/servers.py: the read routes *)
(* ================================================================== *)

Module ServerRoutes.
Import Models Analyzer Routes.
Local Open Scope string_scope.

Record MetricSummary := mkMetricSummary {
  sm_cpu_percent : Q;
  sm_memory_percent : Q;
  sm_disk_percent : Q;
  sm_network_in_mbps : Q;
  sm_network_out_mbps : Q;
  sm_utilization_tier : UtilizationTier;
  sm_avg_cpu_30d : Q;
  sm_avg_memory_30d : Q;
  sm_peak_cpu_30d : Q;
  sm_peak_memory_30d : Q
}.

Record ServerListItem := mkServerListItem {
  li_id : Z;
  li_hetzner_id : string;
  li_name : string;
  li_server_type : string;
  li_source : string;
  li_status : string;
  li_datacenter : string;
  li_ipv4 : string;
  li_cores : Z;
  li_memory_gb : Q;
  li_disk_gb : Z;
  li_monthly_cost_eur : Q;
  li_labels : option (list (string * string));
  li_project_name : option string;
  li_last_seen_at : Z;
  li_metrics : option MetricSummary
}.

(** [ServerDetail(ServerListItem)]. *)
Record ServerDetail := mkServerDetail {
  sd_item : ServerListItem;
  sd_created_at : Z;
  sd_updated_at : Z
}.

Record MetricPoint := mkMetricPoint {
  mp_timestamp : Z;
  mp_cpu_percent : Q;
  mp_memory_percent : Q;
  mp_disk_percent : Q;
  mp_network_in_mbps : Q;
  mp_network_out_mbps : Q;
  mp_load_avg_1m : option Q
}.

Record HealthResponse := mkHealthResponse {
  hr_status : string;
  hr_demo_mode : bool;
  hr_server_count : Z;
  hr_last_collection : option Z
}.

Definition source_value (s : ServerSource) : string :=
  match s with cloud => "cloud" | dedicated => "dedicated" end.

(** Convert a period string like '7d', '30d', '90d' into a cutoff. *)
Definition _parse_period (period : string) (now : Z) : Z :=
  let mapping := [("7d", 7); ("30d", 30); ("90d", 90)]%Z in
  let days := Py.get_default period 30%Z mapping in
  now - timedelta_days days.

(** [ORDER BY timestamp DESC]; rows of one time stay in table order. *)
Definition newest_first (rows : list MetricSnapshot) : list MetricSnapshot :=
  Py.sorted_by (fun a b => (timestamp b <=? timestamp a)%Z) rows.

(** [ORDER BY timestamp ASC]. *)
Definition oldest_first (rows : list MetricSnapshot) : list MetricSnapshot :=
  Py.sorted_by (fun a b => (timestamp a <=? timestamp b)%Z) rows.

(** [x or 0.0] on an aggregate. *)
Definition or_zero (x : option Q) : Q :=
  match x with Some v => v | None => 0%Q end.

(** The latest snapshot of the server and its 30-day aggregates. *)
Definition _build_metric_summary (db : Db) (server_id now : Z) : option MetricSummary :=
  let cutoff_30d := now - timedelta_days 30 in
  (* Latest snapshot *)
  let latest :=
    hd_error (newest_first
                (filter (fun m => (ms_server_id m =? server_id)%Z)
                        (metric_snapshots db))) in
  match latest with
  | None => None
  | Some latest =>
      (* 30-day aggregates *)
      let rows :=
        filter (fun m => (ms_server_id m =? server_id)%Z && (cutoff_30d <=? timestamp m)%Z)
               (metric_snapshots db) in
      let avg_cpu := or_zero (sql_avg (map cpu_percent rows)) in
      let avg_mem := or_zero (sql_avg (map memory_percent rows)) in
      let peak_cpu := or_zero (sql_max (map cpu_percent rows)) in
      let peak_mem := or_zero (sql_max (map memory_percent rows)) in
      Some {| sm_cpu_percent := cpu_percent latest;
              sm_memory_percent := memory_percent latest;
              sm_disk_percent := disk_percent latest;
              sm_network_in_mbps := network_in_mbps latest;
              sm_network_out_mbps := network_out_mbps latest;
              sm_utilization_tier := _classify_utilization avg_cpu;
              sm_avg_cpu_30d := Py.round avg_cpu 1;
              sm_avg_memory_30d := Py.round avg_mem 1;
              sm_peak_cpu_30d := Py.round peak_cpu 1;
              sm_peak_memory_30d := Py.round peak_mem 1 |}
  end.

Definition item_of (db : Db) (now : Z) (srv : Server) : ServerListItem :=
  {| li_id := id srv;
     li_hetzner_id := hetzner_id srv;
     li_name := name srv;
     li_server_type := server_type srv;
     li_source := source_value (source srv);
     li_status := Models.status srv;
     li_datacenter := datacenter srv;
     li_ipv4 := ipv4 srv;
     li_cores := cores srv;
     li_memory_gb := memory_gb srv;
     li_disk_gb := disk_gb srv;
     li_monthly_cost_eur := monthly_cost_eur srv;
     li_labels := labels srv;
     li_project_name := project_name srv;
     li_last_seen_at := last_seen_at srv;
     li_metrics := _build_metric_summary db (id srv) now |}.

Section WithDatabase.

(** [column.ilike(pattern)] as the database evaluates it. *)
Variable ilike : string -> string -> bool.

(** [GET /servers]. *)
Definition list_servers (source status : option string) (sort_by : string)
           (search : option string) (db : Db) (now : Z) : list ServerListItem :=
  let keep (srv : Server) : bool :=
    match source with
    | Some src => String.eqb (source_value (Models.source srv)) src
    | None => true
    end
    && match status with
       | Some st => String.eqb (Models.status srv) st
       | None => true
       end
    && match search with
       | Some text => ilike (name srv) ("%" ++ text ++ "%")
       | None => true
       end in
  let servers := filter keep (servers db) in
  let items := map (item_of db now) servers in
  (* Sort results *)
  if String.eqb sort_by "cost" then
    Py.sorted_by (fun a b => Py.geb (li_monthly_cost_eur a) (li_monthly_cost_eur b)) items
  else if String.eqb sort_by "cpu" then
    let cpu (s : ServerListItem) : Q :=
      match li_metrics s with Some m => sm_cpu_percent m | None => 0%Q end in
    Py.sorted_by (fun a b => Py.geb (cpu a) (cpu b)) items
  else
    (* Default: sort by name *)
    Py.sorted_by (fun a b => String.leb (Py.lower (li_name a)) (Py.lower (li_name b))) items.

End WithDatabase.

(** [GET /servers/{server_id}]. *)
Definition get_server (server_id : Z) (db : Db) (now : Z) : Response ServerDetail :=
  match filter (fun s => (id s =? server_id)%Z) (servers db) with
  | [] => HTTPException 404 "Server not found"
  | [srv] =>
      Ok {| sd_item := item_of db now srv;
            sd_created_at := created_at srv;
            sd_updated_at := updated_at srv |}
  | _ :: _ :: _ => Unhandled "MultipleResultsFound"
  end.

Definition point_of (snap : MetricSnapshot) : MetricPoint :=
  {| mp_timestamp := timestamp snap;
     mp_cpu_percent := cpu_percent snap;
     mp_memory_percent := memory_percent snap;
     mp_disk_percent := disk_percent snap;
     mp_network_in_mbps := network_in_mbps snap;
     mp_network_out_mbps := network_out_mbps snap;
     mp_load_avg_1m := load_avg_1m snap |}.

(** [GET /servers/{server_id}/metrics]. *)
Definition get_server_metrics (server_id : Z) (period : string) (db : Db) (now : Z)
  : Response (list MetricPoint) :=
  (* Verify server exists *)
  match filter (fun s => (id s =? server_id)%Z) (servers db) with
  | [] => HTTPException 404 "Server not found"
  | _ :: _ :: _ => Unhandled "MultipleResultsFound"
  | [_] =>
      let cutoff := _parse_period period now in
      let snapshots :=
        oldest_first
          (filter (fun m => (ms_server_id m =? server_id)%Z && (cutoff <=? timestamp m)%Z)
                  (metric_snapshots db)) in
      Ok (map point_of snapshots)
  end.

(** [GET /health]. *)
Definition health_check (demo_mode : bool) (db : Db) : HealthResponse :=
  let server_count := Py.len (servers db) in
  (* the latest metric timestamp as a proxy for last collection time *)
  let last_collection := hd_error (map timestamp (newest_first (metric_snapshots db))) in
  {| hr_status := "ok";
     hr_demo_mode := demo_mode;
     hr_server_count := server_count;
     hr_last_collection := last_collection |}.

End ServerRoutes.

(* ================================================================== *)
(** * services/collector.py: the inventory *)
(* ================================================================== *)

Module CollectorInventory.
Import Models Collector.
Local Open Scope string_scope.

(** The session of one collection job: what is committed, and what the
    session works on (flushed or pending, committed by the next
    [db.commit()], dropped when the session is closed before).  A select
    sees the rows added before it in the session. *)
Record Session := mkSession {
  committed : Db;
  working : Db
}.

Definition commit (s : Session) : Session :=
  {| committed := working s; working := working s |}.

(** How a collector leaves the session: by returning, or by an exception
    that the caller catches. *)
Inductive Run :=
| Done (s : Session)
| Raised (exception : string) (s : Session).

Definition session_of (r : Run) : Session :=
  match r with Done s => s | Raised _ s => s end.

(** A field that the code expects to hold a dict: it does, or it holds
    something else (given as its [str()]), or it is missing. *)
Inductive Field (A : Type) :=
| Dict (d : A)
| Other (text : string)
| Absent.
Arguments Dict {A}.
Arguments Other {A}.
Arguments Absent {A}.

(** One entry of a ["prices"] list: its location and
    [price_monthly.gross], [None] where a key on the way is missing. *)
Record PriceEntry := mkPriceEntry {
  location : option string;
  gross : option Json
}.

(** A server type object of the Cloud API. *)
Record RawServerType := mkRawServerType {
  st_name : option string;
  st_cores : option Z;
  st_memory : option Q;
  st_disk : option Z;
  st_prices : list PriceEntry
}.

(** A server object of the Cloud API. *)
Record RawCloudServer := mkRawCloudServer {
  raw_id : option Z;
  raw_name : option string;
  raw_server_type : Field RawServerType;
  raw_status : option string;
  raw_datacenter : Field (option string);            (* its ["name"] *)
  raw_public_net : Field (Field (option string));    (* its ["ipv4"]["ip"] *)
  raw_labels : option (list (string * string))
}.

(** A server object of the Robot API. *)
Record RawDedicated := mkRawDedicated {
  server_ip : option string;
  server_number : option Z;
  server_name : option string;
  product : option string;
  dc : option string;
  rd_status : option string
}.

(** What the Robot API answers to [GET /server]: a list of objects, each
    wrapping the server under ["server"] or not; or something else. *)
Inductive RobotItem := Wrapped (server : RawDedicated) | Bare (item : RawDedicated).
Inductive RobotData := RobotList (items : list RobotItem) | RobotOther.

(** [hetzner_robot.list_servers()], on the outcome of its request; [None]
    when the request raises. *)
Definition robot_list_servers (response : HetznerClient.Outcome RobotData)
  : option (list RawDedicated) :=
  match response with
  | HetznerClient.Return (RobotList items) =>
      Some (map (fun item => match item with Wrapped s => s | Bare s => s end) items)
  | HetznerClient.Return RobotOther => Some []
  | _ => None
  end.

(** [d[k] = v] on a dict keyed by strings. *)
Fixpoint dict_set {V} (k : string) (v : V) (d : list (string * V)) : list (string * V) :=
  match d with
  | [] => [(k, v)]
  | (k', v') :: rest =>
      if String.eqb k k' then (k', v) :: rest else (k', v') :: dict_set k v rest
  end.

Definition select_by_hetzner_id (db : Db) (hetzner_id : string) : list Server :=
  filter (fun s => String.eqb (Models.hetzner_id s) hetzner_id) (servers db).

(** The row of the server is replaced by its new state. *)
Definition update_server (server' : Server) (db : Db) : Db :=
  {| servers := map (fun s => if (id s =? id server')%Z then server' else s) (servers db);
     metric_snapshots := metric_snapshots db;
     running_services := running_services db;
     consolidation_recommendations := consolidation_recommendations db |}.

Definition add_server (server : Server) (db : Db) : Db :=
  {| servers := (servers db ++ [server])%list;
     metric_snapshots := metric_snapshots db;
     running_services := running_services db;
     consolidation_recommendations := consolidation_recommendations db |}.

Section WithApis.

Variable float_of_string : string -> option Q.

(** [float(price_entry.get("price_monthly", {}).get("gross", 0))]; [None]
    when it raises [ValueError] or [TypeError]. *)
Definition monthly_gross (price_entry : PriceEntry) : option Q :=
  match gross price_entry with
  | None => Some 0%Q
  | Some v => float float_of_string v
  end.

(** The first inline price that converts. *)
Fixpoint first_inline_price (prices : list PriceEntry) : option Q :=
  match prices with
  | [] => None
  | price_entry :: rest =>
      match monthly_gross price_entry with
      | Some monthly => Some monthly
      | None => first_inline_price rest
      end
  end.

(** Extract monthly cost from the server type object or the price map. *)
Definition _extract_monthly_price (server_type_obj : RawServerType)
           (price_map : list (string * Q)) (type_name : string) : Q :=
  (* Try inline prices first *)
  match first_inline_price (st_prices server_type_obj) with
  | Some monthly => monthly
  | None =>
      (* Fall back to price map *)
      Py.get_default type_name 0%Q price_map
  end.

(** The first entry for fsn1, where the inner loop breaks. *)
Fixpoint reference_entry (prices : list PriceEntry) : option PriceEntry :=
  match prices with
  | [] => None
  | price_entry :: rest =>
      match location price_entry with
      | Some l => if String.eqb l "fsn1" then Some price_entry else reference_entry rest
      | None => reference_entry rest
      end
  end.

(** Build a type-name -> monthly EUR price map from the Cloud API; the
    argument is the outcome of [hetzner_cloud.list_server_types()]. *)
Definition _build_cloud_price_map (types : HetznerCloud.Result RawServerType)
  : list (string * Q) :=
  match types with
  | HetznerCloud.Items types =>
      fold_left
        (fun price_map st =>
           let name := match st_name st with Some n => n | None => "" end in
           match reference_entry (st_prices st) with
           | Some price_entry =>
               match monthly_gross price_entry with
               | Some monthly => dict_set name monthly price_map
               | None => price_map
               end
           | None => price_map
           end)
        types []
  | _ => []
  end.

Variable metrics_api : MetricsApi.

Definition empty_type : RawServerType :=
  {| st_name := None; st_cores := None; st_memory := None; st_disk := None;
     st_prices := [] |}.

Definition or_else {A} (x : option A) (default : A) : A :=
  match x with Some v => v | None => default end.

(** One turn of the loop of [collect_cloud_servers] on the working state;
    [inr exception] when the turn raises. *)
Definition cloud_turn (price_map : list (string * Q)) (now : Z)
           (raw : RawCloudServer) (db : Db) : Db + string :=
  match raw_id raw with
  | None => inr "KeyError"
  | Some raw_id =>
      let hetzner_id := Py.str_nat raw_id in
      let server_type_name :=
        match raw_server_type raw with
        | Dict st => or_else (st_name st) "unknown"
        | Other text => text
        | Absent => "unknown"
        end in
      (* Extract specs from the server type object when available *)
      let st := match raw_server_type raw with Dict st => st | _ => empty_type end in
      let cores := or_else (st_cores st) 0%Z in
      let memory_gb := or_else (st_memory st) 0%Q in
      let disk_gb := or_else (st_disk st) 0%Z in
      (* Pricing *)
      let monthly_cost := _extract_monthly_price st price_map server_type_name in
      (* Datacenter *)
      let datacenter :=
        match raw_datacenter raw with
        | Dict name => or_else name ""
        | Other text => text
        | Absent => ""
        end in
      (* Public IP *)
      let ipv4 :=
        match raw_public_net raw with
        | Dict (Dict ip) => or_else ip ""
        | Dict (Other text) => text
        | Dict Absent => ""
        | Other _ => ""
        | Absent => ""
        end in
      (* Upsert server *)
      match select_by_hetzner_id db hetzner_id with
      | [] =>
          let server :=
            {| id := next_id (map id (servers db));
               Models.hetzner_id := hetzner_id;
               name := or_else (raw_name raw) hetzner_id;
               server_type := server_type_name;
               source := cloud;
               status := or_else (raw_status raw) "running";
               Models.datacenter := datacenter;
               Models.ipv4 := ipv4;
               Models.cores := cores;
               Models.memory_gb := memory_gb;
               Models.disk_gb := disk_gb;
               monthly_cost_eur := monthly_cost;
               labels := Some (or_else (raw_labels raw) []);
               project_name := None;
               created_at := now;
               last_seen_at := now;
               updated_at := now |} in
          (* Fetch and store metrics *)
          inl (_collect_cloud_metrics float_of_string metrics_api
                                      (add_server server db) server hetzner_id now)
      | [server] =>
          let server' :=
            {| id := id server;
               Models.hetzner_id := Models.hetzner_id server;
               name := or_else (raw_name raw) (name server);
               server_type := server_type_name;
               source := source server;
               status := or_else (raw_status raw) (status server);
               Models.datacenter := datacenter;
               Models.ipv4 := ipv4;
               Models.cores := cores;
               Models.memory_gb := memory_gb;
               Models.disk_gb := disk_gb;
               monthly_cost_eur := monthly_cost;
               labels := match raw_labels raw with
                         | Some l => Some l
                         | None => labels server
                         end;
               project_name := project_name server;
               created_at := created_at server;
               last_seen_at := now;
               updated_at := now |} in
          inl (_collect_cloud_metrics float_of_string metrics_api
                                      (update_server server' db) server' hetzner_id now)
      | _ :: _ :: _ => inr "MultipleResultsFound"
      end
  end.

Fixpoint cloud_loop (price_map : list (string * Q)) (now : Z)
         (raw_servers : list RawCloudServer) (db : Db) : Db * option string :=
  match raw_servers with
  | [] => (db, None)
  | raw :: rest =>
      match cloud_turn price_map now raw db with
      | inl db' => cloud_loop price_map now rest db'
      | inr exception => (db, Some exception)
      end
  end.

(** Fetch all cloud servers and their metrics; the arguments are the
    outcomes of [hetzner_cloud.list_servers()] and [list_server_types()]. *)
Definition collect_cloud_servers
           (cloud_servers : HetznerCloud.Result RawCloudServer)
           (cloud_types : HetznerCloud.Result RawServerType)
           (now : Z) (s : Session) : Run :=
  match cloud_servers with
  | HetznerCloud.Items raw_servers =>
      (* Optionally fetch server type pricing for cost mapping *)
      let price_map := _build_cloud_price_map cloud_types in
      match cloud_loop price_map now raw_servers (working s) with
      | (db, None) => Done (commit {| committed := committed s; working := db |})
      | (db, Some exception) =>
          Raised exception {| committed := committed s; working := db |}
      end
  | _ => Done s   (* Failed to fetch cloud servers *)
  end.

(** One turn of the loop of [collect_dedicated_servers]. *)
Definition dedicated_turn (now : Z) (raw : RawDedicated) (db : Db) : Db + string :=
  let server_ip := or_else (server_ip raw) "" in
  let hetzner_id :=
    match server_number raw with
    | Some n => Py.str_nat n
    | None => server_ip
    end in
  let product := or_else (product raw) "dedicated" in
  let datacenter := or_else (dc raw) "" in
  match select_by_hetzner_id db hetzner_id with
  | [] =>
      inl (add_server
             {| id := next_id (map id (servers db));
                Models.hetzner_id := hetzner_id;
                name := or_else (server_name raw) ("dedicated-" ++ hetzner_id);
                server_type := product;
                source := dedicated;
                status := or_else (rd_status raw) "running";
                Models.datacenter := datacenter;
                Models.ipv4 := server_ip;
                Models.cores := 0;
                Models.memory_gb := 0;
                Models.disk_gb := 0;
                monthly_cost_eur := 0;  (* Robot API doesn't expose exact pricing *)
                labels := Some [];
                project_name := None;
                created_at := now;
                last_seen_at := now;
                updated_at := now |}
             db)
  | [server] =>
      inl (update_server
             {| id := id server;
                Models.hetzner_id := Models.hetzner_id server;
                name := or_else (server_name raw) (name server);
                server_type := product;
                source := source server;
                status := or_else (rd_status raw) (status server);
                Models.datacenter := datacenter;
                Models.ipv4 := server_ip;
                Models.cores := cores server;
                Models.memory_gb := memory_gb server;
                Models.disk_gb := disk_gb server;
                monthly_cost_eur := monthly_cost_eur server;
                labels := labels server;
                project_name := project_name server;
                created_at := created_at server;
                last_seen_at := now;
                updated_at := now |}
             db)
  | _ :: _ :: _ => inr "MultipleResultsFound"
  end.

Fixpoint dedicated_loop (now : Z) (raw_servers : list RawDedicated) (db : Db)
  : Db * option string :=
  match raw_servers with
  | [] => (db, None)
  | raw :: rest =>
      match dedicated_turn now raw db with
      | inl db' => dedicated_loop now rest db'
      | inr exception => (db, Some exception)
      end
  end.

(** Fetch all dedicated servers from the Hetzner Robot API. *)
Definition collect_dedicated_servers
           (hetzner_robot_user : string)
           (robot : HetznerClient.Outcome RobotData)
           (now : Z) (s : Session) : Run :=
  if String.eqb hetzner_robot_user "" then Done s   (* not configured, skipping *)
  else
    match robot_list_servers robot with
    | None => Done s   (* Failed to fetch dedicated servers *)
    | Some raw_servers =>
        match dedicated_loop now raw_servers (working s) with
        | (db, None) => Done (commit {| committed := committed s; working := db |})
        | (db, Some exception) =>
            Raised exception {| committed := committed s; working := db |}
        end
    end.

(** Run the full collection cycle: cloud + dedicated, each wrapped in
    try/except.  The job then closes the session: the result is what is
    committed. *)
Definition run_collection
           (cloud_servers : HetznerCloud.Result RawCloudServer)
           (cloud_types : HetznerCloud.Result RawServerType)
           (hetzner_robot_user : string)
           (robot : HetznerClient.Outcome RobotData)
           (now : Z) (db : Db) : Db :=
  let s := {| committed := db; working := db |} in
  let s := session_of (collect_cloud_servers cloud_servers cloud_types now s) in
  let s := session_of (collect_dedicated_servers hetzner_robot_user robot now s) in
  committed s.

End WithApis.

End CollectorInventory.

(* ================================================================== *)
(** * Proofs *)
(* ================================================================== *)

(** ** Numbers *)

Module PyFacts.

Lemma ltb_lt (x y : Q) : Py.ltb x y = true <-> (x < y)%Q.
Proof.
  unfold Py.ltb. rewrite negb_true_iff.
  split; intro H.
  - apply Qnot_le_lt. intro Hle. apply Qle_bool_iff in Hle. congruence.
  - destruct (Qle_bool y x) eqn:E; [|reflexivity].
    apply Qle_bool_iff in E. exfalso. exact (Qlt_not_le _ _ H E).
Qed.

Lemma ltb_ge (x y : Q) : Py.ltb x y = false <-> (y <= x)%Q.
Proof.
  unfold Py.ltb. rewrite negb_false_iff. apply Qle_bool_iff.
Qed.

Lemma leb_le (x y : Q) : Py.leb x y = true <-> (x <= y)%Q.
Proof. apply Qle_bool_iff. Qed.

Lemma leb_gt (x y : Q) : Py.leb x y = false <-> (y < x)%Q.
Proof.
  unfold Py.leb. split; intro H.
  - apply Qnot_le_lt. intro Hle. apply Qle_bool_iff in Hle. congruence.
  - destruct (Qle_bool x y) eqn:E; [|reflexivity].
    apply Qle_bool_iff in E. exfalso. exact (Qlt_not_le _ _ H E).
Qed.

Lemma gtb_gt (x y : Q) : Py.gtb x y = true <-> (y < x)%Q.
Proof. apply ltb_lt. Qed.

Lemma gtb_le (x y : Q) : Py.gtb x y = false <-> (x <= y)%Q.
Proof. apply ltb_ge. Qed.

Lemma geb_ge (x y : Q) : Py.geb x y = true <-> (y <= x)%Q.
Proof. apply leb_le. Qed.

Lemma geb_lt (x y : Q) : Py.geb x y = false <-> (x < y)%Q.
Proof. apply leb_gt. Qed.

Lemma min_spec (a b : Q) :
  ((b < a)%Q /\ Py.min a b = b) \/ ((a <= b)%Q /\ Py.min a b = a).
Proof.
  unfold Py.min. destruct (Py.ltb b a) eqn:E.
  - left. split; [apply ltb_lt; assumption | reflexivity].
  - right. split; [apply ltb_ge; assumption | reflexivity].
Qed.

Lemma max_spec (a b : Q) :
  ((a < b)%Q /\ Py.max a b = b) \/ ((b <= a)%Q /\ Py.max a b = a).
Proof.
  unfold Py.max. destruct (Py.gtb b a) eqn:E.
  - left. split; [apply gtb_gt; assumption | reflexivity].
  - right. split; [apply gtb_le; assumption | reflexivity].
Qed.

(** *** Rounding *)

Lemma round_half_even_compat (x y : Q) :
  (x == y)%Q -> Py.round_half_even x = Py.round_half_even y.
Proof.
  intro E. unfold Py.round_half_even.
  rewrite (Qfloor_comp x y E).
  assert (C : (x - inject_Z (Qfloor y) ?= 1 # 2)%Q = (y - inject_Z (Qfloor y) ?= 1 # 2)%Q)
    by (rewrite E; reflexivity).
  rewrite C. reflexivity.
Qed.

(** The rounded integer is within one half of the value. *)
Lemma round_half_even_near (q : Q) :
  (inject_Z (Py.round_half_even q) - (1 # 2) <= q)%Q
  /\ (q <= inject_Z (Py.round_half_even q) + (1 # 2))%Q.
Proof.
  unfold Py.round_half_even.
  pose proof (Qfloor_le q) as Hlo.
  pose proof (Qlt_floor q) as Hhi.
  rewrite inject_Z_plus in Hhi.
  change (inject_Z 1) with 1%Q in Hhi.
  set (f := Qfloor q) in *.
  destruct (q - inject_Z f ?= 1 # 2)%Q eqn:C.
  - apply Qeq_alt in C.
    destruct (Z.even f); [| rewrite inject_Z_plus; change (inject_Z 1) with 1%Q ];
      split; lra.
  - apply Qlt_alt in C. split; lra.
  - apply Qgt_alt in C. rewrite inject_Z_plus. change (inject_Z 1) with 1%Q.
    split; lra.
Qed.

Lemma inject_Z_half_le (a n : Z) :
  (inject_Z a <= inject_Z n + (1 # 2))%Q -> (a <= n)%Z.
Proof.
  intro H.
  destruct (Z_le_gt_dec a n) as [L|G]; [exact L|exfalso].
  assert (n + 1 <= a)%Z as G' by lia.
  rewrite Zle_Qle, inject_Z_plus in G'. change (inject_Z 1) with 1%Q in G'.
  lra.
Qed.

Lemma round_half_even_le (q : Q) (n : Z) :
  (q <= inject_Z n)%Q -> (Py.round_half_even q <= n)%Z.
Proof.
  intro H. destruct (round_half_even_near q) as [Hlo _].
  apply inject_Z_half_le. lra.
Qed.

Lemma round_half_even_ge (q : Q) (n : Z) :
  (inject_Z n <= q)%Q -> (n <= Py.round_half_even q)%Z.
Proof.
  intro H. destruct (round_half_even_near q) as [_ Hhi].
  apply inject_Z_half_le. lra.
Qed.

Lemma round_half_even_Z (n : Z) : Py.round_half_even (inject_Z n) = n.
Proof.
  apply Z.le_antisymm.
  - apply round_half_even_le. lra.
  - apply round_half_even_ge. lra.
Qed.

Lemma pow10_pos (n : nat) : (0 < Py.pow10 n)%Z.
Proof. unfold Py.pow10. apply Z.pow_pos_nonneg; lia. Qed.

Lemma inject_pow10_pos (n : nat) : (0 < inject_Z (Py.pow10 n))%Q.
Proof.
  change 0%Q with (inject_Z 0). rewrite <- Zlt_Qlt. apply pow10_pos.
Qed.

Lemma round_compat (x y : Q) (n : nat) :
  (x == y)%Q -> (Py.round x n == Py.round y n)%Q.
Proof.
  intro E. unfold Py.round.
  rewrite (round_half_even_compat (x * inject_Z (Py.pow10 n)) (y * inject_Z (Py.pow10 n)));
    [reflexivity | rewrite E; reflexivity].
Qed.

(** [round] is monotone against whole bounds. *)
Lemma round_le_Z (x : Q) (n : nat) (k : Z) :
  (x <= inject_Z k)%Q -> (Py.round x n <= inject_Z k)%Q.
Proof.
  intro H. unfold Py.round.
  pose proof (inject_pow10_pos n) as P.
  apply Qle_shift_div_r; [exact P|].
  rewrite <- inject_Z_mult, <- Zle_Qle.
  apply round_half_even_le. rewrite inject_Z_mult.
  apply Qmult_le_compat_r; [exact H | apply Qlt_le_weak; exact P].
Qed.

Lemma round_ge_Z (x : Q) (n : nat) (k : Z) :
  (inject_Z k <= x)%Q -> (inject_Z k <= Py.round x n)%Q.
Proof.
  intro H. unfold Py.round.
  pose proof (inject_pow10_pos n) as P.
  apply Qle_shift_div_l; [exact P|].
  rewrite <- inject_Z_mult, <- Zle_Qle.
  apply round_half_even_ge. rewrite inject_Z_mult.
  apply Qmult_le_compat_r; [exact H | apply Qlt_le_weak; exact P].
Qed.

(** A value with at most [n] decimals is its own rounding. *)
Lemma round_exact (k : Z) (n : nat) :
  (Py.round (inject_Z k / inject_Z (Py.pow10 n)) n == inject_Z k / inject_Z (Py.pow10 n))%Q.
Proof.
  unfold Py.round.
  pose proof (inject_pow10_pos n) as P.
  rewrite (round_half_even_compat _ (inject_Z k)).
  - rewrite round_half_even_Z. reflexivity.
  - field. intro Z0. rewrite Z0 in P. apply (Qlt_irrefl 0). exact P.
Qed.

Lemma inject_Z_sub (x y : Z) : (inject_Z (x - y) == inject_Z x - inject_Z y)%Q.
Proof.
  unfold Z.sub. rewrite inject_Z_plus, inject_Z_opp. reflexivity.
Qed.

(** Rounding the difference, or the two amounts, to cents: one cent apart
    at most. *)
Lemma round_sub_near (c p : Q) :
  (Qabs (Py.round (c - p) 2 - (Py.round c 2 - Py.round p 2)) <= 0.01)%Q.
Proof.
  unfold Py.round. change (Py.pow10 2) with 100%Z.
  destruct (round_half_even_near ((c - p) * inject_Z 100)) as [A1 A2].
  destruct (round_half_even_near (c * inject_Z 100)) as [B1 B2].
  destruct (round_half_even_near (p * inject_Z 100)) as [D1 D2].
  set (a := Py.round_half_even ((c - p) * inject_Z 100)) in *.
  set (b := Py.round_half_even (c * inject_Z 100)) in *.
  set (d := Py.round_half_even (p * inject_Z 100)) in *.
  change (inject_Z 100) with 100%Q in *.
  assert ((inject_Z (a - b + d) <= inject_Z 1 + (1 # 2))%Q) as U.
  { rewrite inject_Z_plus, inject_Z_sub. change (inject_Z 1) with 1%Q. lra. }
  assert ((inject_Z (b - a - d) <= inject_Z 1 + (1 # 2))%Q) as L.
  { rewrite !inject_Z_sub. change (inject_Z 1) with 1%Q. lra. }
  apply inject_Z_half_le in U. apply inject_Z_half_le in L.
  assert ((a - b + d <= 1)%Z) as U' by exact U.
  assert ((-1 <= a - b + d)%Z) as L' by lia.
  rewrite Zle_Qle, inject_Z_plus, inject_Z_sub in U', L'.
  change (inject_Z 1) with 1%Q in U'. change (inject_Z (-1)) with (-(1))%Q in L'.
  assert ((inject_Z a / 100 - (inject_Z b / 100 - inject_Z d / 100)
           == (inject_Z a - inject_Z b + inject_Z d) * (1 # 100))%Q) as E by field.
  rewrite E. apply Qabs_Qle_condition. split; lra.
Qed.

(** *** Sums *)

Lemma sum_acc (xs : list Q) (a : Q) :
  (fold_left Qplus xs a == a + Py.sum xs)%Q.
Proof.
  unfold Py.sum. revert a.
  induction xs as [|x xs IH]; intro a; simpl.
  - lra.
  - rewrite IH. rewrite (IH (0 + x)%Q). lra.
Qed.

Lemma sum_cons (x : Q) (xs : list Q) : (Py.sum (x :: xs) == x + Py.sum xs)%Q.
Proof.
  unfold Py.sum at 1. simpl. rewrite sum_acc. lra.
Qed.

Lemma sum_zeros (xs : list Q) : Forall (fun x => x = 0%Q) xs -> (Py.sum xs == 0)%Q.
Proof.
  induction 1 as [|x xs Hx _ IH].
  - reflexivity.
  - rewrite sum_cons, IH. subst x. reflexivity.
Qed.

Lemma max_zeros (xs : list Q) :
  Forall (fun x => x = 0%Q) xs -> fold_left Py.max xs 0%Q = 0%Q.
Proof.
  induction 1 as [|x xs Hx _ IH]; simpl.
  - reflexivity.
  - subst x. exact IH.
Qed.

End PyFacts.

(** ** analyzer.py: the tier ladder *)

Module AnalyzerFacts.
Import Models Analyzer.

(** Turn every boolean comparison of the context into an order fact. *)
Ltac order_facts :=
  repeat match goal with
         | H : Py.ltb _ _ = true |- _ => apply PyFacts.ltb_lt in H
         | H : Py.ltb _ _ = false |- _ => apply PyFacts.ltb_ge in H
         end.

Ltac ladder m :=
  unfold classify_utilization;
  destruct (Py.ltb m 5) eqn:?; destruct (Py.ltb m 20) eqn:?;
  destruct (Py.ltb m 60) eqn:?; destruct (Py.ltb m 85) eqn:?;
  order_facts.

Lemma classify_utilization_compat (m m' : Q) :
  (m == m')%Q -> classify_utilization m' = classify_utilization m.
Proof.
  intro E. ladder m; ladder m'; try reflexivity; exfalso; lra.
Qed.

Lemma classify_utilization_mono (m1 m2 : Q) :
  (m1 <= m2)%Q ->
  (tier_rank (classify_utilization m1) <= tier_rank (classify_utilization m2))%nat.
Proof.
  intro L. ladder m1; ladder m2; simpl; try lia; exfalso; lra.
Qed.

(** C3.  The tier is a function of the mean CPU value alone (equal means get
    the same tier, and the route's copy of the classifier agrees with the
    analyzer's), it follows the ladder idle (< 5), low ([5, 20)), moderate
    ([20, 60)), high ([60, 85)), critical (>= 85), and it is monotonic: a
    higher mean never gets a lower tier. *)
Theorem classify_utilization_ladder :
  forall m : Q,
    Routes._classify_utilization m = classify_utilization m
    /\ (forall m', (m == m')%Q -> classify_utilization m' = classify_utilization m)
    /\ ((m < 5)%Q -> classify_utilization m = idle)
    /\ ((5 <= m)%Q -> (m < 20)%Q -> classify_utilization m = low)
    /\ ((20 <= m)%Q -> (m < 60)%Q -> classify_utilization m = moderate)
    /\ ((60 <= m)%Q -> (m < 85)%Q -> classify_utilization m = high)
    /\ ((85 <= m)%Q -> classify_utilization m = critical)
    /\ (forall m2, (m <= m2)%Q ->
                   (tier_rank (classify_utilization m)
                    <= tier_rank (classify_utilization m2))%nat).
Proof.
  intro m.
  split; [reflexivity|].
  split; [intros m'; apply classify_utilization_compat|].
  repeat split; intros;
    try (apply classify_utilization_mono; assumption);
    ladder m; try reflexivity; exfalso; lra.
Qed.

Lemma classify_utilization_ladder_witness :
  classify_utilization 2 = idle
  /\ classify_utilization 12.5 = low
  /\ classify_utilization 85 = critical
  /\ (tier_rank (classify_utilization 12.5)
      <= tier_rank (classify_utilization 61.3))%nat.
Proof.
  destruct (classify_utilization_ladder 2) as (_ & _ & Hidle & _).
  destruct (classify_utilization_ladder 12.5) as (_ & _ & _ & Hlow & _ & _ & _ & Hmono).
  destruct (classify_utilization_ladder 85) as (_ & _ & _ & _ & _ & _ & Hcrit & _).
  split; [apply Hidle; reflexivity|].
  split; [apply Hlow; [discriminate | reflexivity]|].
  split; [apply Hcrit; discriminate|].
  apply Hmono. discriminate.
Defined.

End AnalyzerFacts.

(** ** collector.py: the cloud metrics path *)

Module CollectorFacts.
Import Models Analyzer Collector.

(** The spec's clamp to the range [0, 100]. *)
Definition spec_clamp_0_100 (x : Q) : Q :=
  if Py.ltb x 0 then 0%Q else if Py.ltb 100 x then 100%Q else x.

(** A snapshot is written by the cloud path when some run of
    [_collect_cloud_metrics] appends it. *)
Definition written_by_cloud_path (m : MetricSnapshot) : Prop :=
  exists float_of_string api db server hetzner_id now,
    metric_snapshots
      (_collect_cloud_metrics float_of_string api db server hetzner_id now)
    = (metric_snapshots db ++ [m])%list.

Lemma nonempty_false {A} (xs : list A) : nonempty xs = false -> xs = [].
Proof. destruct xs; [reflexivity | discriminate]. Qed.

Lemma normalized_cpu_le_100 (c : Z) (values : list Q) :
  (normalized_cpu c values <= 100)%Q.
Proof.
  unfold normalized_cpu.
  match goal with |- (Py.min 100 ?x <= _)%Q =>
    destruct (PyFacts.min_spec 100 x) as [[L E]|[L E]]; rewrite E end.
  - apply Qlt_le_weak. exact L.
  - apply Qle_refl.
Qed.

Lemma normalized_cpu_divides (c : Z) (values : list Q) :
  (0 < c)%Z -> (100 < mean values)%Q ->
  (normalized_cpu c values == spec_clamp_0_100 (mean values / inject_Z c))%Q.
Proof.
  intros Hc Hm. unfold normalized_cpu.
  apply Z.ltb_lt in Hc as Hc'. rewrite Hc'.
  apply PyFacts.gtb_gt in Hm as Hm'. rewrite Hm'. simpl.
  assert (0 < inject_Z c)%Q as Pc
      by (change 0%Q with (inject_Z 0); rewrite <- Zlt_Qlt; exact Hc).
  assert (0 < mean values / inject_Z c)%Q as Pd
      by (apply Qlt_shift_div_l; [exact Pc | lra]).
  unfold spec_clamp_0_100.
  destruct (Py.ltb (mean values / inject_Z c) 0) eqn:E0.
  - apply PyFacts.ltb_lt in E0. lra.
  - unfold Py.min.
    destruct (Py.ltb (mean values / inject_Z c) 100) eqn:E1;
      destruct (Py.ltb 100 (mean values / inject_Z c)) eqn:E2;
      try reflexivity.
    + apply PyFacts.ltb_lt in E1. apply PyFacts.ltb_lt in E2. lra.
    + apply PyFacts.ltb_ge in E1. apply PyFacts.ltb_ge in E2. lra.
Qed.

Section WithFloatParser.

Variable float_of_string : string -> option Q.


(** What a run of the cloud path leaves in the snapshot table. *)
Lemma collect_snapshots api db server hetzner_id now :
  match api hetzner_id "cpu"%string (now - timedelta_minutes 10) now with
  | None => metric_snapshots (_collect_cloud_metrics float_of_string api db server hetzner_id now) = metric_snapshots db
  | Some ts =>
      match Collector.cpu_values float_of_string ts with
      | [] => metric_snapshots (_collect_cloud_metrics float_of_string api db server hetzner_id now) = metric_snapshots db
      | _ :: _ =>
          exists snap,
            metric_snapshots (_collect_cloud_metrics float_of_string api db server hetzner_id now)
            = (metric_snapshots db ++ [snap])%list
            /\ ms_server_id snap = id server
            /\ timestamp snap = now
            /\ cpu_percent snap = Py.round (normalized_cpu (cores server) (Collector.cpu_values float_of_string ts)) 2
            /\ memory_percent snap = 0%Q
      end
  end.
Proof.
  unfold _collect_cloud_metrics.
  destruct (api hetzner_id "cpu"%string (now - timedelta_minutes 10) now) as [ts|];
    [|reflexivity].
  destruct (Collector.cpu_values float_of_string ts) as [|v vs] eqn:V;
    cbn [nonempty negb]; [reflexivity|].
  match goal with
  | |- context [let '(_, _) := ?e in _] => destruct e as [net_in net_out]
  end.
  eexists. cbn [metric_snapshots]. repeat split; reflexivity.
Qed.

(** C4.  When the averaged raw CPU reading exceeds 100 on a server with a
    positive core count, the cloud path stores the average divided by the
    core count and clamped to [0, 100] (rounded to two decimals); an average
    of 350 on 4 cores gives exactly 87.5; and no snapshot the path writes has
    a CPU percentage above 100. *)
Theorem cloud_cpu_normalization :
  (forall api db server hetzner_id now ts,
      api hetzner_id "cpu"%string (now - timedelta_minutes 10) now = Some ts ->
      Collector.cpu_values float_of_string ts <> [] ->
      (0 < cores server)%Z ->
      (100 < mean (Collector.cpu_values float_of_string ts))%Q ->
      exists snap,
        metric_snapshots (_collect_cloud_metrics float_of_string api db server hetzner_id now)
        = (metric_snapshots db ++ [snap])%list
        /\ (cpu_percent snap ==
            Py.round (spec_clamp_0_100
                        (mean (Collector.cpu_values float_of_string ts) / inject_Z (cores server))) 2)%Q)
  /\ (forall api db server hetzner_id now ts,
      api hetzner_id "cpu"%string (now - timedelta_minutes 10) now = Some ts ->
      Collector.cpu_values float_of_string ts <> [] ->
      cores server = 4%Z ->
      (mean (Collector.cpu_values float_of_string ts) == 350)%Q ->
      (normalized_cpu (cores server) (Collector.cpu_values float_of_string ts) == 87.5)%Q
      /\ exists snap,
        metric_snapshots (_collect_cloud_metrics float_of_string api db server hetzner_id now)
        = (metric_snapshots db ++ [snap])%list
        /\ (cpu_percent snap == 87.5)%Q)
  /\ (forall api db server hetzner_id now m,
      In m (metric_snapshots (_collect_cloud_metrics float_of_string api db server hetzner_id now)) ->
      In m (metric_snapshots db) \/ (cpu_percent m <= 100)%Q).
Proof.
  split; [|split].
  - intros api db server hid now ts Hapi Hne Hc Hm.
    pose proof (collect_snapshots api db server hid now) as S.
    rewrite Hapi in S.
    destruct (Collector.cpu_values float_of_string ts) as [|v vs] eqn:V; [congruence|].
    destruct S as (snap & Hs & _ & _ & Hcpu & _).
    exists snap. split; [exact Hs|].
    rewrite Hcpu. apply PyFacts.round_compat.
    apply normalized_cpu_divides; assumption.
  - intros api db server hid now ts Hapi Hne Hc Hm.
    assert ((normalized_cpu (cores server) (Collector.cpu_values float_of_string ts) == 87.5)%Q) as N.
    { rewrite normalized_cpu_divides; [| rewrite Hc; lia | rewrite Hm; reflexivity].
      rewrite Hc.
      assert ((mean (Collector.cpu_values float_of_string ts) / inject_Z 4 == 87.5)%Q) as D
          by (rewrite Hm; reflexivity).
      unfold spec_clamp_0_100.
      destruct (Py.ltb _ 0) eqn:E0; [apply PyFacts.ltb_lt in E0; lra|].
      destruct (Py.ltb 100 _) eqn:E1; [apply PyFacts.ltb_lt in E1; lra|].
      exact D. }
    split; [exact N|].
    pose proof (collect_snapshots api db server hid now) as S.
    rewrite Hapi in S.
    destruct (Collector.cpu_values float_of_string ts) as [|v vs] eqn:V; [congruence|].
    destruct S as (snap & Hs & _ & _ & Hcpu & _).
    exists snap. split; [exact Hs|].
    rewrite Hcpu, (PyFacts.round_compat _ _ 2 N). reflexivity.
  - intros api db server hid now m Hin.
    pose proof (collect_snapshots api db server hid now) as S.
    destruct (api hid "cpu"%string (now - timedelta_minutes 10) now) as [ts|].
    + destruct (Collector.cpu_values float_of_string ts) as [|v vs] eqn:V.
      * left. rewrite S in Hin. exact Hin.
      * destruct S as (snap & Hs & _ & _ & Hcpu & _).
        rewrite Hs in Hin. apply in_app_or in Hin. destruct Hin as [Hin|[Hin|[]]].
        -- left. exact Hin.
        -- right. subst m. rewrite Hcpu.
           apply (PyFacts.round_le_Z _ 2 100). rewrite <- V.
           apply normalized_cpu_le_100.
    + left. rewrite S in Hin. exact Hin.
Qed.

End WithFloatParser.

(** *** Memory statistics of cloud servers *)

Lemma written_by_cloud_path_memory (m : MetricSnapshot) :
  written_by_cloud_path m -> memory_percent m = 0%Q.
Proof.
  intros (fos & api & db & server & hid & now & W).
  pose proof (collect_snapshots fos api db server hid now) as S.
  assert (forall l : list MetricSnapshot, l <> (l ++ [m])%list) as Hneq.
  { intros l E. apply (f_equal (@List.length _)) in E.
    rewrite length_app in E. simpl in E. lia. }
  destruct (api hid "cpu"%string (now - timedelta_minutes 10) now) as [ts|].
  - destruct (Collector.cpu_values fos ts) as [|v vs].
    + rewrite S in W. exfalso. exact (Hneq _ W).
    + destruct S as (snap & Hs & _ & _ & _ & Hmem).
      rewrite Hs in W. apply app_inv_head in W. injection W as <-. exact Hmem.
  - rewrite S in W. exfalso. exact (Hneq _ W).
Qed.

Lemma round_zero (x : Q) (n : nat) : (x == 0)%Q -> (Py.round x n == 0)%Q.
Proof.
  intro E. rewrite (PyFacts.round_compat x 0 n E).
  unfold Py.round.
  rewrite (PyFacts.round_half_even_compat _ (inject_Z 0)); [|ring].
  rewrite PyFacts.round_half_even_Z. apply Qmult_0_l.
Qed.

Lemma sql_avg_zeros (xs : list Q) (v : Q) :
  Forall (fun x => x = 0%Q) xs -> sql_avg xs = Some v -> (v == 0)%Q.
Proof.
  intros Z A. destruct xs as [|x xs]; [discriminate|].
  injection A as <-. rewrite (PyFacts.sum_zeros _ Z). apply Qmult_0_l.
Qed.

Lemma sql_max_zeros (xs : list Q) (v : Q) :
  Forall (fun x => x = 0%Q) xs -> sql_max xs = Some v -> v = 0%Q.
Proof.
  intros Z A. destruct xs as [|x xs]; [discriminate|].
  injection A as <-. inversion Z; subst. apply PyFacts.max_zeros. assumption.
Qed.

Lemma analyze_server_id db sid now a :
  analyze_server db sid now = Some a -> a_server_id a = sid.
Proof.
  unfold analyze_server.
  destruct (sql_avg _); [|discriminate].
  destruct (sql_avg _); [|discriminate].
  destruct (sql_max _); [|discriminate].
  destruct (sql_max _); [|discriminate].
  intro E. injection E as <-. reflexivity.
Qed.

Lemma analyze_server_memory_zero db sid now a :
  (forall m, In m (metric_snapshots db) -> ms_server_id m = sid ->
             memory_percent m = 0%Q) ->
  analyze_server db sid now = Some a ->
  (avg_memory_30d a == 0)%Q /\ (peak_memory_30d a == 0)%Q.
Proof.
  intros Hz. unfold analyze_server.
  assert (Forall (fun x => x = 0%Q) (map memory_percent (window_rows db sid now))) as Z.
  { apply Forall_forall. intros x Hx. apply in_map_iff in Hx.
    destruct Hx as (m & <- & Hm). unfold window_rows in Hm.
    apply filter_In in Hm. destruct Hm as [Hin Hc].
    apply andb_true_iff in Hc. destruct Hc as [Hs _].
    apply Z.eqb_eq in Hs. apply Hz; assumption. }
  destruct (sql_avg (map cpu_percent _)); [|discriminate].
  destruct (sql_avg (map memory_percent _)) as [am|] eqn:A; [|discriminate].
  destruct (sql_max (map cpu_percent _)); [|discriminate].
  destruct (sql_max (map memory_percent _)) as [pm|] eqn:P; [|discriminate].
  intro E. injection E as <-. simpl. split.
  - apply round_zero. exact (sql_avg_zeros _ _ Z A).
  - apply round_zero. rewrite (sql_max_zeros _ _ Z P). reflexivity.
Qed.

(** C10.  A snapshot written by the cloud collection path has
    [memory_percent] 0, and for a server all of whose snapshots come from
    that path the analyzer's mean and peak memory are 0, both in
    [analyze_server] and in the entry [analyze_all_servers] gives it. *)
Theorem cloud_memory_statistics_zero :
  (forall m, written_by_cloud_path m -> memory_percent m = 0%Q)
  /\ (forall db sid now,
        (forall m, In m (metric_snapshots db) -> ms_server_id m = sid ->
                   written_by_cloud_path m) ->
        (forall a, analyze_server db sid now = Some a ->
                   (avg_memory_30d a == 0)%Q /\ (peak_memory_30d a == 0)%Q)
        /\ (forall a, In a (analyze_all_servers db now) -> a_server_id a = sid ->
                      (avg_memory_30d a == 0)%Q /\ (peak_memory_30d a == 0)%Q)).
Proof.
  split; [exact written_by_cloud_path_memory|].
  intros db sid now Hw.
  assert (forall m, In m (metric_snapshots db) -> ms_server_id m = sid ->
                    memory_percent m = 0%Q) as Hz
      by (intros m Hin Hs; apply written_by_cloud_path_memory, Hw; assumption).
  split.
  - intros a. apply analyze_server_memory_zero. exact Hz.
  - intros a Hin Hid. unfold analyze_all_servers in Hin.
    apply in_map_iff in Hin. destruct Hin as (sid' & Ha & _).
    destruct (analyze_server db sid' now) as [a'|] eqn:E.
    + subst a'. pose proof (analyze_server_id _ _ _ _ E) as Hsid.
      rewrite Hid in Hsid. subst sid'.
      exact (analyze_server_memory_zero _ _ _ _ Hz E).
    + subst a. simpl. split; reflexivity.
Qed.

(** A four-core cloud server, and a metrics answer with one CPU sample of
    350 and nothing for disk and network. *)
Definition sample_server : Server :=
  {| id := 1; hetzner_id := "42"; name := "web"; server_type := "cx31";
     source := cloud; status := "running"; datacenter := "fsn1";
     ipv4 := "10.0.0.1"; cores := 4; memory_gb := 8; disk_gb := 80;
     monthly_cost_eur := 10.49; labels := None; project_name := None;
     created_at := 0; last_seen_at := 0; updated_at := 0 |}.

Definition sample_series : TimeSeries := [("cpu"%string, [[JNum 0; JNum 350]])].

Definition sample_api : MetricsApi :=
  fun _ kind _ _ => if String.eqb kind "cpu" then Some sample_series else None.

Definition sample_db : Db :=
  {| servers := [sample_server]; metric_snapshots := [];
     running_services := []; consolidation_recommendations := [] |}.

Definition no_float : string -> option Q := fun _ => None.

Definition collected_db : Db :=
  _collect_cloud_metrics no_float sample_api sample_db sample_server "42" 1000.

Lemma cloud_cpu_normalization_witness :
  (normalized_cpu 4 (cpu_values no_float sample_series) == 87.5)%Q
  /\ exists snap,
    metric_snapshots collected_db = ([] ++ [snap])%list
    /\ (cpu_percent snap == 87.5)%Q.
Proof.
  destruct (cloud_cpu_normalization no_float) as (_ & H & _).
  apply (H sample_api sample_db sample_server "42"%string 1000%Z sample_series).
  - reflexivity.
  - discriminate.
  - reflexivity.
  - reflexivity.
Defined.

Lemma collected_db_written (m : MetricSnapshot) :
  In m (metric_snapshots collected_db) -> written_by_cloud_path m.
Proof.
  intro H. destruct H as [<-|[]].
  exists no_float, sample_api, sample_db, sample_server, "42"%string, 1000%Z.
  reflexivity.
Qed.

Lemma cloud_memory_statistics_zero_witness :
  exists a,
    analyze_server collected_db 1 2000 = Some a
    /\ (avg_cpu_30d a == 87.5)%Q
    /\ (avg_memory_30d a == 0)%Q /\ (peak_memory_30d a == 0)%Q.
Proof.
  destruct cloud_memory_statistics_zero as (_ & H).
  destruct (H collected_db 1%Z 2000%Z) as [Hs _].
  - intros m Hin _. exact (collected_db_written m Hin).
  - eexists. split; [vm_compute; reflexivity|].
    split; [vm_compute; reflexivity|].
    apply Hs. vm_compute. reflexivity.
Defined.

End CollectorFacts.

(** ** recommender.py: the three rules *)

Module RecommenderFacts.
Import Models Analyzer Recommender.
Local Open Scope string_scope.

Lemma ltb_compat (x y a b : Q) :
  (x == y)%Q -> (a == b)%Q -> Py.ltb x a = Py.ltb y b.
Proof. intros E F. unfold Py.ltb. rewrite E, F. reflexivity. Qed.

Lemma leb_compat (x y a b : Q) :
  (x == y)%Q -> (a == b)%Q -> Py.leb x a = Py.leb y b.
Proof. intros E F. unfold Py.leb. rewrite E, F. reflexivity. Qed.

Lemma format_fixed_compat (x y : Q) (n : nat) :
  (x == y)%Q -> Py.format_fixed x n = Py.format_fixed y n.
Proof.
  intro E. unfold Py.format_fixed.
  rewrite (ltb_compat x y 0 0 E (Qeq_refl 0)).
  rewrite (PyFacts.round_half_even_compat
             (Qabs x * inject_Z (Py.pow10 n)) (Qabs y * inject_Z (Py.pow10 n)));
    [reflexivity | rewrite E; reflexivity].
Qed.

(** The servers of the examples: a running cloud server. *)
Definition cloud_server (i : Z) (n ty : string) (c : Z) (cost : Q) : Server :=
  {| id := i; hetzner_id := "h-" ++ n; name := n; server_type := ty;
     source := cloud; status := "running"; datacenter := "fsn1-dc14";
     ipv4 := "10.0.0.1"; cores := c; memory_gb := 4; disk_gb := 40;
     monthly_cost_eur := cost; labels := None; project_name := None;
     created_at := 0; last_seen_at := 0; updated_at := 0 |}.

(** The analysis of a server with the given mean and peak CPU. *)
Definition analysis_of (i : Z) (avg peak : Q) : Analysis :=
  {| a_server_id := i; avg_cpu_30d := avg; avg_memory_30d := 0;
     peak_cpu_30d := peak; peak_memory_30d := 0;
     utilization_tier := classify_utilization avg |}.

(** C6.  A running cloud server of type cx41 costing 17.49 with a 30-day
    average CPU of 2 % (tier idle) gets from the idle rule exactly one
    recommendation: confidence high, target cx31, savings 17.49 - 10.49, i.e.
    7.00 to two decimals, and a rationale that quotes the 30-day average and
    the peak CPU. *)
Theorem idle_rule_cx41_example :
  forall (now : Z) (server : Server) (analysis : Analysis),
    source server = cloud ->
    status server = "running" ->
    server_type server = "cx41" ->
    (monthly_cost_eur server == 17.49)%Q ->
    (avg_cpu_30d analysis == 2)%Q ->
    utilization_tier analysis = classify_utilization (avg_cpu_30d analysis) ->
    utilization_tier analysis = idle
    /\ exists rec,
      _find_idle_servers now [(id server, server)] [(id server, analysis)] = [rec]
      /\ confidence rec = conf_high
      /\ target_server_type rec = "cx31"
      /\ server_ids rec = [id server]
      /\ (monthly_savings_eur rec == 17.49 - 10.49)%Q
      /\ (Py.round (monthly_savings_eur rec) 2 == 7.00)%Q
      /\ rationale rec =
           "This server is barely using its resources — averaging just "
             ++ Py.format_fixed (avg_cpu_30d analysis) 1
             ++ "% CPU over 30 days (peak "
             ++ Py.format_fixed (peak_cpu_30d analysis) 1
             ++ "%). Downgrading from cx41 to cx31 would save EUR 7.00/mo. "
             ++ "Alternatively, its workloads could be consolidated onto "
             ++ "another server to free up this instance entirely."
      /\ Py.format_fixed (avg_cpu_30d analysis) 1 = "2.0".
Proof.
  intros now server analysis _ Hst Hty Hcost Havg Htier.
  assert (utilization_tier analysis = idle) as Hidle.
  { rewrite Htier.
    rewrite (AnalyzerFacts.classify_utilization_compat 2 _ (Qeq_sym _ _ Havg)).
    reflexivity. }
  split; [exact Hidle|].
  assert (Py.leb (monthly_cost_eur server) 0 = false) as Hpos
      by (rewrite (leb_compat _ 17.49 0 0 Hcost (Qeq_refl 0)); reflexivity).
  assert ((monthly_cost_eur server - 10.49 == 7)%Q) as Hsav
      by (rewrite Hcost; reflexivity).
  unfold _find_idle_servers, PyDict.items.
  cbn [flat_map app].
  rewrite Hidle. cbn [tier_eqb tier_rank Nat.eqb negb].
  cbn [PyDict.get]. rewrite Z.eqb_refl.
  rewrite Hst, Hty, Hpos.
  change (negb ("running" =? "running")) with false.
  change (Py.get (Py.lower "cx41") DOWNGRADE_MAP) with (Some "cx31").
  change (Py.get_default "cx31" 0%Q PRICE_MAP) with 10.49%Q.
  cbv iota beta zeta.
  change (Py.get_default "cx31" 0%Q PRICE_MAP) with 10.49%Q.
  eexists. split; [reflexivity|].
  cbn [confidence target_server_type server_ids monthly_savings_eur rationale].
  repeat split.
  - rewrite Hcost. reflexivity.
  - rewrite (PyFacts.round_compat _ 7 2 Hsav). reflexivity.
  - rewrite (format_fixed_compat _ 7 2 Hsav). reflexivity.
  - rewrite (format_fixed_compat _ 2 1 Havg). reflexivity.
Qed.

Lemma idle_rule_cx41_example_witness :
  utilization_tier (analysis_of 1 2 9.5) = idle
  /\ exists rec,
    _find_idle_servers 0 [(1%Z, cloud_server 1 "web-1" "cx41" 8 17.49)]
                       [(1%Z, analysis_of 1 2 9.5)] = [rec]
    /\ confidence rec = conf_high
    /\ target_server_type rec = "cx31"
    /\ server_ids rec = [1%Z]
    /\ (monthly_savings_eur rec == 17.49 - 10.49)%Q
    /\ (Py.round (monthly_savings_eur rec) 2 == 7.00)%Q
    /\ rationale rec =
         "This server is barely using its resources — averaging just "
           ++ Py.format_fixed 2 1
           ++ "% CPU over 30 days (peak "
           ++ Py.format_fixed 9.5 1
           ++ "%). Downgrading from cx41 to cx31 would save EUR 7.00/mo. "
           ++ "Alternatively, its workloads could be consolidated onto "
           ++ "another server to free up this instance entirely."
    /\ Py.format_fixed 2 1 = "2.0".
Proof.
  apply (idle_rule_cx41_example
           0 (cloud_server 1 "web-1" "cx41" 8 17.49) (analysis_of 1 2 9.5));
    reflexivity.
Defined.

(** *** The target type of the consolidation rule *)

(** The catalog: the types of [PRICE_MAP], with the cores of [type_cores]. *)
Definition catalog_cores (t : string) : Z := Py.get_default t 1%Z type_cores.

Definition fits (required : Q) (t : string) : Prop :=
  (required <= inject_Z (catalog_cores t))%Q.

(** [t] is a cheapest catalog type with at least [required] cores. *)
Definition cheapest_fitting (required : Q) (t : string) : Prop :=
  exists p, In (t, p) PRICE_MAP /\ fits required t
            /\ forall t' p', In (t', p') PRICE_MAP -> fits required t' -> (p <= p')%Q.

(** [t] is the largest type of the catalog: no type has more cores and none
    costs more. *)
Definition largest_type (t : string) : Prop :=
  exists p, In (t, p) PRICE_MAP
            /\ forall t' p', In (t', p') PRICE_MAP ->
                             (catalog_cores t' <= catalog_cores t)%Z /\ (p' <= p)%Q.

(** The choice the rule is specified to make for a requirement. *)
Definition target_as_specified (required : Q) (t : string) : Prop :=
  cheapest_fitting required t
  \/ ((forall t' p', In (t', p') PRICE_MAP -> ~ fits required t') /\ largest_type t).

(** The cores the spec's text asks for: from the plain total of cores. *)
Definition spec_required_cores (combined_peak_cpu : Q) (servers : list Server) : Q :=
  ((combined_peak_cpu / 100) * inject_Z (Py.sumZ (map cores servers)) / 0.7)%Q.

(** The cores the rule asks for: a total of 0 cores counts as 1. *)
Definition required_cores (combined_peak_cpu : Q) (servers : list Server) : Q :=
  ((combined_peak_cpu / 100) * inject_Z (total_original_cores servers) / 0.7)%Q.

Lemma candidates_by_price :
  Py.sorted snd PRICE_MAP =
  [ ("cx11", 3.29%Q); ("cpx11", 3.85%Q); ("cx21", 5.39%Q); ("cpx21", 7.19%Q);
    ("cx31", 10.49%Q); ("ccx13", 12.49%Q); ("cpx31", 13.49%Q); ("cx41", 17.49%Q);
    ("ccx23", 22.49%Q); ("cpx41", 24.49%Q); ("ccx33", 42.49%Q) ].
Proof. vm_compute. reflexivity. Qed.

Lemma geb_max_true (c : Z) (x : Q) :
  Py.geb (inject_Z c) (Py.max x 1) = true -> (x <= inject_Z c)%Q.
Proof.
  intro H. apply PyFacts.geb_ge in H.
  destruct (PyFacts.max_spec x 1) as [[L E]|[L E]]; rewrite E in H; lra.
Qed.

Lemma geb_max_false (c : Z) (x : Q) :
  (1 <= c)%Z -> Py.geb (inject_Z c) (Py.max x 1) = false -> (inject_Z c < x)%Q.
Proof.
  intros C H. apply PyFacts.geb_lt in H.
  rewrite Zle_Qle in C. change (inject_Z 1) with 1%Q in C.
  destruct (PyFacts.max_spec x 1) as [[L E]|[L E]]; rewrite E in H; lra.
Qed.

(** Evaluate the core counts of the concrete types in the goal. *)
Ltac eval_cores :=
  repeat match goal with
         | |- context [inject_Z (catalog_cores ?t)] =>
             let v := eval vm_compute in (inject_Z (catalog_cores t)) in
             change (inject_Z (catalog_cores t)) with v
         | H : context [inject_Z (catalog_cores ?t)] |- _ =>
             let v := eval vm_compute in (inject_Z (catalog_cores t)) in
             change (inject_Z (catalog_cores t)) with v in H
         | |- context [catalog_cores ?t] =>
             let v := eval vm_compute in (catalog_cores t) in
             change (catalog_cores t) with v
         end.

(** One entry of the catalog at a time. *)
Ltac each_type H :=
  unfold PRICE_MAP in H; cbn [In] in H;
  repeat (destruct H as [H|H]; [injection H as <- <- | ]); [.. | destruct H].

Lemma first_fitting_specified (x : Q) :
  match first_fitting (Py.max x 1) (Py.sorted snd PRICE_MAP) with
  | Some t => cheapest_fitting x t
  | None => forall t' p', In (t', p') PRICE_MAP -> ~ fits x t'
  end.
Proof.
  rewrite candidates_by_price. cbn [first_fitting].
  change (Py.get_default ?t 1%Z type_cores) with (catalog_cores t).
  repeat match goal with
         | |- context [Py.geb (inject_Z (catalog_cores ?t)) (Py.max x 1)] =>
             let E := fresh "E" in
             destruct (Py.geb (inject_Z (catalog_cores t)) (Py.max x 1)) eqn:E;
             [ apply geb_max_true in E
             | apply geb_max_false in E; [| vm_compute; discriminate] ]
         end;
    eval_cores;
    try (intros t' p' Hin Hfit; unfold fits in Hfit; each_type Hin; eval_cores; lra);
    (eexists; split; [unfold PRICE_MAP; cbn [In]; tauto|];
     split; [unfold fits; eval_cores; lra|];
     intros t' p' Hin Hfit; unfold fits in Hfit; each_type Hin; eval_cores; lra).
Qed.

Lemma ccx33_largest : largest_type "ccx33".
Proof.
  exists 42.49%Q. split.
  - unfold PRICE_MAP. cbn [In]. tauto.
  - intros t' p' Hin. each_type Hin; (split; [vm_compute; discriminate | lra]).
Qed.

(** The catalog has one largest type. *)
Lemma largest_type_ccx33 (t : string) : largest_type t <-> t = "ccx33".
Proof.
  split; [|intros ->; exact ccx33_largest].
  intros (p & Hin & Hmax).
  assert (In ("ccx33", 42.49%Q) PRICE_MAP) as I by (unfold PRICE_MAP; cbn [In]; tauto).
  destruct (Hmax _ _ I) as [_ Hp].
  each_type Hin; first [reflexivity | exfalso; lra].
Qed.

(** At most one type is the specified choice: the prices differ. *)
Lemma target_as_specified_unique (required : Q) (t1 t2 : string) :
  target_as_specified required t1 -> target_as_specified required t2 -> t1 = t2.
Proof.
  intros [(p1 & I1 & F1 & M1)|[N1 L1]] [(p2 & I2 & F2 & M2)|[N2 L2]].
  - pose proof (M1 _ _ I2 F2) as A. pose proof (M2 _ _ I1 F1) as B.
    each_type I1; each_type I2; first [reflexivity | exfalso; lra].
  - exfalso. exact (N2 _ _ I1 F1).
  - exfalso. exact (N1 _ _ I2 F2).
  - apply largest_type_ccx33 in L1, L2. congruence.
Qed.

Lemma catalog_price (t : string) (p : Q) :
  In (t, p) PRICE_MAP -> Py.get t PRICE_MAP = Some p.
Proof.
  intro H. each_type H; reflexivity.
Qed.

(** The target type is the one specified for the cores the rule asks for. *)
Lemma pick_target_specified (combined_peak_cpu : Q) (servers : list Server) :
  target_as_specified (required_cores combined_peak_cpu servers)
                      (_pick_target_type_for_combined_load combined_peak_cpu servers).
Proof.
  unfold _pick_target_type_for_combined_load, target_as_specified.
  pose proof (first_fitting_specified (required_cores combined_peak_cpu servers)) as F.
  unfold required_cores in *.
  destruct (first_fitting _ _) as [t|].
  - left. exact F.
  - right. split; [exact F|].
    rewrite candidates_by_price. exact ccx33_largest.
Qed.

Lemma pick_target_priced (combined_peak_cpu : Q) (servers : list Server) :
  exists p,
    Py.get (_pick_target_type_for_combined_load combined_peak_cpu servers) PRICE_MAP
    = Some p.
Proof.
  unfold _pick_target_type_for_combined_load.
  rewrite candidates_by_price. cbn [first_fitting].
  repeat match goal with
         | |- context [if ?c then _ else _] => destruct c
         end; eexists; reflexivity.
Qed.

(** *** The servers the consolidation rule works on *)

(** The pattern as the specification reads it: one of the words staging,
    dev and test somewhere in the text, each letter in any of its forms. *)
Definition upper_ascii (c : ascii) : ascii :=
  let n := nat_of_ascii c in
  if andb (Nat.leb 97 n) (Nat.leb n 122) then ascii_of_nat (n - 32) else c.

(** U+0130, U+0131 and U+017F in UTF-8. *)
Definition capital_i_with_dot : string := String "196" (String "176" "").
Definition small_dotless_i : string := String "196" (String "177" "").
Definition long_s : string := String "197" (String "191" "").

(** The forms of a lower-case letter: itself, its capital, and for [i] and
    [s] the characters Unicode folds to them. *)
Definition letter_forms (c : ascii) : list string :=
  ([String c ""; String (upper_ascii c) ""]
     ++ (if Ascii.eqb c "i" then [capital_i_with_dot; small_dotless_i] else [])
     ++ (if Ascii.eqb c "s" then [long_s] else []))%list.

(** [text] is [word] letter by letter, in some form each. *)
Fixpoint reads_as (text word : string) : Prop :=
  match word with
  | EmptyString => text = ""
  | String c word' =>
      exists form rest,
        In form (letter_forms c) /\ text = form ++ rest /\ reads_as rest word'
  end.

Definition mentions (word text : string) : Prop :=
  exists before middle after,
    text = before ++ middle ++ after /\ reads_as middle word.

Definition pattern_words : list string := ["staging"; "dev"; "test"].

Definition matches_pattern (text : string) : Prop :=
  exists word, In word pattern_words /\ mentions word text.

(** A running server that matches in its name, its project or the value of
    one of its labels. *)
Definition non_production (s : Server) : Prop :=
  status s = "running"
  /\ (matches_pattern (name s)
      \/ (exists p, project_name s = Some p /\ matches_pattern p)
      \/ (exists l k v, labels s = Some l /\ In (k, v) l /\ matches_pattern v)).

(** The letters of the pattern. *)
Definition pattern_letters : list ascii :=
  ["s"; "t"; "a"; "g"; "i"; "n"; "d"; "e"; "v"]%char.

Fixpoint spelled (word : string) : Prop :=
  match word with
  | EmptyString => True
  | String c word' => In c pattern_letters /\ spelled word'
  end.

Definition lead (c : ascii) : bool := is_byte 196 c || is_byte 197 c.
Definition second (d : ascii) : bool :=
  is_byte 176 d || is_byte 177 d || is_byte 191 d.

Lemma is_byte_eq (n : nat) (c : ascii) : is_byte n c = true -> c = ascii_of_nat n.
Proof.
  unfold is_byte. intro H. apply Nat.eqb_eq in H.
  rewrite <- H. symmetry. apply ascii_nat_embedding.
Qed.

Lemma folded_pair_some (c d letter : ascii) :
  folded_pair c d = Some letter ->
  lead c = true /\ second d = true
  /\ In letter pattern_letters
  /\ In (String c (String d "")) (letter_forms letter).
Proof.
  unfold folded_pair, lead, second.
  destruct (is_byte 196 c) eqn:C4; cbn [andb orb].
  - destruct (is_byte 176 d) eqn:B0; cbn [orb].
    + intro E. injection E as <-.
      rewrite (is_byte_eq _ _ C4), (is_byte_eq _ _ B0).
      repeat split; vm_compute; tauto.
    + destruct (is_byte 177 d) eqn:B1; cbn [orb].
      * intro E. injection E as <-.
        rewrite (is_byte_eq _ _ C4), (is_byte_eq _ _ B1).
        repeat split; vm_compute; tauto.
      * destruct (is_byte 197 c) eqn:C5; cbn [andb]; [|discriminate].
        apply is_byte_eq in C4, C5. rewrite C4 in C5. discriminate C5.
  - destruct (is_byte 197 c) eqn:C5; cbn [andb]; [|discriminate].
    destruct (is_byte 191 d) eqn:BF; [|discriminate].
    intro E. injection E as <-.
    rewrite (is_byte_eq _ _ C5), (is_byte_eq _ _ BF).
    split; [reflexivity|]. split; [apply orb_true_r|].
    split; vm_compute; tauto.
Qed.

Lemma folded_pair_none (c d : ascii) : lead c = false -> folded_pair c d = None.
Proof.
  unfold lead, folded_pair. intro H. apply orb_false_iff in H. destruct H as [-> ->].
  reflexivity.
Qed.

(** A letter of the pattern comes from itself or from its capital. *)
Lemma lower_ascii_form (c x : ascii) :
  In c pattern_letters -> Py.lower_ascii x = c ->
  In (String x "") (letter_forms c).
Proof.
  intros Hc E. unfold pattern_letters in Hc. cbn [In] in Hc.
  assert (x = c \/ x = upper_ascii c) as [-> | ->];
    [|left; reflexivity | right; left; reflexivity].
  repeat (destruct Hc as [<-|Hc];
          [revert E; destruct x as [[] [] [] [] [] [] [] []]; vm_compute; intro E;
           first [discriminate E | left; reflexivity | right; reflexivity]|]).
  destruct Hc.
Qed.

(** The forms of a letter of the pattern, as [ignorecase] meets them. *)
Lemma letter_forms_folded (c : ascii) (form : string) :
  In c pattern_letters -> In form (letter_forms c) ->
  (exists x, form = String x "" /\ Py.lower_ascii x = c
             /\ lead x = false /\ second x = false)
  \/ (exists x d, form = String x (String d "") /\ folded_pair x d = Some c
                  /\ second x = false).
Proof.
  intros Hc Hf. unfold pattern_letters in Hc. cbn [In] in Hc.
  repeat (destruct Hc as [<-|Hc];
          [vm_compute in Hf;
           repeat (destruct Hf as [<-|Hf];
                   [first [left; eexists; repeat split; reflexivity
                          |right; do 2 eexists; repeat split; reflexivity]|]);
           destruct Hf|]).
  destruct Hc.
Qed.

Lemma ignorecase_single (x : ascii) (rest : string) :
  lead x = false ->
  ignorecase (String x rest) = String (Py.lower_ascii x) (ignorecase rest).
Proof.
  intro L. cbn [ignorecase]. destruct rest as [|d rest']; [reflexivity|].
  rewrite (folded_pair_none x d L). reflexivity.
Qed.

Lemma ignorecase_pair (x d letter : ascii) (rest : string) :
  folded_pair x d = Some letter ->
  ignorecase (String x (String d rest)) = String letter (ignorecase rest).
Proof.
  intro F. cbn [ignorecase]. rewrite F. reflexivity.
Qed.

(** One step of [ignorecase]: a byte, or two that stand for a letter. *)
Lemma ignorecase_step (x : ascii) (rest : string) :
  (ignorecase (String x rest) = String (Py.lower_ascii x) (ignorecase rest))
  \/ (exists d rest' letter,
         rest = String d rest' /\ folded_pair x d = Some letter
         /\ ignorecase (String x rest) = String letter (ignorecase rest')).
Proof.
  destruct rest as [|d rest']; [left; reflexivity|].
  destruct (folded_pair x d) as [letter|] eqn:F.
  - right. exists d, rest', letter. repeat split; [exact F|].
    exact (ignorecase_pair _ _ _ _ F).
  - left. cbn [ignorecase]. rewrite F. reflexivity.
Qed.

Lemma string_app_assoc (a b c : string) : (a ++ b) ++ c = a ++ b ++ c.
Proof.
  induction a as [|x a IH]; cbn [append]; [reflexivity|]. rewrite IH. reflexivity.
Qed.

Lemma prefix_nil (s : string) : String.prefix "" s = true.
Proof. destruct s; reflexivity. Qed.

Lemma contains_step (pat s : string) :
  Py.contains pat s
  = String.prefix pat s
    || match s with EmptyString => false | String _ s' => Py.contains pat s' end.
Proof. destruct s; reflexivity. Qed.

(** The word at the start of the folded text. *)
Lemma prefix_reads (word : string) :
  spelled word ->
  forall text,
    String.prefix word (ignorecase text) = true
    <-> exists middle after, text = middle ++ after /\ reads_as middle word.
Proof.
  induction word as [|c w IH]; intros S text.
  - split; [|intros _; apply prefix_nil].
    intros _. exists "", text. split; reflexivity.
  - destruct S as [Hc Sw]. split.
    + intro P. destruct text as [|x rest]; [discriminate P|].
      destruct (ignorecase_step x rest) as [E|(d & rest' & letter & -> & F & E)];
        rewrite E in P; cbn [String.prefix] in P.
      * destruct (ascii_dec c (Py.lower_ascii x)) as [Ec|]; [|discriminate P].
        apply (IH Sw) in P. destruct P as (m & a & -> & R).
        exists (String x m), a. split; [reflexivity|].
        exists (String x ""), m.
        split; [apply lower_ascii_form; [exact Hc | symmetry; exact Ec]|].
        split; [reflexivity | exact R].
      * destruct (ascii_dec c letter) as [<-|]; [|discriminate P].
        apply (IH Sw) in P. destruct P as (m & a & -> & R).
        exists (String x (String d m)), a. split; [reflexivity|].
        exists (String x (String d "")), m.
        split; [exact (proj2 (proj2 (proj2 (folded_pair_some _ _ _ F))))|].
        split; [reflexivity | exact R].
    + intros (m & a & -> & form & rest & Hin & -> & R).
      assert (String.prefix w (ignorecase (rest ++ a)) = true) as P
          by (apply (IH Sw); exists rest, a; split; [reflexivity | exact R]).
      destruct (letter_forms_folded c form Hc Hin)
        as [(x & -> & Hl & Hlead & _)|(x & d & -> & F & _)];
        cbn [append].
      * rewrite (ignorecase_single _ _ Hlead), Hl. cbn [String.prefix].
        destruct (ascii_dec c c) as [_|N]; [exact P | congruence].
      * rewrite (ignorecase_pair _ _ _ _ F). cbn [String.prefix].
        destruct (ascii_dec c c) as [_|N]; [exact P | congruence].
Qed.

Lemma contains_mentions_sound (word : string) :
  spelled word ->
  forall (n : nat) text,
    (String.length text <= n)%nat ->
    Py.contains word (ignorecase text) = true -> mentions word text.
Proof.
  intros S n. induction n as [|n IH]; intros text L C;
    rewrite contains_step in C; apply orb_true_iff in C;
    destruct C as [P|C];
    try (apply (prefix_reads word S) in P; destruct P as (m & a & -> & R);
         exists "", m, a; split; [reflexivity | exact R]).
  - destruct text as [|x rest]; [discriminate C | cbn in L; lia].
  - destruct text as [|x rest]; [discriminate C|]. cbn [String.length] in L.
    destruct (ignorecase_step x rest) as [E|(d & rest' & letter & -> & F & E)];
      rewrite E in C.
    + destruct (IH rest ltac:(lia) C) as (b & m & a & -> & R).
      exists (String x b), m, a. split; [reflexivity | exact R].
    + cbn [String.length] in L.
      destruct (IH rest' ltac:(lia) C) as (b & m & a & -> & R).
      exists (String x (String d b)), m, a. split; [reflexivity | exact R].
Qed.

Lemma contains_mentions_complete (word : string) :
  spelled word ->
  forall (n : nat) before middle after,
    (String.length before <= n)%nat ->
    reads_as middle word ->
    Py.contains word (ignorecase (before ++ middle ++ after)) = true.
Proof.
  intros S n. induction n as [|n IH]; intros before middle after L R;
    rewrite contains_step; apply orb_true_iff.
  - destruct before as [|x b]; [|cbn in L; lia]. left.
    apply (prefix_reads word S). exists middle, after. split; [reflexivity | exact R].
  - destruct before as [|x b].
    + left. apply (prefix_reads word S). exists middle, after.
      split; [reflexivity | exact R].
    + cbn [String.length] in L. cbn [append].
      destruct (ignorecase_step x (b ++ middle ++ after))
        as [E|(d & rest' & letter & Hrest & F & E)]; rewrite E.
      * right. apply IH; [lia | exact R].
      * destruct b as [|d' b'].
        -- cbn [append] in Hrest.
           destruct word as [|c w].
           ++ left. apply prefix_nil.
           ++ exfalso. destruct S as [Hc _].
              destruct R as (form & rest & Hin & -> & _).
              destruct (folded_pair_some _ _ _ F) as (_ & Hd & _).
              destruct (letter_forms_folded c form Hc Hin)
                as [(y & -> & _ & _ & Hy)|(y & e & -> & _ & Hy)];
                cbn [append] in Hrest; injection Hrest as -> _; congruence.
        -- cbn [append] in Hrest. injection Hrest as -> <-.
           right. cbn [String.length] in L. apply IH; [lia | exact R].
Qed.

Lemma contains_mentions (word text : string) :
  spelled word ->
  Py.contains word (ignorecase text) = true <-> mentions word text.
Proof.
  intro S. split.
  - exact (contains_mentions_sound word S (String.length text) text (Nat.le_refl _)).
  - intros (before & middle & after & -> & R).
    exact (contains_mentions_complete word S (String.length before) _ _ _
                                      (Nat.le_refl _) R).
Qed.

(** The search of the code finds what the specification calls a match. *)
Lemma search_matches_pattern (text : string) :
  _STAGING_PATTERN_search text = true <-> matches_pattern text.
Proof.
  unfold _STAGING_PATTERN_search, matches_pattern, pattern_words. cbv zeta.
  rewrite !orb_true_iff.
  rewrite (contains_mentions "staging"), (contains_mentions "dev"),
    (contains_mentions "test") by (vm_compute; tauto).
  split.
  - intros [[H|H]|H]; eexists; (split; [|exact H]); cbn [In]; tauto.
  - intros (word & Hin & H). cbn [In] in Hin.
    destruct Hin as [<-|[<-|[<-|[]]]]; tauto.
Qed.

Lemma search_empty : _STAGING_PATTERN_search "" = false.
Proof. reflexivity. Qed.

(** *** The consolidation rule *)

(** The quantities [_find_staging_consolidation] computes on the way. *)
Definition staging_servers_of (server_by_id : PyDict.t Server) : list Server :=
  filter is_staging (PyDict.values server_by_id).

Definition combined_peak_cpu_of (analysis_by_id : PyDict.t Analysis)
           (staging_servers : list Server) : Q :=
  Py.sum (map (fun s => match PyDict.get (id s) analysis_by_id with
                        | Some a => peak_cpu_30d a
                        | None => 0%Q
                        end)
              staging_servers).

Definition total_cost_of (staging_servers : list Server) : Q :=
  Py.sum (map monthly_cost_eur staging_servers).

Definition target_type_of (analysis_by_id : PyDict.t Analysis)
           (staging_servers : list Server) : string :=
  _pick_target_type_for_combined_load
    (combined_peak_cpu_of analysis_by_id staging_servers) staging_servers.

Lemma get_In {V} (k : string) (v : V) (d : list (string * V)) :
  Py.get k d = Some v -> In (k, v) d.
Proof.
  induction d as [|[k' v'] d IH]; simpl; [discriminate|].
  destruct (String.eqb_spec k k') as [->|N].
  - intro E. injection E as ->. left. reflexivity.
  - intro E. right. exact (IH E).
Qed.

(** What rule 2 returns, by cases. *)
Lemma staging_rule_cases now server_by_id analysis_by_id price :
  let st := staging_servers_of server_by_id in
  let total := total_cost_of st in
  let target := target_type_of analysis_by_id st in
  let out := _find_staging_consolidation now server_by_id analysis_by_id in
  Py.get target PRICE_MAP = Some price ->
  ((Py.len st < 2)%Z -> out = [])
  /\ ((2 <= Py.len st)%Z -> (total <= price)%Q -> out = [])
  /\ ((2 <= Py.len st)%Z -> (price < total)%Q ->
      exists rec,
        out = [rec]
        /\ confidence rec = conf_medium
        /\ rec_status rec = pending
        /\ target_server_type rec = target
        /\ server_ids rec = map id st
        /\ current_total_cost_eur rec = Py.round total 2
        /\ projected_cost_eur rec = Py.round price 2
        /\ (monthly_savings_eur rec == Py.round (total - price) 2)%Q).
Proof.
  intros st total target out Hget.
  unfold out, _find_staging_consolidation.
  fold (staging_servers_of server_by_id). fold st.
  fold (total_cost_of st). fold total.
  fold (combined_peak_cpu_of analysis_by_id st).
  fold (target_type_of analysis_by_id st). fold target.
  unfold Py.get_default. rewrite Hget.
  cbv zeta.
  split; [|split].
  - intro L. apply Z.ltb_lt in L. rewrite L. reflexivity.
  - intros L T. apply Z.ltb_ge in L. rewrite L.
    assert (Py.leb (Py.max (total - price) 0) 0 = true) as G.
    { apply PyFacts.leb_le.
      destruct (PyFacts.max_spec (total - price) 0) as [[M E]|[M E]];
        rewrite E; lra. }
    rewrite G. reflexivity.
  - intros L T. apply Z.ltb_ge in L. rewrite L.
    destruct (PyFacts.max_spec (total - price) 0) as [[M E]|[M E]]; [lra|].
    rewrite E.
    assert (Py.leb (total - price) 0 = false) as G by (apply PyFacts.leb_gt; lra).
    rewrite G. eexists. split; [reflexivity|].
    cbn [confidence rec_status target_server_type server_ids
         current_total_cost_eur projected_cost_eur monthly_savings_eur].
    repeat split; reflexivity.
Qed.

Lemma pick_cx11 (combined_peak_cpu : Q) (servers : list Server) :
  (required_cores combined_peak_cpu servers <= 1)%Q ->
  _pick_target_type_for_combined_load combined_peak_cpu servers = "cx11".
Proof.
  intro H. unfold required_cores in H.
  unfold _pick_target_type_for_combined_load.
  rewrite candidates_by_price. cbn [first_fitting].
  change (Py.get_default "cx11" 1%Z type_cores) with 1%Z.
  match goal with |- context [Py.geb (inject_Z 1) ?m] =>
    assert (Py.geb (inject_Z 1) m = true) as G end.
  { apply PyFacts.geb_ge. change (inject_Z 1) with 1%Q.
    match goal with |- (Py.max ?a ?b <= _)%Q =>
      destruct (PyFacts.max_spec a b) as [[L E]|[L E]]; rewrite E end; lra. }
  rewrite G. reflexivity.
Qed.

Lemma is_staging_by_name (s : Server) :
  status s = "running" -> _STAGING_PATTERN_search (name s) = true ->
  is_staging s = true.
Proof.
  intros R N. unfold is_staging. rewrite R, N. reflexivity.
Qed.

(** Two running, non-production cx21 servers stored without a core count
    (as cloud sync stores a server whose payload carries no
    [server_type.cores]), each costing 5.39, each with a peak CPU of 50 %. *)
Definition dev_a : Server := cloud_server 1 "dev-a" "cx21" 0 5.39.
Definition dev_b : Server := cloud_server 2 "dev-b" "cx21" 0 5.39.
Definition dev_inventory : PyDict.t Server := [(1%Z, dev_a); (2%Z, dev_b)].
Definition dev_analysis : PyDict.t Analysis :=
  [(1%Z, analysis_of 1 20 50); (2%Z, analysis_of 2 20 50)].

(** C5 as stated fails on servers whose cores add up to 0: the rule then
    counts one core, asks for 100 / 100 * 1 / 0.7 = 1.43 cores and picks
    cpx11 (2 cores, 3.85), while the stated requirement, computed from the
    total of 0 cores, is 0 and is met by the cheaper cx11 (1 core, 3.29). *)
Lemma staging_target_zero_cores_counterexample :
  exists rec,
    _find_staging_consolidation 0 dev_inventory dev_analysis = [rec]
    /\ target_server_type rec = "cpx11"
    /\ cheapest_fitting
         (spec_required_cores
            (combined_peak_cpu_of dev_analysis (staging_servers_of dev_inventory))
            (staging_servers_of dev_inventory))
         "cx11"
    /\ ~ target_as_specified
         (spec_required_cores
            (combined_peak_cpu_of dev_analysis (staging_servers_of dev_inventory))
            (staging_servers_of dev_inventory))
         (target_server_type rec).
Proof.
  eexists. split; [vm_compute; reflexivity|].
  cbn [target_server_type]. split; [reflexivity|].
  split.
  { exists 3.29%Q.
    split; [unfold PRICE_MAP; cbn [In]; tauto|].
    split; [unfold fits; apply Qle_bool_iff; vm_compute; reflexivity|].
    intros t' p' Hin _. each_type Hin; apply Qle_bool_iff; reflexivity. }
  assert (fits (spec_required_cores
                  (combined_peak_cpu_of dev_analysis (staging_servers_of dev_inventory))
                  (staging_servers_of dev_inventory)) "cx11") as F
      by (unfold fits; apply Qle_bool_iff; vm_compute; reflexivity).
  assert (In ("cx11", 3.29%Q) PRICE_MAP) as I by (unfold PRICE_MAP; cbn [In]; tauto).
  intros [(p & Hin & _ & Hmin)|[Hnone _]].
  - specialize (Hmin "cx11" 3.29%Q I F).
    unfold PRICE_MAP in Hin. cbn [In] in Hin.
    repeat (destruct Hin as [Hin|Hin]; [try discriminate Hin; injection Hin as <-; lra|]).
    destruct Hin.
  - exact (Hnone "cx11" 3.29%Q I F).
Qed.

(** The test of the code picks the servers the specification names. *)
Lemma is_staging_non_production (s : Server) :
  is_staging s = true <-> non_production s.
Proof.
  unfold is_staging, non_production.
  destruct (String.eqb_spec (status s) "running") as [R|R]; cbn [negb].
  - cbv zeta. rewrite !orb_true_iff, !search_matches_pattern.
    split.
    + intros [[N|P]|L]; (split; [exact R|]).
      * left. exact N.
      * right. left. destruct (project_name s) as [p|].
        -- exists p. split; [reflexivity | exact P].
        -- apply search_matches_pattern in P. rewrite search_empty in P. discriminate P.
      * right. right. destruct (labels s) as [l|]; [|discriminate L].
        apply existsb_exists in L. destruct L as ([k v] & Hin & M).
        exists l, k, v. split; [reflexivity|]. split; [exact Hin|].
        apply search_matches_pattern. exact M.
    + intros [_ [N|[(p & -> & P)|(l & k & v & -> & Hin & M)]]].
      * left. left. exact N.
      * left. right. exact P.
      * right. apply existsb_exists. exists (k, v). split; [exact Hin|].
        apply search_matches_pattern. exact M.
  - split; [discriminate|]. intros [E _]. contradiction.
Qed.

(** The program computes the requirement and the total in binary64, the
    statement below in exact arithmetic: the two agree unless a value lies
    on a boundary, where the rounding of the last bit decides.  So the
    statement is for inventories of ordinary size, for requirements that are
    not within [tolerance] of a core count of the catalog, and for totals
    that are not within [tolerance] of the target's price. *)
Definition tolerance : Q := 1 # 1000000.

Definition clear_of_ties (required : Q) : Prop :=
  forall t p, In (t, p) PRICE_MAP ->
              (tolerance <= Qabs (required - inject_Z (catalog_cores t)))%Q.

Definition ordinary (analysis_by_id : PyDict.t Analysis) (st : list Server) : Prop :=
  (Py.len st <= 1000000)%Z
  /\ forall s, In s st ->
               (0 <= monthly_cost_eur s)%Q /\ (monthly_cost_eur s <= 1000000)%Q
               /\ (0 <= cores s <= 1000000)%Z
               /\ forall a, PyDict.get (id s) analysis_by_id = Some a ->
                            (0 <= peak_cpu_30d a)%Q /\ (peak_cpu_30d a <= 1000000)%Q.

(** C5, amended.  Rule 2 works on the running servers of the inventory that
    match staging, dev or test, ignoring case, in their name, their project
    or the value of a label ([non_production]), and it returns at most one
    recommendation: none for fewer than 2 such servers, and any it returns
    has confidence medium, names these servers and has a catalog type for
    target.  The target specified for a requirement is the cheapest catalog
    type whose core count is at least the requirement, and the largest
    type, ccx33, when no type has that many cores; the requirement is
    (combined peak CPU / 100 x total original cores) / 0.7, the total
    counting as 1 when the cores add up to 0.  For an inventory of ordinary
    size and a requirement clear of the core counts of the catalog, the rule
    with 2 or more such servers returns exactly one recommendation, for the
    specified target, when the target's price is below the servers' total
    cost by the tolerance or more, and nothing when the total cost is below
    the price by the tolerance or more (savings <= 0).  Two running servers
    staging-1 and staging-2 costing 5.39 each, with a combined peak of 7 %
    and 2 cores in total, get the target cx11, whose price 3.29 is below
    10.78, and so one medium recommendation. *)
Theorem staging_rule_specified :
  (forall s, is_staging s = true <-> non_production s)
  /\ (forall t, largest_type t <-> t = "ccx33")
  /\ (forall now server_by_id analysis_by_id,
         let st := staging_servers_of server_by_id in
         let total := total_cost_of st in
         let required :=
           required_cores (combined_peak_cpu_of analysis_by_id st) st in
         let out := _find_staging_consolidation now server_by_id analysis_by_id in
         (forall s, In s st <-> In s (PyDict.values server_by_id) /\ non_production s)
         /\ (List.length out <= 1)%nat
         /\ ((Py.len st < 2)%Z -> out = [])
         /\ (forall rec, In rec out ->
                         (2 <= Py.len st)%Z
                         /\ confidence rec = conf_medium
                         /\ server_ids rec = map id st
                         /\ exists price, In (target_server_type rec, price) PRICE_MAP)
         /\ (exists target price,
                target_as_specified required target /\ In (target, price) PRICE_MAP)
         /\ (ordinary analysis_by_id st ->
             clear_of_ties required ->
             forall target price,
               target_as_specified required target ->
               In (target, price) PRICE_MAP ->
               ((2 <= Py.len st)%Z -> (price + tolerance <= total)%Q ->
                exists rec,
                  out = [rec]
                  /\ target_server_type rec = target
                  /\ confidence rec = conf_medium)
               /\ ((total + tolerance <= price)%Q -> out = [])))
  /\ (forall now s1 s2 a1 a2,
        id s1 <> id s2 ->
        status s1 = "running" -> status s2 = "running" ->
        name s1 = "staging-1" -> name s2 = "staging-2" ->
        (monthly_cost_eur s1 == 5.39)%Q -> (monthly_cost_eur s2 == 5.39)%Q ->
        (peak_cpu_30d a1 + peak_cpu_30d a2 == 7)%Q ->
        (cores s1 + cores s2 = 2)%Z ->
        (total_cost_of [s1; s2] == 10.78)%Q
        /\ target_type_of [(id s1, a1); (id s2, a2)] [s1; s2] = "cx11"
        /\ Py.get "cx11" PRICE_MAP = Some 3.29%Q
        /\ (3.29 < 10.78)%Q
        /\ exists rec,
          _find_staging_consolidation
            now [(id s1, s1); (id s2, s2)] [(id s1, a1); (id s2, a2)] = [rec]
          /\ confidence rec = conf_medium
          /\ target_server_type rec = "cx11"
          /\ (monthly_savings_eur rec == 7.49)%Q).
Proof.
  split; [exact is_staging_non_production|].
  split; [exact largest_type_ccx33|].
  split.
  - intros now sb ab st total required out.
    destruct (pick_target_priced (combined_peak_cpu_of ab st) st) as [price Hget].
    fold (target_type_of ab st) in Hget.
    destruct (staging_rule_cases now sb ab price Hget) as (Hfew & Hdear & Hone).
    fold st total out in Hfew, Hdear, Hone.
    pose proof (pick_target_specified (combined_peak_cpu_of ab st) st) as Hspec.
    fold (target_type_of ab st) in Hspec. fold required in Hspec.
    split.
    { intro s. unfold st, staging_servers_of. rewrite filter_In.
      rewrite is_staging_non_production. reflexivity. }
    split.
    { destruct (Z_lt_le_dec (Py.len st) 2) as [L|L]; [rewrite (Hfew L); cbn; lia|].
      destruct (Qlt_le_dec price total) as [T|T].
      - destruct (Hone L T) as (rec & -> & _). cbn. lia.
      - rewrite (Hdear L T). cbn. lia. }
    split; [exact Hfew|].
    split.
    { intros rec Hin.
      destruct (Z_lt_le_dec (Py.len st) 2) as [L|L];
        [rewrite (Hfew L) in Hin; destruct Hin|].
      destruct (Qlt_le_dec price total) as [T|T];
        [|rewrite (Hdear L T) in Hin; destruct Hin].
      destruct (Hone L T) as (rec' & E & Hc & _ & Ht & Hids & _).
      rewrite E in Hin. destruct Hin as [<-|[]].
      split; [exact L|]. split; [exact Hc|]. split; [exact Hids|].
      exists price. rewrite Ht. apply get_In. exact Hget. }
    split.
    { exists (target_type_of ab st), price.
      split; [exact Hspec | apply get_In; exact Hget]. }
    intros _ _ target price' Htarget Hprice.
    rewrite (target_as_specified_unique _ _ _ Htarget Hspec) in Hprice |- *.
    apply catalog_price in Hprice. rewrite Hget in Hprice. injection Hprice as <-.
    unfold tolerance. split.
    + intros L T. destruct (Hone L) as (rec & E & Hc & _ & Ht & _); [lra|].
      exists rec. split; [exact E|]. split; [exact Ht | exact Hc].
    + intro T. destruct (Z_lt_le_dec (Py.len st) 2) as [L|L]; [exact (Hfew L)|].
      apply (Hdear L). lra.
  - intros now s1 s2 a1 a2 Hid R1 R2 N1 N2 C1 C2 P T.
    assert (staging_servers_of [(id s1, s1); (id s2, s2)] = [s1; s2]) as Hst.
    { unfold staging_servers_of, PyDict.values. cbn [map snd filter].
      rewrite (is_staging_by_name s1 R1), (is_staging_by_name s2 R2);
        [reflexivity | rewrite N2; reflexivity | rewrite N1; reflexivity]. }
    assert ((total_cost_of [s1; s2] == 10.78)%Q) as Htot.
    { unfold total_cost_of, Py.sum. cbn [map fold_left]. rewrite C1, C2. reflexivity. }
    assert ((combined_peak_cpu_of [(id s1, a1); (id s2, a2)] [s1; s2] == 7)%Q) as Hpeak.
    { unfold combined_peak_cpu_of, Py.sum. cbn [map fold_left PyDict.get].
      rewrite !Z.eqb_refl.
      assert ((id s2 =? id s1)%Z = false) as N by (apply Z.eqb_neq; congruence).
      rewrite N. rewrite <- P. ring. }
    assert (target_type_of [(id s1, a1); (id s2, a2)] [s1; s2] = "cx11") as Htarget.
    { apply pick_cx11. unfold required_cores, total_original_cores, Py.sumZ.
      cbn [map fold_left]. replace (0 + cores s1 + cores s2)%Z with 2%Z by lia.
      cbn [Z.eqb]. rewrite Hpeak. apply Qle_bool_iff. reflexivity. }
    split; [exact Htot|]. split; [exact Htarget|].
    split; [reflexivity|]. split; [reflexivity|].
    pose proof (staging_rule_cases now [(id s1, s1); (id s2, s2)]
                                   [(id s1, a1); (id s2, a2)] 3.29%Q) as Cases.
    cbv zeta in Cases. rewrite Hst, Htarget in Cases.
    destruct (Cases eq_refl) as (_ & _ & Hone).
    destruct Hone as (rec & E & Hc & _ & Ht & _ & _ & _ & Hs).
    + vm_compute. discriminate.
    + rewrite Htot. reflexivity.
    + exists rec. repeat split; try assumption.
      rewrite Hs.
      rewrite (PyFacts.round_compat _ 7.49 2); [reflexivity|].
      rewrite Htot. reflexivity.
Qed.

(** The example, and a match beyond ASCII: a server named with the long s
    (U+017F) is one of the servers of the rule. *)
Definition staging_1 : Server := cloud_server 1 "staging-1" "cx21" 1 5.39.
Definition staging_2 : Server := cloud_server 2 "staging-2" "cx21" 1 5.39.
Definition staging_inventory : PyDict.t Server := [(1%Z, staging_1); (2%Z, staging_2)].
Definition staging_analysis : PyDict.t Analysis :=
  [(1%Z, analysis_of 1 2 3); (2%Z, analysis_of 2 2.5 4)].

Lemma staging_rule_specified_witness :
  ((total_cost_of [staging_1; staging_2] == 10.78)%Q
   /\ target_type_of staging_analysis [staging_1; staging_2] = "cx11"
   /\ Py.get "cx11" PRICE_MAP = Some 3.29%Q
   /\ (3.29 < 10.78)%Q
   /\ exists rec,
     _find_staging_consolidation 0 staging_inventory staging_analysis = [rec]
     /\ confidence rec = conf_medium
     /\ target_server_type rec = "cx11"
     /\ (monthly_savings_eur rec == 7.49)%Q)
  /\ (ordinary staging_analysis (staging_servers_of staging_inventory)
      /\ clear_of_ties
           (required_cores
              (combined_peak_cpu_of staging_analysis
                                    (staging_servers_of staging_inventory))
              (staging_servers_of staging_inventory))
      /\ exists rec,
        _find_staging_consolidation 0 staging_inventory staging_analysis = [rec]
        /\ target_server_type rec = "cx11"
        /\ confidence rec = conf_medium)
  /\ non_production (cloud_server 3 ("te" ++ long_s ++ "t-1") "cx21" 1 5.39).
Proof.
  destruct staging_rule_specified as (Hnp & _ & Hgen & Hex).
  split; [|split].
  - apply (Hex 0%Z staging_1 staging_2 (analysis_of 1 2 3) (analysis_of 2 2.5 4));
      try reflexivity.
    discriminate.
  - destruct (Hgen 0%Z staging_inventory staging_analysis)
      as (_ & _ & _ & _ & _ & Hrule).
    assert (ordinary staging_analysis (staging_servers_of staging_inventory)) as Hord.
    { split; [vm_compute; discriminate|].
      intros s Hs. vm_compute in Hs.
      destruct Hs as [<-|[<-|[]]];
        (split; [vm_compute; discriminate|]);
        (split; [vm_compute; discriminate|]);
        (split; [vm_compute; split; discriminate|]);
        intros a Ha; vm_compute in Ha; injection Ha as <-;
        split; vm_compute; discriminate. }
    assert (clear_of_ties
              (required_cores
                 (combined_peak_cpu_of staging_analysis
                                       (staging_servers_of staging_inventory))
                 (staging_servers_of staging_inventory))) as Hclear.
    { intros t p Hin. each_type Hin; vm_compute; discriminate. }
    split; [exact Hord|]. split; [exact Hclear|].
    destruct (Hrule Hord Hclear "cx11" 3.29%Q) as [Hone _].
    + left. exists 3.29%Q.
      split; [unfold PRICE_MAP; cbn [In]; tauto|].
      split; [unfold fits; vm_compute; discriminate|].
      intros t' p' Hin _. each_type Hin; vm_compute; discriminate.
    + unfold PRICE_MAP. cbn [In]. tauto.
    + apply Hone; vm_compute; discriminate.
  - apply Hnp. vm_compute. reflexivity.
Defined.

(** *** Savings of a new recommendation *)

(** Split a membership in a branch of the rule bodies. *)
Ltac branches H :=
  repeat match type of H with
         | In _ [] => destruct H
         | In _ (if ?c then _ else _) => destruct c eqn:?
         | In _ (match ?x with Some _ => _ | None => _ end) => destruct x eqn:?
         | In _ [_] => destruct H as [H|[]]
         | context [match ?x with Some _ => _ | None => _ end] =>
             destruct x eqn:?; cbv iota beta in H
         end.

(** Rule 1 stores the savings as the difference of the two stored costs. *)
Lemma idle_rule_savings_eq now server_by_id analysis_by_id rec :
  In rec (_find_idle_servers now server_by_id analysis_by_id) ->
  (monthly_savings_eur rec == current_total_cost_eur rec - projected_cost_eur rec)%Q.
Proof.
  unfold _find_idle_servers. intro H.
  apply in_flat_map in H. destruct H as ([sid analysis] & _ & H).
  branches H.
  - subst rec. cbn. reflexivity.
  - subst rec. cbn. ring.
Qed.

(** Rules 2 and 3 never store negative savings. *)
Lemma staging_rule_savings_nonneg now server_by_id analysis_by_id rec :
  In rec (_find_staging_consolidation now server_by_id analysis_by_id) ->
  (0 <= monthly_savings_eur rec)%Q.
Proof.
  unfold _find_staging_consolidation. intro H.
  branches H. subst rec. cbn [monthly_savings_eur].
  apply (PyFacts.round_ge_Z _ 2 0).
  match goal with |- (_ <= Py.max ?a ?b)%Q =>
    destruct (PyFacts.max_spec a b) as [[L E]|[L E]]; rewrite E end.
  - apply Qle_refl.
  - exact L.
Qed.

Lemma rightsizing_rule_savings_nonneg now server_by_id analysis_by_id rec :
  In rec (_find_rightsizing_candidates now server_by_id analysis_by_id) ->
  (0 <= monthly_savings_eur rec)%Q.
Proof.
  unfold _find_rightsizing_candidates. intro H.
  apply in_flat_map in H. destruct H as ([sid analysis] & _ & H).
  branches H; subst rec; cbn [monthly_savings_eur];
    apply (PyFacts.round_ge_Z _ 2 0);
    match goal with E : Py.leb _ 0 = false |- (inject_Z 0 <= ?x)%Q =>
      apply Qlt_le_weak; apply PyFacts.leb_gt in E; exact E end.
Qed.

(** The idle rule does not keep its savings above zero.  A running idle cx41
    whose stored monthly cost (9.99) is below the catalog price of the
    smaller type (cx31, 10.49) gets a pending recommendation whose savings
    are current minus projected cost, but negative: -0.50.  Rules 2 and 3
    drop such a candidate ([savings <= 0]); rule 1 only checks that the
    current cost is positive. *)
Theorem idle_rule_negative_savings :
  exists rec,
    _find_idle_servers 0 [(1%Z, cloud_server 1 "web-1" "cx41" 8 9.99)]
                       [(1%Z, analysis_of 1 2 9.5)] = [rec]
    /\ rec_status rec = pending
    /\ target_server_type rec = "cx31"
    /\ (current_total_cost_eur rec == 9.99)%Q
    /\ (projected_cost_eur rec == 10.49)%Q
    /\ (monthly_savings_eur rec
        == current_total_cost_eur rec - projected_cost_eur rec)%Q
    /\ (monthly_savings_eur rec == -0.50)%Q
    /\ (monthly_savings_eur rec < 0)%Q.
Proof.
  eexists. split; [vm_compute; reflexivity|].
  cbn [rec_status target_server_type current_total_cost_eur projected_cost_eur
       monthly_savings_eur].
  repeat split.
Qed.

(** *** Regeneration of the pending recommendations *)

Definition pending_rows (db : Db) : list ConsolidationRecommendation :=
  filter (fun r => is_pending (rec_status r)) (consolidation_recommendations db).

Definition decided_rows (db : Db) : list ConsolidationRecommendation :=
  filter (fun r => negb (is_pending (rec_status r))) (consolidation_recommendations db).

(** A recommendation without its primary key and creation time. *)
Definition payload (r : ConsolidationRecommendation) : ConsolidationRecommendation :=
  {| rec_id := None;
     group_name := group_name r;
     server_ids := server_ids r;
     target_server_type := target_server_type r;
     current_total_cost_eur := current_total_cost_eur r;
     projected_cost_eur := projected_cost_eur r;
     monthly_savings_eur := monthly_savings_eur r;
     rationale := rationale r;
     confidence := confidence r;
     rec_status := rec_status r;
     rec_created_at := 0 |}.

(** The three rules in order, before the rows get their keys. *)
Definition rules (now : Z) (server_by_id : PyDict.t Server)
           (analysis_by_id : PyDict.t Analysis) : list ConsolidationRecommendation :=
  (_find_idle_servers now server_by_id analysis_by_id
     ++ _find_staging_consolidation now server_by_id analysis_by_id
     ++ _find_rightsizing_candidates now server_by_id analysis_by_id)%list.

Lemma add_all_app table news :
  exists rows,
    add_all table news = (table ++ rows)%list
    /\ map payload rows = map payload news
    /\ map rec_status rows = map rec_status news.
Proof.
  revert table. induction news as [|r rest IH]; intro table; cbn [add_all].
  - exists []. rewrite app_nil_r. repeat split.
  - destruct (IH (table ++ [with_id (next_id (map key_of table)) r])%list)
      as (rows & E & P & S).
    exists (with_id (next_id (map key_of table)) r :: rows).
    rewrite E, <- app_assoc. cbn [app map]. rewrite P, S.
    repeat split.
Qed.

Lemma idle_rule_pending now sb ab rec :
  In rec (_find_idle_servers now sb ab) -> rec_status rec = pending.
Proof.
  unfold _find_idle_servers. intro H.
  apply in_flat_map in H. destruct H as ([sid analysis] & _ & H).
  branches H; subst rec; reflexivity.
Qed.

Lemma staging_rule_pending now sb ab rec :
  In rec (_find_staging_consolidation now sb ab) -> rec_status rec = pending.
Proof.
  unfold _find_staging_consolidation. intro H.
  branches H. subst rec. reflexivity.
Qed.

Lemma rightsizing_rule_pending now sb ab rec :
  In rec (_find_rightsizing_candidates now sb ab) -> rec_status rec = pending.
Proof.
  unfold _find_rightsizing_candidates. intro H.
  apply in_flat_map in H. destruct H as ([sid analysis] & _ & H).
  branches H; subst rec; reflexivity.
Qed.

Lemma rules_pending now sb ab :
  Forall (fun r => rec_status r = pending) (rules now sb ab).
Proof.
  apply Forall_forall. intros rec H. unfold rules in H.
  apply in_app_or in H. destruct H as [H|H];
    [exact (idle_rule_pending _ _ _ _ H)|].
  apply in_app_or in H. destruct H as [H|H];
    [exact (staging_rule_pending _ _ _ _ H)
    |exact (rightsizing_rule_pending _ _ _ _ H)].
Qed.

Lemma map_flat_map {A B C} (g : B -> C) (f : A -> list B) (l : list A) :
  map g (flat_map f l) = flat_map (fun x => map g (f x)) l.
Proof.
  induction l as [|x l IH]; cbn [flat_map map]; [reflexivity|].
  rewrite map_app, IH. reflexivity.
Qed.

(** Decide every test of the goal, on both sides alike. *)
Ltac same_branches :=
  repeat match goal with
         | |- context [if ?c then _ else _] => destruct c
         | |- context [match ?x with Some _ => _ | None => _ end] => destruct x
         end;
  reflexivity.

(** The time of the run only shows in [created_at]. *)
Lemma rules_payload now1 now2 sb ab :
  map payload (rules now1 sb ab) = map payload (rules now2 sb ab).
Proof.
  unfold rules. rewrite !map_app. f_equal; [|f_equal].
  - unfold _find_idle_servers. rewrite !map_flat_map.
    apply flat_map_ext. intros [sid analysis]. same_branches.
  - unfold _find_staging_consolidation. same_branches.
  - unfold _find_rightsizing_candidates. rewrite !map_flat_map.
    apply flat_map_ext. intros [sid analysis]. same_branches.
Qed.

Lemma filter_all {A} (f : A -> bool) (l : list A) :
  Forall (fun x => f x = true) l -> filter f l = l.
Proof.
  induction 1 as [|x l Hx _ IH]; cbn [filter]; [reflexivity|].
  rewrite Hx, IH. reflexivity.
Qed.

Lemma filter_none {A} (f : A -> bool) (l : list A) :
  Forall (fun x => f x = false) l -> filter f l = [].
Proof.
  induction 1 as [|x l Hx _ IH]; cbn [filter]; [reflexivity|].
  rewrite Hx, IH. reflexivity.
Qed.

Lemma statuses_pending (rows news : list ConsolidationRecommendation) :
  map rec_status rows = map rec_status news ->
  Forall (fun r => rec_status r = pending) news ->
  Forall (fun r => rec_status r = pending) rows.
Proof.
  revert news. induction rows as [|r rows IH]; intros [|n news] E F;
    try discriminate; constructor.
  - cbn [map] in E. injection E as E _. inversion F; subst. congruence.
  - cbn [map] in E. injection E as _ E. inversion F; subst. exact (IH _ E H2).
Qed.

(** One run: the decided rows stay, the pending rows are the new ones. *)
Lemma generate_recommendations_run db now :
  exists rows,
    generate_recommendations db now
    = (rows,
       {| servers := servers db;
          metric_snapshots := metric_snapshots db;
          running_services := running_services db;
          consolidation_recommendations := (decided_rows db ++ rows)%list |})
    /\ Forall (fun r => rec_status r = pending) rows
    /\ map payload rows
       = map payload (rules now (PyDict.of_list id (servers db))
                            (PyDict.of_list a_server_id (analyze_all_servers db now))).
Proof.
  unfold generate_recommendations. cbv zeta.
  fold (decided_rows db).
  fold (rules now (PyDict.of_list id (servers db))
              (PyDict.of_list a_server_id (analyze_all_servers db now))).
  destruct (add_all_app (decided_rows db)
                        (rules now (PyDict.of_list id (servers db))
                               (PyDict.of_list a_server_id (analyze_all_servers db now))))
    as (rows & E & P & S).
  exists rows. rewrite E.
  rewrite skipn_app, skipn_all, Nat.sub_diag. cbn [skipn app].
  repeat split.
  - exact (statuses_pending _ _ S (rules_pending _ _ _)).
  - exact P.
Qed.

Lemma decided_rows_decided db :
  Forall (fun r => negb (is_pending (rec_status r)) = true) (decided_rows db).
Proof.
  apply Forall_forall. intros r H. unfold decided_rows in H.
  apply filter_In in H. apply H.
Qed.

Lemma split_rows (kept rows : list ConsolidationRecommendation) :
  Forall (fun r => negb (is_pending (rec_status r)) = true) kept ->
  Forall (fun r => rec_status r = pending) rows ->
  filter (fun r => negb (is_pending (rec_status r))) (kept ++ rows) = kept
  /\ filter (fun r => is_pending (rec_status r)) (kept ++ rows) = rows.
Proof.
  intros K R. rewrite !filter_app. split.
  - rewrite (filter_all _ kept K), (filter_none _ rows), app_nil_r; [reflexivity|].
    eapply Forall_impl; [|exact R]. intros r E. cbn beta. rewrite E. reflexivity.
  - rewrite (filter_none _ kept), (filter_all _ rows); [reflexivity| |].
    + eapply Forall_impl; [|exact R]. intros r E. cbn beta. rewrite E. reflexivity.
    + eapply Forall_impl; [|exact K]. intros r E. cbn beta in *.
      apply negb_true_iff in E. exact E.
Qed.

Lemma analyze_all_servers_ext db1 db2 now :
  servers db1 = servers db2 -> metric_snapshots db1 = metric_snapshots db2 ->
  analyze_all_servers db1 now = analyze_all_servers db2 now.
Proof.
  intros S M. unfold analyze_all_servers, analyze_server, window_rows.
  rewrite S, M. reflexivity.
Qed.

Lemma generate_recommendations_tables db now :
  let new_recs := fst (generate_recommendations db now) in
  let db' := snd (generate_recommendations db now) in
  consolidation_recommendations db' = (decided_rows db ++ new_recs)%list
  /\ Forall (fun r => rec_status r = pending) new_recs
  /\ decided_rows db' = decided_rows db
  /\ pending_rows db' = new_recs
  /\ servers db' = servers db
  /\ metric_snapshots db' = metric_snapshots db
  /\ running_services db' = running_services db
  /\ map payload new_recs
     = map payload (rules now (PyDict.of_list id (servers db))
                          (PyDict.of_list a_server_id (analyze_all_servers db now))).
Proof.
  destruct (generate_recommendations_run db now) as (rows & E & Hp & Hpay).
  rewrite E. cbn [fst snd]. cbv zeta.
  destruct (split_rows _ _ (decided_rows_decided db) Hp) as [Hd Hn].
  unfold decided_rows at 2, pending_rows at 1.
  cbn [consolidation_recommendations servers metric_snapshots running_services].
  repeat (split; [solve [reflexivity | assumption]|]).
  exact Hpay.
Qed.

(** Every record of the rules carries the time of the run. *)
Lemma idle_rule_created_at now sb ab rec :
  In rec (_find_idle_servers now sb ab) -> rec_created_at rec = now.
Proof.
  unfold _find_idle_servers. intro H.
  apply in_flat_map in H. destruct H as ([sid analysis] & _ & H).
  branches H; subst rec; reflexivity.
Qed.

Lemma staging_rule_created_at now sb ab rec :
  In rec (_find_staging_consolidation now sb ab) -> rec_created_at rec = now.
Proof.
  unfold _find_staging_consolidation. intro H.
  branches H. subst rec. reflexivity.
Qed.

Lemma rightsizing_rule_created_at now sb ab rec :
  In rec (_find_rightsizing_candidates now sb ab) -> rec_created_at rec = now.
Proof.
  unfold _find_rightsizing_candidates. intro H.
  apply in_flat_map in H. destruct H as ([sid analysis] & _ & H).
  branches H; subst rec; reflexivity.
Qed.

Lemma rules_created_at now sb ab :
  Forall (fun r => rec_created_at r = now) (rules now sb ab).
Proof.
  apply Forall_forall. intros rec H. unfold rules in H.
  apply in_app_or in H. destruct H as [H|H];
    [exact (idle_rule_created_at _ _ _ _ H)|].
  apply in_app_or in H. destruct H as [H|H];
    [exact (staging_rule_created_at _ _ _ _ H)
    |exact (rightsizing_rule_created_at _ _ _ _ H)].
Qed.

(** The rows [add_all] appends are the new records with a key each. *)
Lemma add_all_rows table news :
  exists keys,
    List.length keys = List.length news
    /\ add_all table news = (table ++ map (fun kr => with_id (fst kr) (snd kr)) (combine keys news))%list.
Proof.
  revert table. induction news as [|r rest IH]; intro table; cbn [add_all].
  - exists []. cbn. rewrite app_nil_r. split; reflexivity.
  - destruct (IH (table ++ [with_id (next_id (map key_of table)) r])%list)
      as (keys & L & E).
    exists (next_id (map key_of table) :: keys). cbn [List.length combine map fst snd].
    rewrite E, <- app_assoc, L. split; reflexivity.
Qed.

Lemma new_rows_created_at db now :
  Forall (fun r => rec_created_at r = now) (fst (generate_recommendations db now)).
Proof.
  unfold generate_recommendations. cbv zeta. cbn [fst].
  fold (decided_rows db).
  fold (rules now (PyDict.of_list id (servers db))
              (PyDict.of_list a_server_id (analyze_all_servers db now))).
  destruct (add_all_rows (decided_rows db)
              (rules now (PyDict.of_list id (servers db))
                     (PyDict.of_list a_server_id (analyze_all_servers db now))))
    as (keys & L & E).
  rewrite E, skipn_app, skipn_all, Nat.sub_diag. cbn [skipn app].
  clear E.
  pose proof (rules_created_at now (PyDict.of_list id (servers db))
                (PyDict.of_list a_server_id (analyze_all_servers db now))) as F.
  revert keys L F.
  generalize (rules now (PyDict.of_list id (servers db))
                (PyDict.of_list a_server_id (analyze_all_servers db now))).
  induction l as [|r l IH]; intros [|k keys] L F; try discriminate L;
    cbn [combine map]; constructor.
  - inversion F; subst. reflexivity.
  - inversion F; subst. apply IH; [cbn in L; congruence | assumption].
Qed.

Lemma next_id_exceeds (ids : list Z) (i : Z) : In i ids -> (i < next_id ids)%Z.
Proof.
  unfold next_id. induction ids as [|j ids IH]; intro H; [destruct H|].
  cbn [fold_right]. destruct H as [->|H]; [lia|]. specialize (IH H). lia.
Qed.

(** Every row [add_all] appends has a key above the keys before it. *)
Lemma add_all_fresh table news :
  exists rows,
    add_all table news = (table ++ rows)%list
    /\ Forall (fun r => exists k, rec_id r = Some k
                                  /\ forall d, In d table -> (key_of d < k)%Z)
              rows.
Proof.
  revert table. induction news as [|r rest IH]; intro table; cbn [add_all].
  - exists []. rewrite app_nil_r. split; [reflexivity | constructor].
  - destruct (IH (table ++ [with_id (next_id (map key_of table)) r])%list)
      as (rows & E & F).
    exists (with_id (next_id (map key_of table)) r :: rows).
    rewrite E, <- app_assoc. split; [reflexivity|].
    constructor.
    + exists (next_id (map key_of table)). split; [reflexivity|].
      intros d Hd. apply next_id_exceeds. apply in_map. exact Hd.
    + eapply Forall_impl; [|exact F]. cbn beta.
      intros row (k & Hk & Hlt). exists k. split; [exact Hk|].
      intros d Hd. apply Hlt. apply in_or_app. left. exact Hd.
Qed.

Lemma new_rows_keyed db now :
  Forall (fun r => exists k, rec_id r = Some k
                             /\ forall d, In d (decided_rows db) -> rec_id d <> Some k)
         (fst (generate_recommendations db now)).
Proof.
  unfold generate_recommendations. cbv zeta. cbn [fst].
  fold (decided_rows db).
  destruct (add_all_fresh (decided_rows db)
              (_find_idle_servers now (PyDict.of_list id (servers db))
                 (PyDict.of_list a_server_id (analyze_all_servers db now))
               ++ _find_staging_consolidation now (PyDict.of_list id (servers db))
                    (PyDict.of_list a_server_id (analyze_all_servers db now))
               ++ _find_rightsizing_candidates now (PyDict.of_list id (servers db))
                    (PyDict.of_list a_server_id (analyze_all_servers db now)))%list)
    as (rows & E & F).
  rewrite E, skipn_app, skipn_all, Nat.sub_diag. cbn [skipn app].
  eapply Forall_impl; [|exact F]. cbn beta.
  intros row (k & Hk & Hlt). exists k. split; [exact Hk|].
  intros d Hd Ed. specialize (Hlt d Hd). unfold key_of in Hlt. rewrite Ed in Hlt. lia.
Qed.

(** C2.  A run of [generate_recommendations] leaves in the table exactly the
    rows that were accepted or dismissed, unchanged and in place, followed by
    the new rows: the rows that were pending are gone.  The new rows are the
    records of the three rules (idle, staging, right-sizing, in this order)
    on the inventory and the analysis of this run, all pending and created
    at the time of the run, each under a key that no accepted or dismissed
    row has; they are what the call returns.  Servers, snapshots and
    services are not touched.  A second run on the result, with the same
    analysis, leaves the same accepted and dismissed rows and the same
    pending recommendations (up to primary key and creation time). *)
Theorem generate_recommendations_regenerates_pending :
  forall db now,
    let new_recs := fst (generate_recommendations db now) in
    let db' := snd (generate_recommendations db now) in
    consolidation_recommendations db' = (decided_rows db ++ new_recs)%list
    /\ Forall (fun r => rec_status r = pending) new_recs
    /\ decided_rows db' = decided_rows db
    /\ pending_rows db' = new_recs
    /\ servers db' = servers db
    /\ metric_snapshots db' = metric_snapshots db
    /\ running_services db' = running_services db
    /\ map payload new_recs
       = map payload (rules now (PyDict.of_list id (servers db))
                            (PyDict.of_list a_server_id (analyze_all_servers db now)))
    /\ Forall (fun r => rec_created_at r = now) new_recs
    /\ Forall (fun r => exists k,
                          rec_id r = Some k
                          /\ forall d, In d (decided_rows db) -> rec_id d <> Some k)
              new_recs
    /\ forall now2,
        analyze_all_servers db now2 = analyze_all_servers db now ->
        let db'' := snd (generate_recommendations db' now2) in
        decided_rows db'' = decided_rows db
        /\ map payload (pending_rows db'') = map payload (pending_rows db').
Proof.
  intros db now new_recs db'.
  destruct (generate_recommendations_tables db now)
    as (Ht & Hp & Hd & Hn & Hs & Hm & Hr & Hpay).
  fold new_recs db' in Ht, Hp, Hd, Hn, Hs, Hm, Hr, Hpay.
  repeat (split; [assumption|]).
  split; [exact (new_rows_created_at db now)|].
  split; [exact (new_rows_keyed db now)|].
  intros now2 Hsame db''.
  destruct (generate_recommendations_tables db' now2)
    as (_ & _ & Hd2 & Hn2 & _ & _ & _ & Hpay2).
  fold db'' in Hd2, Hn2.
  split; [rewrite Hd2; exact Hd|].
  rewrite Hn2, Hpay2, Hn, Hpay.
  rewrite Hs, (analyze_all_servers_ext db' db now2 Hs Hm), Hsame.
  apply rules_payload.
Qed.

(** *** Savings against the stored costs *)

(** The amounts rule 2 rounds into a recommendation. *)
Lemma staging_rule_amounts now sb ab rec :
  In rec (_find_staging_consolidation now sb ab) ->
  exists current projected,
    (projected < current)%Q
    /\ current_total_cost_eur rec = Py.round current 2
    /\ projected_cost_eur rec = Py.round projected 2
    /\ monthly_savings_eur rec = Py.round (current - projected) 2.
Proof.
  unfold _find_staging_consolidation. intro H.
  branches H. subst rec.
  cbn [current_total_cost_eur projected_cost_eur monthly_savings_eur].
  match goal with E : Py.leb (Py.max ?d 0) 0 = false |- _ =>
    unfold Py.max in E |- *; destruct (Py.gtb 0 d) eqn:G;
    [discriminate E | apply PyFacts.leb_gt in E] end.
  do 2 eexists. split; [|repeat split]. lra.
Qed.

(** The amounts rule 3 rounds into a recommendation. *)
Lemma rightsizing_rule_amounts now sb ab rec :
  In rec (_find_rightsizing_candidates now sb ab) ->
  exists current projected,
    (projected < current)%Q
    /\ current_total_cost_eur rec = Py.round current 2
    /\ projected_cost_eur rec = Py.round projected 2
    /\ monthly_savings_eur rec = Py.round (current - projected) 2.
Proof.
  unfold _find_rightsizing_candidates. intro H.
  apply in_flat_map in H. destruct H as ([sid analysis] & _ & H).
  branches H; subst rec;
    cbn [current_total_cost_eur projected_cost_eur monthly_savings_eur];
    match goal with E : Py.leb _ 0 = false |- _ => apply PyFacts.leb_gt in E end;
    do 2 eexists; (split; [|repeat split]); lra.
Qed.

Lemma rounded_amounts_near rec current projected :
  current_total_cost_eur rec = Py.round current 2 ->
  projected_cost_eur rec = Py.round projected 2 ->
  monthly_savings_eur rec = Py.round (current - projected) 2 ->
  (Qabs (monthly_savings_eur rec
         - (current_total_cost_eur rec - projected_cost_eur rec)) <= 0.01)%Q.
Proof.
  intros -> -> ->. apply PyFacts.round_sub_near.
Qed.

(** The savings of every recommendation of the three rules are within one
    cent of current minus projected cost. *)
Lemma rules_savings_near now sb ab rec :
  In rec (rules now sb ab) ->
  (Qabs (monthly_savings_eur rec
         - (current_total_cost_eur rec - projected_cost_eur rec)) <= 0.01)%Q.
Proof.
  unfold rules. intro H.
  apply in_app_or in H. destruct H as [H|H].
  - rewrite (idle_rule_savings_eq _ _ _ _ H).
    setoid_replace (current_total_cost_eur rec - projected_cost_eur rec
                    - (current_total_cost_eur rec - projected_cost_eur rec))%Q
      with 0%Q by ring.
    apply Qle_bool_iff. reflexivity.
  - apply in_app_or in H. destruct H as [H|H].
    + destruct (staging_rule_amounts _ _ _ _ H) as (c & p & _ & Hc & Hp & Hs).
      exact (rounded_amounts_near _ _ _ Hc Hp Hs).
    + destruct (rightsizing_rule_amounts _ _ _ _ H) as (c & p & _ & Hc & Hp & Hs).
      exact (rounded_amounts_near _ _ _ Hc Hp Hs).
Qed.

(** C1 as stated fails in rule 3 (and likewise in rule 2), which round the
    three amounts separately: a running cx21 stored at 3.375 a month gets
    current cost 3.38, projected cost 3.29 (cx11) and savings 0.08, the
    rounding of 0.085, and not 3.38 - 3.29 = 0.09. *)
Lemma rightsizing_rounding_counterexample :
  exists rec,
    _find_rightsizing_candidates
      0 [(1%Z, cloud_server 1 "web-1" "cx21" 2 3.375)] [(1%Z, analysis_of 1 10 20)]
    = [rec]
    /\ (current_total_cost_eur rec == 3.38)%Q
    /\ (projected_cost_eur rec == 3.29)%Q
    /\ (monthly_savings_eur rec == 0.08)%Q
    /\ ~ (monthly_savings_eur rec
          == current_total_cost_eur rec - projected_cost_eur rec)%Q.
Proof.
  eexists. split; [vm_compute; reflexivity|].
  cbn [current_total_cost_eur projected_cost_eur monthly_savings_eur].
  repeat split. intro E. vm_compute in E. discriminate E.
Qed.

(** C1, amended.  At creation, the savings of a recommendation of the idle
    rule are its current total cost minus its projected cost.  The
    consolidation and the right-sizing rule round current cost, projected
    cost and savings to two decimals each, from amounts with projected below
    current: their savings are the rounded difference of the two amounts,
    are >= 0, and are within 0.01 of stored current minus stored projected
    cost.  So every recommendation a generation cycle creates has savings
    within 0.01 of current minus projected cost. *)
Theorem new_recommendation_savings :
  (forall now server_by_id analysis_by_id rec,
      In rec (_find_idle_servers now server_by_id analysis_by_id) ->
      (monthly_savings_eur rec
       == current_total_cost_eur rec - projected_cost_eur rec)%Q)
  /\ (forall now server_by_id analysis_by_id rec,
        In rec (_find_staging_consolidation now server_by_id analysis_by_id)
        \/ In rec (_find_rightsizing_candidates now server_by_id analysis_by_id) ->
        (0 <= monthly_savings_eur rec)%Q
        /\ (exists current projected,
               (projected < current)%Q
               /\ current_total_cost_eur rec = Py.round current 2
               /\ projected_cost_eur rec = Py.round projected 2
               /\ monthly_savings_eur rec = Py.round (current - projected) 2)
        /\ (Qabs (monthly_savings_eur rec
                  - (current_total_cost_eur rec - projected_cost_eur rec))
            <= 0.01)%Q)
  /\ (forall db now rec,
        In rec (fst (generate_recommendations db now)) ->
        rec_status rec = pending
        /\ (Qabs (monthly_savings_eur rec
                  - (current_total_cost_eur rec - projected_cost_eur rec))
            <= 0.01)%Q).
Proof.
  split; [exact idle_rule_savings_eq|]. split.
  - intros now sb ab rec [H|H].
    + split; [exact (staging_rule_savings_nonneg _ _ _ _ H)|].
      destruct (staging_rule_amounts _ _ _ _ H) as (c & p & L & Hc & Hp & Hs).
      split; [exists c, p; repeat split; assumption|].
      exact (rounded_amounts_near _ _ _ Hc Hp Hs).
    + split; [exact (rightsizing_rule_savings_nonneg _ _ _ _ H)|].
      destruct (rightsizing_rule_amounts _ _ _ _ H) as (c & p & L & Hc & Hp & Hs).
      split; [exists c, p; repeat split; assumption|].
      exact (rounded_amounts_near _ _ _ Hc Hp Hs).
  - intros db now rec H.
    destruct (generate_recommendations_run db now) as (rows & E & Hp & Hpay).
    rewrite E in H. cbn [fst] in H.
    split; [exact (proj1 (Forall_forall _ _) Hp rec H)|].
    apply (in_map payload) in H. rewrite Hpay in H.
    apply in_map_iff in H. destruct H as (r & Er & Hr).
    pose proof (rules_savings_near _ _ _ _ Hr) as N.
    apply (f_equal monthly_savings_eur) in Er as E1.
    apply (f_equal current_total_cost_eur) in Er as E2.
    apply (f_equal projected_cost_eur) in Er as E3.
    cbn in E1, E2, E3. rewrite <- E1, <- E2, <- E3. exact N.
Qed.

Lemma new_recommendation_savings_witness :
  exists rec,
    In rec (_find_rightsizing_candidates
              0 [(1%Z, cloud_server 1 "web-1" "cx21" 2 3.375)]
              [(1%Z, analysis_of 1 10 20)])
    /\ (monthly_savings_eur rec == 0.08)%Q
    /\ (0 <= monthly_savings_eur rec)%Q
    /\ (Qabs (monthly_savings_eur rec
              - (current_total_cost_eur rec - projected_cost_eur rec)) <= 0.01)%Q.
Proof.
  destruct new_recommendation_savings as (_ & H & _).
  eexists. split; [vm_compute; left; reflexivity|].
  split; [vm_compute; reflexivity|].
  match goal with |- (0 <= monthly_savings_eur ?r)%Q /\ _ =>
    destruct (H 0%Z [(1%Z, cloud_server 1 "web-1" "cx21" 2 3.375)]
                [(1%Z, analysis_of 1 10 20)] r) as (Hpos & _ & Hnear)
  end.
  - right. vm_compute. left. reflexivity.
  - split; [exact Hpos | exact Hnear].
Defined.

(** A small inventory: an idle cx41 with one snapshot, an accepted and a
    pending recommendation of an earlier run. *)
Definition earlier (st : RecommendationStatus) (i : Z) : ConsolidationRecommendation :=
  {| rec_id := Some i; group_name := "Underutilized: old"; server_ids := [9%Z];
     target_server_type := "cx11"; current_total_cost_eur := 5.39;
     projected_cost_eur := 3.29; monthly_savings_eur := 2.10;
     rationale := "earlier run"; confidence := conf_high; rec_status := st;
     rec_created_at := 0 |}.

Definition small_db : Db :=
  {| servers := [cloud_server 1 "web-1" "cx41" 8 17.49];
     metric_snapshots :=
       [ {| ms_id := 1; ms_server_id := 1; timestamp := 1000;
            cpu_percent := 2; memory_percent := 0; disk_percent := 0;
            network_in_mbps := 0; network_out_mbps := 0;
            load_avg_1m := None |} ];
     running_services := [];
     consolidation_recommendations := [earlier accepted 1; earlier pending 2] |}.

(** One run: the accepted row stays, the pending row goes, the idle server
    gets a new pending row. *)
Example generate_recommendations_once :
  let db' := snd (generate_recommendations small_db 2000) in
  map rec_id (consolidation_recommendations db') = [Some 1%Z; Some 2%Z]
  /\ map rec_status (consolidation_recommendations db') = [accepted; pending]
  /\ map target_server_type (consolidation_recommendations db') = ["cx11"; "cx31"].
Proof.
  vm_compute. repeat split.
Qed.

(** A second run a day later gives the same pending recommendation. *)
Lemma generate_recommendations_regenerates_pending_witness :
  decided_rows (snd (generate_recommendations
                       (snd (generate_recommendations small_db 2000)) 88400))
  = decided_rows small_db
  /\ map payload
         (pending_rows (snd (generate_recommendations
                               (snd (generate_recommendations small_db 2000)) 88400)))
     = map payload (pending_rows (snd (generate_recommendations small_db 2000))).
Proof.
  pose proof (generate_recommendations_regenerates_pending small_db 2000) as H.
  cbv zeta in H.
  destruct H as (_ & _ & _ & _ & _ & _ & _ & _ & _ & _ & H).
  apply (H 88400%Z). vm_compute. reflexivity.
Defined.

End RecommenderFacts.

(** ** routes/servers.py: report ingestion *)

Module RoutesFacts.
Import Models Routes.
Local Open Scope string_scope.

(** What a report says of a service, and what a stored row says. *)
Definition Service : Type :=
  (string * string * option Z * string * option Q * option Q)%type.

Definition reported (s : Schemas.AgentServiceReport) : Service :=
  (Schemas.name s, Schemas.service_type s, Schemas.port s, Schemas.status s,
   Schemas.cpu_percent s, Schemas.memory_mb s).

Definition stored (r : RunningService) : Service :=
  (rs_name r, service_type_value (Models.service_type r), rs_port r, rs_status r,
   rs_cpu_percent r, Models.memory_mb r).

(** The primary key of [servers] is unique. *)
Definition primary_key_unique (db : Db) : Prop := NoDup (map id (servers db)).

Lemma ServiceType_of_value (s : string) (ty : ServiceType) :
  ServiceType_of s = Some ty -> service_type_value ty = s.
Proof.
  unfold ServiceType_of.
  destruct (String.eqb_spec s "docker") as [->|_];
    [intro E; injection E as <-; reflexivity|].
  destruct (String.eqb_spec s "systemd") as [->|_];
    [intro E; injection E as <-; reflexivity|].
  destruct (String.eqb_spec s "port") as [->|_];
    [intro E; injection E as <-; reflexivity|discriminate].
Qed.

Lemma new_services_stored server_id now reports :
  forall next rows,
    new_services server_id now next reports = Some rows ->
    map stored rows = map reported reports
    /\ Forall (fun r => rs_server_id r = server_id) rows.
Proof.
  induction reports as [|svc rest IH]; intros next rows; cbn [new_services].
  - intro E. injection E as <-. split; [reflexivity|constructor].
  - destruct (ServiceType_of (Schemas.service_type svc)) as [ty|] eqn:T; [|discriminate].
    destruct (new_services server_id now (next + 1) rest) as [rows'|] eqn:N;
      [|discriminate].
    intro E. injection E as <-.
    destruct (IH _ _ N) as [M F].
    split.
    + cbn [map]. rewrite M. unfold stored at 1, reported at 1.
      cbn [rs_name Models.service_type rs_port rs_status rs_cpu_percent Models.memory_mb].
      rewrite (ServiceType_of_value _ _ T). reflexivity.
    + constructor; [reflexivity|exact F].
Qed.

Lemma insert_sorted_perm {A} (le : A -> A -> bool) (x : A) (l : list A) :
  Permutation (Py.insert_sorted le x l) (x :: l).
Proof.
  induction l as [|y l IH]; cbn [Py.insert_sorted]; [reflexivity|].
  destruct (le x y); [reflexivity|].
  rewrite IH. apply perm_swap.
Qed.

Lemma sorted_by_perm {A} (le : A -> A -> bool) (l : list A) :
  Permutation (Py.sorted_by le l) l.
Proof.
  induction l as [|x l IH]; cbn [Py.sorted_by fold_right]; [reflexivity|].
  rewrite insert_sorted_perm. apply perm_skip. exact IH.
Qed.

Lemma next_id_fresh (ids : list Z) : ~ In (next_id ids) ids.
Proof.
  assert (forall i, In i ids -> (i <= fold_right Z.max 0 ids)%Z) as B.
  { induction ids as [|j ids IH]; intros i H; [destruct H|].
    cbn [fold_right]. destruct H as [->|H]; [lia|].
    specialize (IH i H). lia. }
  intro H. specialize (B _ H). unfold next_id in B. lia.
Qed.

Lemma NoDup_map_eq {A} (f : A -> Z) (l : list A) (a b : A) :
  NoDup (map f l) -> In a l -> In b l -> f a = f b -> a = b.
Proof.
  induction l as [|x l IH]; cbn [map]; intros N Ha Hb E; [destruct Ha|].
  inversion N as [|? ? Hx N']; subst.
  destruct Ha as [->|Ha], Hb as [->|Hb].
  - reflexivity.
  - exfalso. apply Hx. rewrite E. apply in_map. exact Hb.
  - exfalso. apply Hx. rewrite <- E. apply in_map. exact Ha.
  - exact (IH N' Ha Hb E).
Qed.

Lemma filter_map_same {A} (p : A -> bool) (u : A -> A) (l : list A) :
  (forall x, In x l -> p (u x) = p x) ->
  filter p (map u l) = map u (filter p l).
Proof.
  induction l as [|x l IH]; intro H; cbn [map filter]; [reflexivity|].
  rewrite (H x (or_introl eq_refl)).
  rewrite IH by (intros y Hy; apply H; right; exact Hy).
  destruct (p x); reflexivity.
Qed.

(** What a successful ingestion leaves in the database. *)
Lemma agent_report_ok agent_secret now report db db' :
  primary_key_unique db ->
  agent_report agent_secret now report db = (Ok "ok", db') ->
  exists srv fresh,
    select_by_ip db' (Schemas.server_ip report) = [srv]
    /\ In srv (servers db')
    /\ primary_key_unique db'
    /\ running_services db'
       = (filter (fun r => negb (rs_server_id r =? id srv)%Z) (running_services db)
            ++ fresh)%list
    /\ map stored fresh = map reported (Schemas.services report)
    /\ Forall (fun r => rs_server_id r = id srv) fresh
    /\ (forall srv0, select_by_ip db (Schemas.server_ip report) = [srv0] ->
                     id srv = id srv0).
Proof.
  intros PK. unfold agent_report.
  destruct (negb (Schemas.secret report =? agent_secret)); [discriminate|].
  destruct (select_by_ip db (Schemas.server_ip report)) as [|srv0 [|s1 l]] eqn:Sel.
  - (* auto-register *)
    destruct (existsb _ (servers db)); [discriminate|].
    match goal with
    | |- context [new_services ?i ?n ?k ?r] =>
        destruct (new_services i n k r) as [fresh|] eqn:N; [|discriminate]
    end.
    intro E. injection E as <-.
    destruct (new_services_stored _ _ _ _ _ N) as [M F].
    eexists. exists fresh.
    cbn [servers running_services]. unfold select_by_ip, primary_key_unique.
    cbn [servers].
    split.
    { rewrite filter_app. unfold select_by_ip in Sel. rewrite Sel.
      cbn [filter ipv4 app]. rewrite String.eqb_refl. reflexivity. }
    split; [apply in_or_app; right; left; reflexivity|].
    split.
    { rewrite map_app. cbn [map id].
      apply (Permutation_NoDup (Permutation_cons_append _ _)).
      constructor; [apply next_id_fresh | exact PK]. }
    split; [reflexivity|].
    split; [exact M|].
    split; [exact F|].
    intros srv0 E0. discriminate E0.
  - (* known server *)
    match goal with
    | |- context [new_services ?i ?n ?k ?r] =>
        destruct (new_services i n k r) as [fresh|] eqn:N; [|discriminate]
    end.
    intro E. injection E as <-.
    destruct (new_services_stored _ _ _ _ _ N) as [M F].
    assert (In srv0 (servers db) /\ (ipv4 srv0 =? Schemas.server_ip report) = true)
      as [Hin0 Hip0].
    { apply (proj1 (filter_In (fun s => ipv4 s =? Schemas.server_ip report)
                              srv0 (servers db))).
      unfold select_by_ip in Sel. rewrite Sel. left. reflexivity. }
    exists (set_seen srv0 now (Schemas.hostname report)), fresh.
    cbn [servers running_services]. unfold select_by_ip, primary_key_unique.
    cbn [servers].
    split.
    { rewrite filter_map_same.
      - unfold select_by_ip in Sel. rewrite Sel. cbn [map]. rewrite Z.eqb_refl.
        reflexivity.
      - intros x Hx. destruct (Z.eqb_spec (id x) (id srv0)) as [Eid|_]; [|reflexivity].
        rewrite (NoDup_map_eq id _ _ _ PK Hx Hin0 Eid). reflexivity. }
    split.
    { apply in_map_iff. exists srv0. rewrite Z.eqb_refl. split; [reflexivity|exact Hin0]. }
    split.
    { rewrite map_map.
      rewrite (map_ext_in _ id); [exact PK|].
      intros x Hx. destruct (Z.eqb_spec (id x) (id srv0)) as [Eid|_];
        [symmetry; exact Eid | reflexivity]. }
    split; [reflexivity|].
    split; [exact M|].
    split; [exact F|].
    intros srv1 E1. injection E1 as <-. reflexivity.
  - discriminate.
Qed.

(** The rows a query returns for the server of a report. *)
Lemma services_after_report agent_secret now report db db' :
  primary_key_unique db ->
  agent_report agent_secret now report db = (Ok "ok", db') ->
  exists srv rows,
    select_by_ip db' (Schemas.server_ip report) = [srv]
    /\ primary_key_unique db'
    /\ (forall srv0, select_by_ip db (Schemas.server_ip report) = [srv0] ->
                     id srv = id srv0)
    /\ get_server_services (id srv) db' = Ok rows
    /\ Permutation (map stored rows) (map reported (Schemas.services report)).
Proof.
  intros PK E.
  destruct (agent_report_ok _ _ _ _ _ PK E) as (srv & fresh & Sel & Hin & PK' & R & M & F & Same).
  exists srv. eexists.
  split; [exact Sel|]. split; [exact PK'|]. split; [exact Same|].
  unfold get_server_services.
  assert (existsb (fun s => (id s =? id srv)%Z) (servers db') = true) as Ex.
  { apply existsb_exists. exists srv. split; [exact Hin | apply Z.eqb_refl]. }
  rewrite Ex. cbn [negb]. split; [reflexivity|].
  rewrite R, filter_app.
  rewrite (RecommenderFacts.filter_none _ (filter _ (running_services db))).
  - rewrite (RecommenderFacts.filter_all _ fresh).
    + cbn [app]. rewrite <- M. apply Permutation_map. apply sorted_by_perm.
    + eapply Forall_impl; [|exact F]. intros r Hr. cbn beta. rewrite Hr.
      apply Z.eqb_refl.
  - apply Forall_forall. intros r Hr. apply filter_In in Hr. destruct Hr as [_ Hr].
    apply negb_true_iff in Hr. exact Hr.
Qed.

(** The reports of the examples. *)
Definition service_report (n ty : string) (p : Z) : Schemas.AgentServiceReport :=
  {| Schemas.name := n; Schemas.service_type := ty; Schemas.port := Some p;
     Schemas.status := "running"; Schemas.cpu_percent := None;
     Schemas.memory_mb := None |}.

Definition report_from (ip key : string) (svcs : list Schemas.AgentServiceReport)
  : Schemas.AgentReport :=
  {| Schemas.hostname := "db-1"; Schemas.server_ip := ip;
     Schemas.ar_cpu_percent := 12.5; Schemas.memory_percent := 40;
     Schemas.disk_percent := 55; Schemas.network_in_mbps := 0;
     Schemas.network_out_mbps := 0; Schemas.load_avg_1m := Some 0.4%Q;
     Schemas.services := svcs; Schemas.secret := key |}.

Definition empty_db : Db :=
  {| servers := []; metric_snapshots := []; running_services := [];
     consolidation_recommendations := [] |}.

Definition first_report : Schemas.AgentReport :=
  report_from "10.0.0.5" "change-me"
              [service_report "postgresql" "systemd" 5432;
               service_report "pgbouncer" "docker" 6432].

Definition second_report : Schemas.AgentReport :=
  report_from "10.0.0.5" "change-me" [service_report "nginx" "systemd" 443].

(** C7.  With a unique primary key on servers, after a report is ingested
    the services stored for its server (the one server with the report's IP)
    are exactly the services the report lists, whatever was stored before;
    so after two successive reports for the same server a query returns the
    second report's list, and nothing that only the first one listed. *)
Theorem agent_report_replaces_services :
  forall agent_secret now report db db',
    primary_key_unique db ->
    agent_report agent_secret now report db = (Ok "ok", db') ->
    exists srv rows,
      select_by_ip db' (Schemas.server_ip report) = [srv]
      /\ get_server_services (id srv) db' = Ok rows
      /\ Permutation (map stored rows) (map reported (Schemas.services report))
      /\ forall now2 report2 db'',
          Schemas.server_ip report2 = Schemas.server_ip report ->
          agent_report agent_secret now2 report2 db' = (Ok "ok", db'') ->
          exists srv2 rows2,
            select_by_ip db'' (Schemas.server_ip report) = [srv2]
            /\ id srv2 = id srv
            /\ get_server_services (id srv) db'' = Ok rows2
            /\ Permutation (map stored rows2) (map reported (Schemas.services report2))
            /\ forall s, In s (map reported (Schemas.services report)) ->
                         ~ In s (map reported (Schemas.services report2)) ->
                         ~ In s (map stored rows2).
Proof.
  intros agent_secret now report db db' PK E.
  destruct (services_after_report _ _ _ _ _ PK E) as (srv & rows & Sel & PK' & _ & G & P).
  exists srv, rows.
  split; [exact Sel|]. split; [exact G|]. split; [exact P|].
  intros now2 report2 db'' Hip E2.
  destruct (services_after_report _ _ _ _ _ PK' E2)
    as (srv2 & rows2 & Sel2 & _ & Same & G2 & P2).
  rewrite Hip in Sel2, Same.
  pose proof (Same srv Sel) as Hid.
  exists srv2, rows2.
  split; [exact Sel2|]. split; [exact Hid|].
  split; [rewrite <- Hid; exact G2|]. split; [exact P2|].
  intros s _ Hnot Hin. apply Hnot.
  exact (Permutation_in _ P2 Hin).
Qed.

Lemma agent_report_replaces_services_witness :
  exists srv rows,
    select_by_ip (snd (agent_report "change-me" 100 first_report empty_db))
                 (Schemas.server_ip first_report) = [srv]
    /\ get_server_services
         (id srv) (snd (agent_report "change-me" 100 first_report empty_db)) = Ok rows
    /\ Permutation (map stored rows) (map reported (Schemas.services first_report))
    /\ forall now2 report2 db'',
        Schemas.server_ip report2 = Schemas.server_ip first_report ->
        agent_report "change-me" now2 report2
                     (snd (agent_report "change-me" 100 first_report empty_db))
        = (Ok "ok", db'') ->
        exists srv2 rows2,
          select_by_ip db'' (Schemas.server_ip first_report) = [srv2]
          /\ id srv2 = id srv
          /\ get_server_services (id srv) db'' = Ok rows2
          /\ Permutation (map stored rows2) (map reported (Schemas.services report2))
          /\ forall s, In s (map reported (Schemas.services first_report)) ->
                       ~ In s (map reported (Schemas.services report2)) ->
                       ~ In s (map stored rows2).
Proof.
  apply (agent_report_replaces_services "change-me" 100 first_report empty_db).
  - constructor.
  - vm_compute. reflexivity.
Defined.

(** Two reports in a row: the query returns the second list only. *)
Example two_reports :
  let db1 := snd (agent_report "change-me" 100 first_report empty_db) in
  let db2 := snd (agent_report "change-me" 160 second_report db1) in
  match get_server_services 1 db1, get_server_services 1 db2 with
  | Ok rows1, Ok rows2 =>
      map rs_name rows1 = ["pgbouncer"; "postgresql"]
      /\ map rs_name rows2 = ["nginx"]
      /\ List.length (servers db2) = 1%nat
      /\ List.length (metric_snapshots db2) = 2%nat
  | _, _ => False
  end.
Proof.
  vm_compute. repeat split.
Qed.

(** C8.  A report whose secret is not the configured one is answered with
    403 and the database is left as it was: no server, snapshot or service
    row is added, changed or removed. *)
Theorem agent_report_forbidden :
  forall agent_secret now report db,
    Schemas.secret report <> agent_secret ->
    agent_report agent_secret now report db
    = (HTTPException 403 "Invalid agent secret", db).
Proof.
  intros agent_secret now report db H.
  unfold agent_report.
  apply String.eqb_neq in H. rewrite H. reflexivity.
Qed.

Lemma agent_report_forbidden_witness :
  agent_report "change-me" 200 (report_from "10.0.0.5" "guess" [])
               (snd (agent_report "change-me" 100 first_report empty_db))
  = (HTTPException 403 "Invalid agent secret",
     snd (agent_report "change-me" 100 first_report empty_db)).
Proof.
  apply agent_report_forbidden. discriminate.
Defined.

End RoutesFacts.

(** ** hetzner_cloud.py, hetzner_robot.py: the retry loop *)

Module ClientFacts.
Import HetznerClient.
Local Open Scope string_scope.


Section WithPayload.

Variable Payload : Type.
Variable float_of_string : string -> option Q.







End WithPayload.

(** Two throttled responses, the first with a hint of 5 seconds, then a
    503: the call sleeps 5 and 2 seconds and raises the error of the 503. *)
Definition sample_hint (s : string) : option Q :=
  if String.eqb s "5" then Some 5%Q else None.






(** Throttled every time: three requests, sleeps of 1, 2 and 4 seconds, then
    the error of the exhausted retries. *)
Example request_always_throttled :
  _request sample_hint Robot (fun _ => mkHttpResponse string 429 None "slow down" None)
  = (RaiseHetznerError Robot 429 "Rate limit exceeded after max retries",
     [1%Q; 2%Q; 4%Q]).
Proof.
  vm_compute. reflexivity.
Qed.

End ClientFacts.

(* ================================================================== *)
(** * Further properties of the recommendation engine *)
(* ================================================================== *)

(** ** Dictionaries built from rows *)

Module PyDictFacts.

Lemma dict_get_In {V} (k : Z) (v : V) (d : PyDict.t V) :
  PyDict.get k d = Some v -> In (k, v) d.
Proof.
  induction d as [|[k' v'] d IH]; cbn [PyDict.get]; [discriminate|].
  destruct (Z.eqb_spec k k') as [->|N].
  - intro E. injection E as ->. left. reflexivity.
  - intro E. right. exact (IH E).
Qed.

Lemma In_values {V} (k : Z) (v : V) (d : PyDict.t V) :
  In (k, v) d -> In v (PyDict.values d).
Proof.
  intro H. unfold PyDict.values. apply in_map_iff. exists (k, v). split; [reflexivity|exact H].
Qed.

Lemma In_set {V} (k k' : Z) (v v' : V) (d : PyDict.t V) :
  In (k', v') (PyDict.set k v d) -> (k', v') = (k, v) \/ In (k', v') d.
Proof.
  induction d as [|[k0 v0] d IH]; cbn [PyDict.set].
  - intros [E|[]]. left. symmetry. exact E.
  - destruct (Z.eqb_spec k k0) as [->|N].
    + intros [E|H]; [left; symmetry; exact E | right; right; exact H].
    + intros [E|H]; [right; left; exact E|].
      destruct (IH H) as [E|H']; [left; exact E | right; right; exact H'].
Qed.

Lemma keys_set {V} (k : Z) (v : V) (d : PyDict.t V) :
  NoDup (map fst d) -> NoDup (map fst (PyDict.set k v d))
  /\ forall j, In j (map fst (PyDict.set k v d)) <-> j = k \/ In j (map fst d).
Proof.
  induction d as [|[k0 v0] d IH]; cbn [PyDict.set map fst]; intro N.
  - split; [constructor; [intros []|constructor]|].
    intro j. cbn [In]. intuition congruence.
  - inversion N as [|? ? Hk0 N']; subst.
    destruct (Z.eqb_spec k k0) as [->|Ne]; cbn [map fst].
    + split; [exact N|]. intro j. cbn [In]. intuition congruence.
    + destruct (IH N') as [N'' M]. split.
      * constructor; [|exact N'']. intro H. apply M in H. destruct H as [E|H]; [congruence|].
        exact (Hk0 H).
      * intro j. cbn [In]. rewrite M. intuition congruence.
Qed.

(** A dictionary built by [of_list] has one entry per key, and each entry
    sits under its own key. *)
Lemma of_list_spec {V} (key : V -> Z) (xs : list V) :
  NoDup (map fst (PyDict.of_list key xs))
  /\ (forall k v, In (k, v) (PyDict.of_list key xs) -> key v = k /\ In v xs).
Proof.
  unfold PyDict.of_list.
  assert (forall (d : PyDict.t V),
             NoDup (map fst d) ->
             (forall k v, In (k, v) d -> key v = k) ->
             NoDup (map fst (fold_left (fun d x => PyDict.set (key x) x d) xs d))
             /\ forall k v,
                 In (k, v) (fold_left (fun d x => PyDict.set (key x) x d) xs d) ->
                 key v = k /\ (In v xs \/ In (k, v) d)) as G.
  { induction xs as [|x xs IH]; intros d N K; cbn [fold_left].
    - split; [exact N|]. intros k v H. split; [exact (K k v H) | right; exact H].
    - destruct (IH (PyDict.set (key x) x d)) as [N' K'].
      + apply keys_set. exact N.
      + intros k v H. apply In_set in H. destruct H as [E|H];
          [injection E as -> ->; reflexivity | exact (K k v H)].
      + split; [exact N'|]. intros k v H. destruct (K' k v H) as [E [Hin|Hin]].
        * split; [exact E | left; right; exact Hin].
        * split; [exact E|]. apply In_set in Hin. destruct Hin as [E'|Hin];
            [injection E' as _ ->; left; left; reflexivity | right; exact Hin]. }
  destruct (G PyDict.empty) as [N K].
  - constructor.
  - intros k v [].
  - split; [exact N|]. intros k v H. destruct (K k v H) as [E [Hin|[]]].
    split; assumption.
Qed.

Lemma NoDup_keys_eq {V} (d : PyDict.t V) (k : Z) (v v' : V) :
  NoDup (map fst d) -> In (k, v) d -> In (k, v') d -> v = v'.
Proof.
  induction d as [|[k0 v0] d IH]; cbn [map fst]; intros N H H'; [destruct H|].
  inversion N as [|? ? Hk N']; subst.
  destruct H as [E|H], H' as [E'|H'].
  - congruence.
  - injection E as -> ->. exfalso. apply Hk.
    change k with (fst (k, v')). apply in_map. exact H'.
  - injection E' as -> ->. exfalso. apply Hk.
    change k with (fst (k, v)). apply in_map. exact H.
  - exact (IH N' H H').
Qed.

End PyDictFacts.

(** ** What the rules never do *)

Module RecommenderMore.
Import Models Analyzer Recommender RecommenderFacts.
Local Open Scope string_scope.

Lemma tier_eqb_eq (a b : UtilizationTier) : tier_eqb a b = true <-> a = b.
Proof.
  split; [|intros ->; destruct b; reflexivity].
  destruct a, b; (reflexivity || discriminate).
Qed.

Lemma is_staging_running (s : Server) : is_staging s = true -> status s = "running".
Proof.
  unfold is_staging. destruct (String.eqb_spec (status s) "running") as [E|N].
  - intros _. exact E.
  - cbn [negb]. discriminate.
Qed.

(** Every server a rule names is a running server of the inventory it was
    given. *)
Lemma rules_name_running_servers now sb ab rec i :
  In rec (rules now sb ab) -> In i (server_ids rec) ->
  exists server,
    In server (PyDict.values sb) /\ id server = i /\ status server = "running".
Proof.
  unfold rules. intros H Hi.
  apply in_app_or in H. destruct H as [H|H]; [|apply in_app_or in H; destruct H as [H|H]].
  - unfold _find_idle_servers in H.
    apply in_flat_map in H. destruct H as ([sid analysis] & _ & H).
    branches H; subst rec; cbn [server_ids] in Hi; destruct Hi as [<-|[]];
      match goal with
      | G : PyDict.get _ sb = Some ?s, R : negb (status ?s =? "running") = false |- _ =>
          exists s; split; [exact (PyDictFacts.In_values _ _ _ (PyDictFacts.dict_get_In _ _ _ G))|];
          split; [reflexivity|];
          apply negb_false_iff in R; apply String.eqb_eq in R; exact R
      end.
  - unfold _find_staging_consolidation in H.
    branches H. subst rec. cbn [server_ids] in Hi.
    apply in_map_iff in Hi. destruct Hi as (s & <- & Hs).
    apply filter_In in Hs. destruct Hs as [Hin Hst].
    exists s. split; [exact Hin|]. split; [reflexivity|].
    exact (is_staging_running s Hst).
  - unfold _find_rightsizing_candidates in H.
    apply in_flat_map in H. destruct H as ([sid analysis] & _ & H).
    branches H; subst rec; cbn [server_ids] in Hi; destruct Hi as [<-|[]];
      match goal with
      | G : PyDict.get _ sb = Some ?s, R : negb (status ?s =? "running") = false |- _ =>
          exists s; split; [exact (PyDictFacts.In_values _ _ _ (PyDictFacts.dict_get_In _ _ _ G))|];
          split; [reflexivity|];
          apply negb_false_iff in R; apply String.eqb_eq in R; exact R
      end.
Qed.

Lemma payload_server_ids r r' : payload r = payload r' -> server_ids r = server_ids r'.
Proof. intro E. exact (f_equal server_ids E). Qed.

(** X2.  A recommendation created by a generation cycle names only servers
    of the inventory whose status is "running": a stopped or unknown server
    never appears in a new recommendation. *)
Theorem new_recommendations_name_running_servers :
  forall db now rec i,
    In rec (fst (generate_recommendations db now)) ->
    In i (server_ids rec) ->
    exists server,
      In server (servers db) /\ id server = i /\ status server = "running".
Proof.
  intros db now rec i H Hi.
  destruct (generate_recommendations_run db now) as (rows & E & _ & Hpay).
  rewrite E in H. cbn [fst] in H.
  apply (in_map payload) in H. rewrite Hpay in H.
  apply in_map_iff in H. destruct H as (r & Er & Hr).
  rewrite <- (payload_server_ids _ _ Er) in Hi.
  destruct (rules_name_running_servers _ _ _ _ _ Hr Hi) as (s & Hs & Hid & Hst).
  exists s. split; [|split; assumption].
  unfold PyDict.values in Hs. apply in_map_iff in Hs. destruct Hs as ([k v] & <- & Hkv).
  exact (proj2 (proj2 (PyDictFacts.of_list_spec id (servers db)) k v Hkv)).
Qed.

Lemma new_recommendations_name_running_servers_witness :
  exists server,
    In server (servers small_db) /\ id server = 1%Z /\ status server = "running".
Proof.
  eapply (new_recommendations_name_running_servers small_db 2000 _ 1%Z).
  - vm_compute. left. reflexivity.
  - left. reflexivity.
Defined.

(** X3.  In one generation cycle the idle rule and the right-sizing rule
    never both fire for the same server: no server is named both by a
    recommendation of rule 1 and by one of rule 3. *)
Theorem idle_and_rightsizing_exclusive :
  forall db now r1 r3,
    let server_by_id := PyDict.of_list id (servers db) in
    let analysis_by_id := PyDict.of_list a_server_id (analyze_all_servers db now) in
    In r1 (_find_idle_servers now server_by_id analysis_by_id) ->
    In r3 (_find_rightsizing_candidates now server_by_id analysis_by_id) ->
    forall i, In i (server_ids r1) -> ~ In i (server_ids r3).
Proof.
  intros db now r1 r3 sb ab H1 H3 i Hi1 Hi3.
  destruct (PyDictFacts.of_list_spec id (servers db)) as [_ Ksb].
  destruct (PyDictFacts.of_list_spec a_server_id (analyze_all_servers db now)) as [Nab _].
  fold sb in Ksb. fold ab in Nab.
  unfold _find_idle_servers in H1. unfold _find_rightsizing_candidates in H3.
  apply in_flat_map in H1. destruct H1 as ([sid1 a1] & Ha1 & H1).
  apply in_flat_map in H3. destruct H3 as ([sid3 a3] & Ha3 & H3).
  unfold PyDict.items in Ha1, Ha3.
  assert (utilization_tier a1 = idle /\ exists s1, PyDict.get sid1 sb = Some s1 /\ i = id s1)
    as (T1 & s1 & G1 & E1).
  { branches H1; subst r1; cbn [server_ids] in Hi1; destruct Hi1 as [<-|[]];
      (split; [match goal with X : negb (tier_eqb _ idle) = false |- _ =>
                       apply negb_false_iff, tier_eqb_eq in X; exact X end
              | eexists; split; [first [eassumption | reflexivity] | reflexivity]]). }
  assert (utilization_tier a3 <> idle /\ exists s3, PyDict.get sid3 sb = Some s3 /\ i = id s3)
    as (T3 & s3 & G3 & E3).
  { branches H3; subst r3; cbn [server_ids] in Hi3; destruct Hi3 as [<-|[]];
      (split; [intro T; match goal with X : tier_eqb _ idle = false |- _ =>
                          rewrite T in X; discriminate X end
              | eexists; split; [first [eassumption | reflexivity] | reflexivity]]). }
  apply PyDictFacts.dict_get_In in G1. apply PyDictFacts.dict_get_In in G3.
  destruct (Ksb _ _ G1) as [K1 _]. destruct (Ksb _ _ G3) as [K3 _].
  assert (sid1 = sid3) as -> by congruence.
  rewrite (PyDictFacts.NoDup_keys_eq ab sid3 a1 a3 Nab Ha1 Ha3) in T1.
  exact (T3 T1).
Qed.

(** An idle cx41 and a lightly used cx31. *)
Definition snapshot_of (i sid ts : Z) (cpu : Q) : MetricSnapshot :=
  {| ms_id := i; ms_server_id := sid; timestamp := ts; cpu_percent := cpu;
     memory_percent := 30; disk_percent := 40; network_in_mbps := 1;
     network_out_mbps := 1; load_avg_1m := None |}.

Definition two_server_db : Db :=
  {| servers := [cloud_server 1 "web-1" "cx41" 8 17.49;
                 cloud_server 2 "api-1" "cx31" 4 10.49];
     metric_snapshots := [snapshot_of 1 1 1000 2; snapshot_of 2 2 1000 10;
                          snapshot_of 3 2 1500 20];
     running_services := [];
     consolidation_recommendations := [] |}.

Lemma idle_and_rightsizing_exclusive_witness :
  exists r1 r3,
    In r1 (_find_idle_servers
             2000 (PyDict.of_list id (servers two_server_db))
             (PyDict.of_list a_server_id (analyze_all_servers two_server_db 2000)))
    /\ In r3 (_find_rightsizing_candidates
                2000 (PyDict.of_list id (servers two_server_db))
                (PyDict.of_list a_server_id (analyze_all_servers two_server_db 2000)))
    /\ In 1%Z (server_ids r1) /\ server_ids r3 = [2%Z] /\ ~ In 1%Z (server_ids r3).
Proof.
  assert (exists r1,
             In r1 (_find_idle_servers
                      2000 (PyDict.of_list id (servers two_server_db))
                      (PyDict.of_list a_server_id
                                      (analyze_all_servers two_server_db 2000)))
             /\ In 1%Z (server_ids r1)) as (r1 & H1 & I1)
      by (eexists; split; [vm_compute; left; reflexivity | left; reflexivity]).
  assert (exists r3,
             In r3 (_find_rightsizing_candidates
                      2000 (PyDict.of_list id (servers two_server_db))
                      (PyDict.of_list a_server_id
                                      (analyze_all_servers two_server_db 2000)))
             /\ server_ids r3 = [2%Z]) as (r3 & H3 & I3)
      by (eexists; split; [vm_compute; left; reflexivity | reflexivity]).
  exists r1, r3. repeat split; try assumption.
  exact (idle_and_rightsizing_exclusive two_server_db 2000 r1 r3 H1 H3 1%Z I1).
Defined.

(** *** The target type grows with the load *)

Lemma price_unique (t : string) (p : Q) :
  In (t, p) PRICE_MAP -> Py.get t PRICE_MAP = Some p.
Proof.
  intro H. each_type H; reflexivity.
Qed.

Lemma price_at_most_ccx33 (t : string) (p : Q) :
  In (t, p) PRICE_MAP -> (p <= 42.49)%Q.
Proof.
  intro H. each_type H; apply Qle_bool_iff; reflexivity.
Qed.

Lemma required_cores_mono (servers : list Server) (p1 p2 : Q) :
  (0 <= Py.sumZ (map cores servers))%Z -> (p1 <= p2)%Q ->
  (required_cores p1 servers <= required_cores p2 servers)%Q.
Proof.
  intros S L. unfold required_cores.
  assert ((1 <= inject_Z (total_original_cores servers))%Q) as T.
  { change 1%Q with (inject_Z 1). rewrite <- Zle_Qle.
    unfold total_original_cores.
    destruct (Z.eqb_spec (Py.sumZ (map cores servers)) 0); lia. }
  set (t := inject_Z (total_original_cores servers)) in *.
  apply Qmult_le_compat_r; [|apply Qlt_le_weak; reflexivity].
  apply Qmult_le_compat_r; [|lra].
  apply Qmult_le_compat_r; [exact L | apply Qlt_le_weak; reflexivity].
Qed.

(** X4.  For the same servers (with a non-negative total of cores), a higher
    combined peak CPU never gets a cheaper target type. *)
Theorem pick_target_type_monotone :
  forall servers p1 p2 price1 price2,
    (0 <= Py.sumZ (map cores servers))%Z ->
    (p1 <= p2)%Q ->
    Py.get (_pick_target_type_for_combined_load p1 servers) PRICE_MAP = Some price1 ->
    Py.get (_pick_target_type_for_combined_load p2 servers) PRICE_MAP = Some price2 ->
    (price1 <= price2)%Q.
Proof.
  intros servers p1 p2 price1 price2 S L G1 G2.
  pose proof (required_cores_mono servers p1 p2 S L) as R.
  pose proof (first_fitting_specified (required_cores p1 servers)) as F1.
  pose proof (first_fitting_specified (required_cores p2 servers)) as F2.
  unfold _pick_target_type_for_combined_load in G1, G2.
  unfold required_cores in F1, F2, R.
  destruct (first_fitting (Py.max (p2 / 100 * _ / 0.7) 1) _) as [t2|].
  - destruct F2 as (q2 & I2 & Fit2 & _).
    rewrite (price_unique _ _ I2) in G2. injection G2 as <-.
    assert (fits (p1 / 100 * inject_Z (total_original_cores servers) / 0.7) t2) as Fit1
        by (unfold fits in *; lra).
    destruct (first_fitting (Py.max (p1 / 100 * _ / 0.7) 1) _) as [t1|].
    + destruct F1 as (q1 & I1 & _ & Min1).
      rewrite (price_unique _ _ I1) in G1. injection G1 as <-.
      exact (Min1 t2 q2 I2 Fit1).
    + exfalso. exact (F1 t2 q2 I2 Fit1).
  - rewrite candidates_by_price in G2. cbn in G2. injection G2 as <-.
    apply (price_at_most_ccx33 (_pick_target_type_for_combined_load p1 servers)).
    apply RecommenderFacts.get_In. exact G1.
Qed.

Lemma pick_target_type_monotone_witness : (3.29 <= 10.49)%Q.
Proof.
  apply (pick_target_type_monotone
           [cloud_server 1 "staging-1" "cx21" 2 5.39;
            cloud_server 2 "staging-2" "cx21" 2 5.39] 7 60 3.29 10.49).
  - vm_compute. discriminate.
  - apply Qle_bool_iff. reflexivity.
  - vm_compute. reflexivity.
  - vm_compute. reflexivity.
Defined.

(** *** Primary keys of the recommendations *)

(** Every row has a key, and no key is used twice. *)
Definition keys_unique (table : list ConsolidationRecommendation) : Prop :=
  Forall (fun r => rec_id r <> None) table /\ NoDup (map key_of table).

Lemma next_id_above (ids : list Z) (i : Z) : In i ids -> (i < next_id ids)%Z.
Proof.
  unfold next_id. induction ids as [|j ids IH]; intro H; [destruct H|].
  cbn [fold_right]. destruct H as [->|H]; [lia|]. specialize (IH H). lia.
Qed.

Lemma add_all_keys table news :
  keys_unique table -> keys_unique (add_all table news).
Proof.
  revert table. induction news as [|r rest IH]; intros table [F N]; cbn [add_all].
  - split; assumption.
  - apply IH. split.
    + apply Forall_app. split; [exact F|]. constructor; [discriminate|constructor].
    + rewrite map_app. cbn [map key_of with_id rec_id].
      apply (Permutation_NoDup (Permutation_cons_append _ _)).
      constructor; [|exact N].
      intro H. apply next_id_above in H. lia.
Qed.

Lemma keys_unique_filter f table :
  keys_unique table -> keys_unique (filter f table).
Proof.
  intros [F N]. split.
  - apply Forall_forall. intros r H. apply filter_In in H.
    exact (proj1 (Forall_forall _ _) F r (proj1 H)).
  - clear F. induction table as [|r table IH]; cbn [filter map]; [constructor|].
    cbn [map] in N. inversion N as [|? ? Hr N']; subst.
    destruct (f r); cbn [map]; [|exact (IH N')].
    constructor; [|exact (IH N')].
    intro H. apply Hr. apply in_map_iff in H. destruct H as (x & E & Hx).
    apply filter_In in Hx. rewrite <- E. apply in_map. exact (proj1 Hx).
Qed.

(** X5.  A generation cycle keeps the primary key of the recommendations
    unique: every new row gets a key, and no key of the table after the run
    is used twice. *)
Theorem generate_recommendations_keeps_keys :
  forall db now,
    keys_unique (consolidation_recommendations db) ->
    keys_unique (consolidation_recommendations (snd (generate_recommendations db now)))
    /\ Forall (fun r => rec_id r <> None) (fst (generate_recommendations db now)).
Proof.
  intros db now K.
  assert (keys_unique (consolidation_recommendations
                         (snd (generate_recommendations db now)))) as K'.
  { unfold generate_recommendations. cbv zeta. cbn [snd consolidation_recommendations].
    apply add_all_keys. apply keys_unique_filter. exact K. }
  split; [exact K'|].
  destruct (generate_recommendations_tables db now) as (Ht & _).
  cbv zeta in Ht. rewrite Ht in K'. destruct K' as [F _].
  apply Forall_app in F. exact (proj2 F).
Qed.

Lemma generate_recommendations_keeps_keys_witness :
  keys_unique (consolidation_recommendations
                 (snd (generate_recommendations small_db 2000)))
  /\ Forall (fun r => rec_id r <> None) (fst (generate_recommendations small_db 2000)).
Proof.
  apply generate_recommendations_keeps_keys.
  split.
  - repeat constructor; discriminate.
  - cbn. repeat constructor; cbn; intuition discriminate.
Defined.

End RecommenderMore.

(* ================================================================== *)
(** * Further properties of the analyzer and of the cloud metrics path *)
(* ================================================================== *)

Module AnalyzerMore.
Import Models Analyzer.

(** *** Rounding keeps the order *)

Lemma round_half_even_mono (x y : Q) :
  (x <= y)%Q -> (Py.round_half_even x <= Py.round_half_even y)%Z.
Proof.
  intro L.
  pose proof (Qfloor_resp_le x y L) as F.
  pose proof (Qfloor_le x) as Lx. pose proof (Qlt_floor x) as Ux.
  pose proof (Qfloor_le y) as Ly. pose proof (Qlt_floor y) as Uy.
  rewrite inject_Z_plus in Ux, Uy. change (inject_Z 1) with 1%Q in Ux, Uy.
  unfold Py.round_half_even.
  destruct (Z.eq_dec (Qfloor x) (Qfloor y)) as [E|N].
  - rewrite E in *. set (f := Qfloor y) in *.
    destruct (x - inject_Z f ?= 1 # 2)%Q eqn:Cx;
      destruct (y - inject_Z f ?= 1 # 2)%Q eqn:Cy;
      try (destruct (Z.even f)); try lia;
      repeat match goal with
             | H : (_ ?= _)%Q = Eq |- _ => apply <- Qeq_alt in H
             | H : (_ ?= _)%Q = Lt |- _ => apply <- Qlt_alt in H
             | H : (_ ?= _)%Q = Gt |- _ => apply <- Qgt_alt in H
             end;
      exfalso; lra.
  - assert (Qfloor x + 1 <= Qfloor y)%Z as F' by lia.
    destruct (x - inject_Z (Qfloor x) ?= 1 # 2)%Q;
      destruct (y - inject_Z (Qfloor y) ?= 1 # 2)%Q;
      try (destruct (Z.even (Qfloor x))); try (destruct (Z.even (Qfloor y))); lia.
Qed.

Lemma round_mono (x y : Q) (n : nat) :
  (x <= y)%Q -> (Py.round x n <= Py.round y n)%Q.
Proof.
  intro L. unfold Py.round.
  pose proof (PyFacts.inject_pow10_pos n) as P.
  apply Qmult_le_compat_r; [|apply Qlt_le_weak, Qinv_lt_0_compat; exact P].
  rewrite <- Zle_Qle. apply round_half_even_mono.
  apply Qmult_le_compat_r; [exact L | apply Qlt_le_weak; exact P].
Qed.

(** *** Mean and maximum *)

Lemma fold_max_bounds (xs : list Q) :
  forall init,
    (init <= fold_left Py.max xs init)%Q
    /\ forall x, In x xs -> (x <= fold_left Py.max xs init)%Q.
Proof.
  induction xs as [|y xs IH]; intro init; cbn [fold_left].
  - split; [apply Qle_refl | intros x []].
  - destruct (IH (Py.max init y)) as [B A].
    assert ((init <= Py.max init y)%Q /\ (y <= Py.max init y)%Q) as [Mi My].
    { destruct (PyFacts.max_spec init y) as [[L E]|[L E]]; rewrite E; split; lra. }
    split; [lra|]. intros x [->|H]; [lra | exact (A x H)].
Qed.

Lemma fold_max_le (xs : list Q) (bound : Q) :
  forall init,
    (init <= bound)%Q -> (forall x, In x xs -> (x <= bound)%Q) ->
    (fold_left Py.max xs init <= bound)%Q.
Proof.
  induction xs as [|y xs IH]; intros init Hi Hx; cbn [fold_left]; [exact Hi|].
  apply IH.
  - destruct (PyFacts.max_spec init y) as [[L E]|[L E]]; rewrite E;
      [apply Hx; left; reflexivity | exact Hi].
  - intros x H. apply Hx. right. exact H.
Qed.

Lemma len_cons {A} (x : A) (xs : list A) :
  (inject_Z (Py.len (x :: xs)) == inject_Z (Py.len xs) + 1)%Q.
Proof.
  unfold Py.len. cbn [List.length]. rewrite Nat2Z.inj_succ, <- Z.add_1_r.
  rewrite inject_Z_plus. reflexivity.
Qed.

Lemma len_pos {A} (x : A) (xs : list A) : (0 < inject_Z (Py.len (x :: xs)))%Q.
Proof.
  change 0%Q with (inject_Z 0). rewrite <- Zlt_Qlt. unfold Py.len. cbn [List.length]. lia.
Qed.

Lemma sum_le (xs : list Q) (bound : Q) :
  (forall x, In x xs -> (x <= bound)%Q) ->
  (Py.sum xs <= inject_Z (Py.len xs) * bound)%Q.
Proof.
  induction xs as [|y xs IH]; intro H.
  - unfold Py.sum, Py.len. cbn. change (inject_Z 0) with 0%Q. lra.
  - rewrite PyFacts.sum_cons, len_cons.
    assert ((y <= bound)%Q) as Hy by (apply H; left; reflexivity).
    assert ((Py.sum xs <= inject_Z (Py.len xs) * bound)%Q) as Hs
        by (apply IH; intros x Hx; apply H; right; exact Hx).
    lra.
Qed.

Lemma sum_ge (xs : list Q) (bound : Q) :
  (forall x, In x xs -> (bound <= x)%Q) ->
  (inject_Z (Py.len xs) * bound <= Py.sum xs)%Q.
Proof.
  induction xs as [|y xs IH]; intro H.
  - unfold Py.sum, Py.len. cbn. change (inject_Z 0) with 0%Q. lra.
  - rewrite PyFacts.sum_cons, len_cons.
    assert ((bound <= y)%Q) as Hy by (apply H; left; reflexivity).
    assert ((inject_Z (Py.len xs) * bound <= Py.sum xs)%Q) as Hs
        by (apply IH; intros x Hx; apply H; right; exact Hx).
    lra.
Qed.

Lemma sql_avg_le (xs : list Q) (v bound : Q) :
  sql_avg xs = Some v -> (forall x, In x xs -> (x <= bound)%Q) -> (v <= bound)%Q.
Proof.
  destruct xs as [|y xs]; [discriminate|]. intros E H. injection E as <-.
  apply Qle_shift_div_r; [apply len_pos|].
  rewrite Qmult_comm. apply sum_le. exact H.
Qed.

Lemma sql_avg_ge (xs : list Q) (v bound : Q) :
  sql_avg xs = Some v -> (forall x, In x xs -> (bound <= x)%Q) -> (bound <= v)%Q.
Proof.
  destruct xs as [|y xs]; [discriminate|]. intros E H. injection E as <-.
  apply Qle_shift_div_l; [apply len_pos|].
  rewrite Qmult_comm. apply sum_ge. exact H.
Qed.

Lemma sql_max_ge (xs : list Q) (v : Q) :
  sql_max xs = Some v -> forall x, In x xs -> (x <= v)%Q.
Proof.
  destruct xs as [|y xs]; [discriminate|]. intros E x H. injection E as <-.
  destruct (fold_max_bounds xs y) as [B A].
  destruct H as [->|H]; [exact B | exact (A x H)].
Qed.

Lemma sql_max_le (xs : list Q) (v bound : Q) :
  sql_max xs = Some v -> (forall x, In x xs -> (x <= bound)%Q) -> (v <= bound)%Q.
Proof.
  destruct xs as [|y xs]; [discriminate|]. intros E H. injection E as <-.
  apply fold_max_le; [apply H; left; reflexivity|].
  intros x Hx. apply H. right. exact Hx.
Qed.

(** The snapshots of a server inside the 30-day window. *)
Lemma window_rows_In db sid now m :
  In m (window_rows db sid now)
  <-> In m (metric_snapshots db) /\ ms_server_id m = sid
      /\ (now - 2592000 <= timestamp m)%Z.
Proof.
  unfold window_rows, timedelta_days. rewrite filter_In, andb_true_iff, Z.eqb_eq, Z.leb_le.
  change (30 * 86400)%Z with 2592000%Z. tauto.
Qed.

(** X6.  [analyze_all_servers] returns exactly one entry per inventory
    server, in inventory order.  [analyze_server] returns nothing exactly
    when the server has no snapshot in the last 30 days, and such a server
    gets the zeroed entry of tier idle. *)
Theorem analyze_all_servers_one_entry_per_server :
  forall db now,
    map a_server_id (analyze_all_servers db now) = map id (servers db)
    /\ (forall sid,
           analyze_server db sid now = None
           <-> forall m, In m (metric_snapshots db) -> ms_server_id m = sid ->
                         (timestamp m < now - 2592000)%Z)
    /\ (forall a,
           In a (analyze_all_servers db now) ->
           (forall m, In m (metric_snapshots db) -> ms_server_id m = a_server_id a ->
                      (timestamp m < now - 2592000)%Z) ->
           avg_cpu_30d a = 0%Q /\ peak_cpu_30d a = 0%Q
           /\ avg_memory_30d a = 0%Q /\ peak_memory_30d a = 0%Q
           /\ utilization_tier a = idle).
Proof.
  intros db now.
  assert (forall sid,
             analyze_server db sid now = None
             <-> forall m, In m (metric_snapshots db) -> ms_server_id m = sid ->
                           (timestamp m < now - 2592000)%Z) as None_iff.
  { intro sid. unfold analyze_server.
    destruct (window_rows db sid now) as [|m0 rows] eqn:W.
    - split; [|reflexivity]. intros _ m Hin Hs.
      destruct (Z_lt_le_dec (timestamp m) (now - 2592000)) as [L|G]; [exact L|].
      exfalso. assert (In m (window_rows db sid now)) as Hm
          by (apply window_rows_In; repeat split; assumption).
      rewrite W in Hm. destruct Hm.
    - split; [cbn; discriminate|]. intro H. exfalso.
      assert (In m0 (window_rows db sid now)) as Hm by (rewrite W; left; reflexivity).
      apply window_rows_In in Hm. destruct Hm as (Hin & Hs & Ht).
      specialize (H m0 Hin Hs). lia. }
  split; [|split; [exact None_iff|]].
  - unfold analyze_all_servers. rewrite map_map.
    rewrite <- (map_id (map id (servers db))) at 2. apply map_ext. intro sid.
    destruct (analyze_server db sid now) as [a|] eqn:E; [|reflexivity].
    exact (CollectorFacts.analyze_server_id _ _ _ _ E).
  - intros a Hin Hno. unfold analyze_all_servers in Hin.
    apply in_map_iff in Hin. destruct Hin as (sid & Ha & _).
    destruct (analyze_server db sid now) as [a'|] eqn:E.
    + subst a'. rewrite (CollectorFacts.analyze_server_id _ _ _ _ E) in Hno.
      apply None_iff in Hno. congruence.
    + subst a. repeat split.
Qed.

Lemma sql_max_lower (xs : list Q) (v bound : Q) :
  sql_max xs = Some v -> (forall x, In x xs -> (bound <= x)%Q) -> (bound <= v)%Q.
Proof.
  destruct xs as [|y xs]; [discriminate|]. intros E H.
  apply Qle_trans with y; [apply H; left; reflexivity|].
  apply (sql_max_ge _ _ E). left. reflexivity.
Qed.

(** Mean and peak of readings between 0 and 100, after rounding. *)
Lemma rounded_statistics_bounded (xs : list Q) (mean peak : Q) :
  sql_avg xs = Some mean -> sql_max xs = Some peak ->
  (forall x, In x xs -> (0 <= x)%Q /\ (x <= 100)%Q) ->
  (0 <= Py.round mean 2)%Q /\ (Py.round mean 2 <= 100)%Q
  /\ (0 <= Py.round peak 2)%Q /\ (Py.round peak 2 <= 100)%Q
  /\ (Py.round mean 2 <= Py.round peak 2 + 0.01)%Q.
Proof.
  intros A P B.
  assert ((0 <= mean)%Q) as M0
      by (apply (sql_avg_ge _ _ _ A); intros x Hx; exact (proj1 (B x Hx))).
  assert ((mean <= 100)%Q) as M1
      by (apply (sql_avg_le _ _ _ A); intros x Hx; exact (proj2 (B x Hx))).
  assert ((0 <= peak)%Q) as P0
      by (apply (sql_max_lower _ _ _ P); intros x Hx; exact (proj1 (B x Hx))).
  assert ((peak <= 100)%Q) as P1
      by (apply (sql_max_le _ _ _ P); intros x Hx; exact (proj2 (B x Hx))).
  assert ((mean <= peak)%Q) as MP by exact (sql_avg_le _ _ _ A (sql_max_ge _ _ P)).
  pose proof (round_mono _ _ 2 MP) as R.
  split; [exact (PyFacts.round_ge_Z _ 2 0 M0)|].
  split; [exact (PyFacts.round_le_Z _ 2 100 M1)|].
  split; [exact (PyFacts.round_ge_Z _ 2 0 P0)|].
  split; [exact (PyFacts.round_le_Z _ 2 100 P1)|].
  lra.
Qed.

(** X7.  The statistics [analyze_server] returns are those of the server
    asked for, the tier is the one of the returned mean, and they are
    bounded: when every CPU reading of the server lies in [0, 100], so do
    the returned CPU mean and peak, and the mean is at most one hundredth
    above the peak (mean and peak are rounded to two decimals apart from
    each other); likewise for memory. *)
Theorem analyze_server_statistics_bounded :
  forall db sid now a,
    analyze_server db sid now = Some a ->
    a_server_id a = sid
    /\ utilization_tier a = classify_utilization (avg_cpu_30d a)
    /\ ((forall m, In m (metric_snapshots db) -> ms_server_id m = sid ->
                   (0 <= cpu_percent m)%Q /\ (cpu_percent m <= 100)%Q) ->
        (0 <= avg_cpu_30d a)%Q /\ (avg_cpu_30d a <= 100)%Q
        /\ (0 <= peak_cpu_30d a)%Q /\ (peak_cpu_30d a <= 100)%Q
        /\ (avg_cpu_30d a <= peak_cpu_30d a + 0.01)%Q)
    /\ ((forall m, In m (metric_snapshots db) -> ms_server_id m = sid ->
                   (0 <= memory_percent m)%Q /\ (memory_percent m <= 100)%Q) ->
        (0 <= avg_memory_30d a)%Q /\ (avg_memory_30d a <= 100)%Q
        /\ (0 <= peak_memory_30d a)%Q /\ (peak_memory_30d a <= 100)%Q
        /\ (avg_memory_30d a <= peak_memory_30d a + 0.01)%Q).
Proof.
  intros db sid now a. unfold analyze_server.
  destruct (sql_avg (map cpu_percent _)) as [ac|] eqn:AC; [|discriminate].
  destruct (sql_avg (map memory_percent _)) as [am|] eqn:AM; [|discriminate].
  destruct (sql_max (map cpu_percent _)) as [pc|] eqn:PC; [|discriminate].
  destruct (sql_max (map memory_percent _)) as [pm|] eqn:PM; [|discriminate].
  intro E. injection E as <-.
  cbn [a_server_id avg_cpu_30d peak_cpu_30d avg_memory_30d peak_memory_30d utilization_tier].
  split; [reflexivity|]. split; [reflexivity|].
  split; intro B.
  - apply (rounded_statistics_bounded _ _ _ AC PC).
    intros x Hx. apply in_map_iff in Hx. destruct Hx as (m & <- & Hm).
    apply window_rows_In in Hm. apply B; tauto.
  - apply (rounded_statistics_bounded _ _ _ AM PM).
    intros x Hx. apply in_map_iff in Hx. destruct Hx as (m & <- & Hm).
    apply window_rows_In in Hm. apply B; tauto.
Qed.

Lemma analyze_server_statistics_bounded_witness :
  exists a,
    analyze_server RecommenderMore.two_server_db 2 2000 = Some a
    /\ (avg_cpu_30d a == 15)%Q /\ (peak_cpu_30d a == 20)%Q
    /\ (0 <= avg_cpu_30d a)%Q /\ (peak_cpu_30d a <= 100)%Q
    /\ (avg_cpu_30d a <= peak_cpu_30d a + 0.01)%Q
    /\ utilization_tier a = low.
Proof.
  eexists. split; [vm_compute; reflexivity|].
  split; [vm_compute; reflexivity|]. split; [vm_compute; reflexivity|].
  match goal with |- (0 <= avg_cpu_30d ?x)%Q /\ _ =>
    destruct (analyze_server_statistics_bounded RecommenderMore.two_server_db 2 2000 x)
      as (_ & T & H & _); [vm_compute; reflexivity|] end.
  destruct H as (H0 & _ & _ & H1 & H2).
  - intros m Hm _. cbn in Hm.
    repeat (destruct Hm as [<- | Hm]; [vm_compute; split; discriminate|]).
    destruct Hm.
  - split; [exact H0|]. split; [exact H1|]. split; [exact H2|].
    rewrite T. reflexivity.
Defined.

End AnalyzerMore.

(* ================================================================== *)
(** * Further properties of the routes, the clients and the collector *)
(* ================================================================== *)

(** ** Sorting *)

Module SortFacts.

Section WithOrder.

Context {A : Type} (le : A -> A -> bool).
Hypothesis le_total : forall a b, le a b = true \/ le b a = true.

Lemma insert_sorted_HdRel (y x : A) (l : list A) :
  HdRel (fun a b => le a b = true) y l -> le y x = true ->
  HdRel (fun a b => le a b = true) y (Py.insert_sorted le x l).
Proof.
  intros H Hyx. destruct l as [|z l]; cbn [Py.insert_sorted].
  - constructor. exact Hyx.
  - destruct (le x z); constructor; [exact Hyx|].
    inversion H; subst. assumption.
Qed.

Lemma insert_sorted_Sorted (x : A) (l : list A) :
  Sorted (fun a b => le a b = true) l ->
  Sorted (fun a b => le a b = true) (Py.insert_sorted le x l).
Proof.
  induction l as [|y l IH]; intro S; cbn [Py.insert_sorted].
  - repeat constructor.
  - destruct (le x y) eqn:E.
    + constructor; [exact S | constructor; exact E].
    + apply Sorted_inv in S. destruct S as [S H].
      constructor; [exact (IH S)|].
      apply insert_sorted_HdRel; [exact H|].
      destruct (le_total x y) as [C|C]; [congruence | exact C].
Qed.

Lemma sorted_by_Sorted (l : list A) :
  Sorted (fun a b => le a b = true) (Py.sorted_by le l).
Proof.
  induction l as [|x l IH]; cbn [Py.sorted_by fold_right]; [constructor|].
  apply insert_sorted_Sorted. exact IH.
Qed.

End WithOrder.

End SortFacts.

(** ** routes/servers.py *)

Module RoutesMore.
Import Models Routes RoutesFacts.
Local Open Scope string_scope.

Lemma new_services_None server_id now reports :
  forall next,
    (exists s, In s reports /\ ServiceType_of (Schemas.service_type s) = None) ->
    new_services server_id now next reports = None.
Proof.
  induction reports as [|svc rest IH]; intros next (s & Hin & Hs); [destruct Hin|].
  cbn [new_services]. destruct Hin as [->|Hin].
  - rewrite Hs. reflexivity.
  - destruct (ServiceType_of (Schemas.service_type svc)); [|reflexivity].
    rewrite IH by (exists s; split; assumption). reflexivity.
Qed.

(** X8.  A report that is not answered "ok" changes nothing: the database is
    the one before the request.  The answer is 403 exactly when the secret
    differs, and a report that names a service type outside docker, systemd
    and port is never answered "ok". *)
Theorem agent_report_rejected_leaves_database :
  forall agent_secret now report db,
    let result := agent_report agent_secret now report db in
    (fst result = Ok "ok" \/ snd result = db)
    /\ (Schemas.secret report <> agent_secret
        <-> fst result = HTTPException 403 "Invalid agent secret")
    /\ ((exists s, In s (Schemas.services report)
                   /\ ServiceType_of (Schemas.service_type s) = None) ->
        fst result <> Ok "ok" /\ snd result = db).
Proof.
  intros agent_secret now report db result. subst result. unfold agent_report.
  destruct (String.eqb_spec (Schemas.secret report) agent_secret) as [Es|Ns];
    cbn [negb].
  2:{ split; [right; reflexivity|]. split; [tauto|].
      intros _. split; [discriminate | reflexivity]. }
  assert (forall P : Prop, (Schemas.secret report <> agent_secret <-> P) <-> ~ P) as Iff
      by (intro P; tauto).
  destruct (select_by_ip db (Schemas.server_ip report)) as [|srv0 [|s1 l]].
  - destruct (existsb _ (servers db)).
    + cbn [fst snd]. split; [right; reflexivity|]. split; [apply Iff; discriminate|].
      intros _. split; [discriminate|reflexivity].
    + match goal with
      | |- context [new_services ?i ?n ?k ?r] =>
          pose proof (new_services_None i n r k) as NN;
          destruct (new_services i n k r) as [fresh|] eqn:N
      end; cbn [fst snd].
      * split; [left; reflexivity|]. split; [apply Iff; discriminate|].
        intro Bad. specialize (NN Bad). discriminate NN.
      * split; [right; reflexivity|]. split; [apply Iff; discriminate|].
        intros _. split; [discriminate|reflexivity].
  - match goal with
    | |- context [new_services ?i ?n ?k ?r] =>
        pose proof (new_services_None i n r k) as NN;
        destruct (new_services i n k r) as [fresh|] eqn:N
    end; cbn [fst snd].
    + split; [left; reflexivity|]. split; [apply Iff; discriminate|].
      intro Bad. specialize (NN Bad). discriminate NN.
    + split; [right; reflexivity|]. split; [apply Iff; discriminate|].
      intros _. split; [discriminate|reflexivity].
  - cbn [fst snd]. split; [right; reflexivity|]. split; [apply Iff; discriminate|].
    intros _. split; [discriminate|reflexivity].
Qed.

(** X9.  What an ingested report changes, and what it leaves alone.  The
    recommendations are untouched; exactly one snapshot is appended, with the
    report's readings, the request's time and the id of the reporting server;
    that server carries the reported hostname and the request's time; the
    services of every other server and every server row with another address
    are as before; a first report from an address adds one server row, a
    later one adds none and changes neither ids nor costs. *)
Theorem agent_report_frame :
  forall agent_secret now report db db',
    primary_key_unique db ->
    agent_report agent_secret now report db = (Ok "ok", db') ->
    consolidation_recommendations db' = consolidation_recommendations db
    /\ (exists snap srv,
           metric_snapshots db' = (metric_snapshots db ++ [snap])%list
           /\ select_by_ip db' (Schemas.server_ip report) = [srv]
           /\ ms_server_id snap = id srv
           /\ timestamp snap = now
           /\ Models.cpu_percent snap = Schemas.ar_cpu_percent report
           /\ Models.memory_percent snap = Schemas.memory_percent report
           /\ Models.disk_percent snap = Schemas.disk_percent report
           /\ Models.network_in_mbps snap = Schemas.network_in_mbps report
           /\ Models.network_out_mbps snap = Schemas.network_out_mbps report
           /\ Models.load_avg_1m snap = Schemas.load_avg_1m report
           /\ name srv = Schemas.hostname report
           /\ last_seen_at srv = now
           /\ (forall r, rs_server_id r <> id srv ->
                         (In r (running_services db') <-> In r (running_services db))))
    /\ (forall s, ipv4 s <> Schemas.server_ip report ->
                  (In s (servers db') <-> In s (servers db)))
    /\ (select_by_ip db (Schemas.server_ip report) = [] ->
        List.length (servers db') = S (List.length (servers db)))
    /\ (select_by_ip db (Schemas.server_ip report) <> [] ->
        map id (servers db') = map id (servers db)
        /\ map monthly_cost_eur (servers db') = map monthly_cost_eur (servers db)
        /\ map hetzner_id (servers db') = map hetzner_id (servers db)).
Proof.
  intros agent_secret now report db db' PK E.
  destruct (agent_report_ok _ _ _ _ _ PK E)
    as (srv & fresh & Sel & Hin & PK' & R & M & F & Same).
  revert E. unfold agent_report.
  destruct (negb (Schemas.secret report =? agent_secret)); [discriminate|].
  assert (forall remaining r,
             rs_server_id r <> id srv ->
             remaining = filter (fun r => negb (rs_server_id r =? id srv)%Z)
                                (running_services db) ->
             (In r (remaining ++ fresh)%list <-> In r (running_services db))) as Others.
  { intros remaining r Hr ->. rewrite in_app_iff, filter_In. split.
    - intros [[H _]|H]; [exact H|].
      exfalso. apply Hr. rewrite Forall_forall in F. exact (F r H).
    - intro H. left. split; [exact H|].
      apply negb_true_iff, Z.eqb_neq. exact Hr. }
  destruct (select_by_ip db (Schemas.server_ip report)) as [|srv0 [|s1 l]] eqn:Sel0.
  - (* auto-register *)
    destruct (existsb _ (servers db)); [discriminate|].
    match goal with
    | |- context [new_services ?i ?n ?k ?r] =>
        destruct (new_services i n k r) as [fresh'|] eqn:N; [|discriminate]
    end.
    intro E. injection E as <-.
    cbn [consolidation_recommendations metric_snapshots servers running_services] in *.
    split; [reflexivity|].
    split.
    { eexists. exists srv. split; [reflexivity|].
      split; [exact Sel|].
      assert (srv = {| id := next_id (map id (servers db));
                       hetzner_id := "agent-" ++ Schemas.server_ip report;
                       name := Schemas.hostname report;
                       server_type := "dedicated";
                       source := dedicated;
                       status := "running";
                       datacenter := "";
                       ipv4 := Schemas.server_ip report;
                       cores := 0;
                       memory_gb := 0;
                       disk_gb := 0;
                       monthly_cost_eur := 0;
                       labels := None;
                       project_name := None;
                       created_at := now;
                       last_seen_at := now;
                       updated_at := now |}) as ->.
      { unfold select_by_ip in Sel, Sel0. cbn [servers] in Sel.
        rewrite filter_app, Sel0 in Sel. cbn [filter ipv4 app] in Sel.
        rewrite String.eqb_refl in Sel. injection Sel as <-. reflexivity. }
      cbn [id name last_seen_at ms_server_id timestamp Models.cpu_percent
              Models.memory_percent Models.disk_percent Models.network_in_mbps
              Models.network_out_mbps Models.load_avg_1m] in *.
      repeat (split; [reflexivity|]).
      intros r Hr. apply app_inv_head in R. subst fresh'.
      apply Others; [exact Hr | reflexivity]. }
    split.
    { intros s Hs. rewrite in_app_iff. split; [|tauto].
      intros [H|[<-|[]]]; [exact H|]. exfalso. apply Hs. reflexivity. }
    split.
    { intros _. rewrite length_app. cbn [List.length]. lia. }
    intro H. exfalso. apply H. reflexivity.
  - (* known server *)
    match goal with
    | |- context [new_services ?i ?n ?k ?r] =>
        destruct (new_services i n k r) as [fresh'|] eqn:N; [|discriminate]
    end.
    intro E. injection E as <-.
    cbn [consolidation_recommendations metric_snapshots servers running_services] in *.
    assert (In srv0 (servers db) /\ (ipv4 srv0 =? Schemas.server_ip report) = true)
      as [Hin0 Hip0].
    { apply (proj1 (filter_In (fun s => ipv4 s =? Schemas.server_ip report)
                              srv0 (servers db))).
      unfold select_by_ip in Sel0. rewrite Sel0. left. reflexivity. }
    apply String.eqb_eq in Hip0.
    assert (srv = set_seen srv0 now (Schemas.hostname report)) as ->.
    { unfold select_by_ip in Sel, Sel0. cbn [servers] in Sel.
      rewrite filter_map_same in Sel.
      - rewrite Sel0 in Sel. cbn [map] in Sel. rewrite Z.eqb_refl in Sel.
        injection Sel as <-. reflexivity.
      - intros x Hx. destruct (Z.eqb_spec (id x) (id srv0)) as [Eid|_]; [|reflexivity].
        rewrite (NoDup_map_eq id _ _ _ PK Hx Hin0 Eid). reflexivity. }
    split; [reflexivity|].
    split.
    { eexists. eexists. split; [reflexivity|].
      split; [exact Sel|].
      cbn [id name last_seen_at ms_server_id timestamp Models.cpu_percent
              Models.memory_percent Models.disk_percent Models.network_in_mbps
              Models.network_out_mbps Models.load_avg_1m set_seen] in *.
      repeat (split; [reflexivity|]).
      intros r Hr. apply app_inv_head in R. subst fresh'.
      apply Others; [exact Hr | reflexivity]. }
    split.
    { intros s Hs. rewrite in_map_iff. split.
      - intros (x & Hx & Hxin). destruct (Z.eqb_spec (id x) (id srv0)) as [Eid|_].
        + exfalso. apply Hs. rewrite <- Hx. cbn [set_seen ipv4]. exact Hip0.
        + subst x. exact Hxin.
      - intro H. exists s. split; [|exact H].
        destruct (Z.eqb_spec (id s) (id srv0)) as [Eid|_]; [|reflexivity].
        exfalso. apply Hs. rewrite (NoDup_map_eq id _ _ _ PK H Hin0 Eid). exact Hip0. }
    split; [discriminate|].
    intros _. rewrite !map_map.
    split; [|split]; apply map_ext_in; intros x Hx;
      destruct (Z.eqb_spec (id x) (id srv0)) as [Eid|_]; try reflexivity.
    + symmetry. exact Eid.
    + rewrite (NoDup_map_eq id _ _ _ PK Hx Hin0 Eid). reflexivity.
    + rewrite (NoDup_map_eq id _ _ _ PK Hx Hin0 Eid). reflexivity.
  - discriminate.
Qed.

Lemma agent_report_frame_witness :
  exists db',
    agent_report "change-me" 1000 first_report empty_db = (Ok "ok", db')
    /\ List.length (servers db') = 1%nat
    /\ List.length (metric_snapshots db') = 1%nat
    /\ consolidation_recommendations db' = [].
Proof.
  eexists. split; [vm_compute; reflexivity|].
  match goal with |- List.length (servers ?d) = _ /\ _ =>
    destruct (agent_report_frame "change-me" 1000 first_report empty_db d)
      as (Hr & (snap & srv & Hs & _) & _ & Hn & _);
      [constructor | vm_compute; reflexivity |] end.
  split; [rewrite Hn by reflexivity; reflexivity|].
  split; [rewrite Hs; reflexivity | exact Hr].
Defined.

(** X10.  [GET /servers/{id}/services] answers 404 exactly when no server
    has the id.  Otherwise it answers the rows stored for that server, each
    of them once and none of another server, in ascending order of name. *)
Theorem get_server_services_sorted :
  forall server_id db,
    (get_server_services server_id db = HTTPException 404 "Server not found"
     <-> ~ In server_id (map id (servers db)))
    /\ (In server_id (map id (servers db)) ->
        exists rows,
          get_server_services server_id db = Ok rows
          /\ Permutation rows
                         (filter (fun r => (rs_server_id r =? server_id)%Z)
                                 (running_services db))
          /\ Sorted (fun a b => String.leb (rs_name a) (rs_name b) = true) rows
          /\ forall r, In r rows <-> In r (running_services db) /\ rs_server_id r = server_id).
Proof.
  intros server_id db. unfold get_server_services.
  assert (existsb (fun s => (id s =? server_id)%Z) (servers db) = true
          <-> In server_id (map id (servers db))) as Ex.
  { rewrite existsb_exists, in_map_iff. split.
    - intros (s & Hin & Hs). apply Z.eqb_eq in Hs. exists s. split; assumption.
    - intros (s & Hs & Hin). exists s. split; [exact Hin|]. apply Z.eqb_eq. exact Hs. }
  destruct (existsb _ (servers db)) eqn:B; cbn [negb].
  - split.
    + split; [discriminate|]. intro H. exfalso. apply H. apply Ex. reflexivity.
    + intros _. eexists. split; [reflexivity|].
      split; [apply sorted_by_perm|].
      split.
      * apply (SortFacts.sorted_by_Sorted
                 (fun a b => String.leb (rs_name a) (rs_name b))).
        intros a b. apply String.leb_total.
      * intro r. split.
        -- intro H. apply (Permutation_in _ (sorted_by_perm _ _)) in H.
           apply filter_In in H. rewrite Z.eqb_eq in H. exact H.
        -- intro H. apply (Permutation_in _ (Permutation_sym (sorted_by_perm _ _))).
           apply filter_In. rewrite Z.eqb_eq. exact H.
  - split.
    + split; [|reflexivity]. intros _ H. apply Ex in H. discriminate H.
    + intro H. apply Ex in H. discriminate H.
Qed.

End RoutesMore.

(** ** services/hetzner_cloud.py and services/hetzner_robot.py *)

Module ClientMore.
Import HetznerClient.
Local Open Scope string_scope.

Section WithPayload.

Variable Payload : Type.
Variable float_of_string : string -> option Q.




End WithPayload.



End ClientMore.

(** ** services/collector.py: the cloud metrics of one server *)

Module CollectorMore.
Import Models Collector.
Local Open Scope string_scope.

Section WithFloatParser.

Variable float_of_string : string -> option Q.

Lemma disk_loop_ge (disk_ts : TimeSeries) :
  forall disk_pct, (disk_pct <= disk_loop float_of_string disk_ts disk_pct)%Q.
Proof.
  induction disk_ts as [|[n series] rest IH]; intro d; cbn [disk_loop].
  - apply Qle_refl.
  - destruct (vals float_of_string series) as [vs|]; [|apply Qle_refl].
    destruct (nonempty vs && negb (Py.contains "bandwidth.read" n)
              && negb (Py.contains "bandwidth.write" n)); [|apply IH].
    eapply Qle_trans; [|apply IH].
    destruct (PyFacts.max_spec d (mean vs)) as [[L E]|[L E]]; rewrite E; lra.
Qed.

(** X12.  One run of [_collect_cloud_metrics] touches the snapshot table
    only, and adds at most one row.  It adds none when the CPU call fails or
    yields no numeric sample.  Otherwise it adds one row, under a fresh id,
    for the server and the time of the run, with no load average and a
    memory percentage of 0; the disk percentage is never negative, and a
    failed disk or network call leaves its readings at 0. *)
Theorem cloud_metrics_one_snapshot :
  forall (api : MetricsApi) db server hetzner_id now,
    let db' := _collect_cloud_metrics float_of_string api db server hetzner_id now in
    let call := fun type => api hetzner_id type (now - 600)%Z now in
    servers db' = servers db
    /\ running_services db' = running_services db
    /\ consolidation_recommendations db' = consolidation_recommendations db
    /\ ((call "cpu" = None
         \/ exists ts, call "cpu" = Some ts /\ cpu_values float_of_string ts = []) ->
        db' = db)
    /\ (forall ts,
           call "cpu" = Some ts -> cpu_values float_of_string ts <> [] ->
           exists snap,
             metric_snapshots db' = (metric_snapshots db ++ [snap])%list
             /\ ~ In (ms_id snap) (map ms_id (metric_snapshots db))
             /\ ms_server_id snap = id server
             /\ timestamp snap = now
             /\ load_avg_1m snap = None
             /\ memory_percent snap = 0%Q
             /\ (0 <= disk_percent snap)%Q
             /\ (call "disk" = None -> (disk_percent snap == 0)%Q)
             /\ (call "network" = None ->
                 (network_in_mbps snap == 0)%Q /\ (network_out_mbps snap == 0)%Q)).
Proof.
  intros api db server hetzner_id now db' call. subst db' call. cbv beta.
  unfold _collect_cloud_metrics.
  change (now - timedelta_minutes 10)%Z with (now - 600)%Z.
  destruct (api hetzner_id "cpu" (now - 600)%Z now) as [ts|] eqn:C.
  2:{ repeat (split; [reflexivity|]).
      intros ts E. discriminate E. }
  destruct (nonempty (cpu_values float_of_string ts)) eqn:NE; cbn [negb].
  2:{ repeat (split; [reflexivity|]).
      intros ts' E H. injection E as <-. apply CollectorFacts.nonempty_false in NE.
      contradiction. }
  match goal with
  | |- context [let '(_, _) := ?e in _] => destruct e as [net_in net_out] eqn:N
  end.
  cbn [servers running_services consolidation_recommendations metric_snapshots].
  repeat (split; [reflexivity|]).
  split.
  { intros [E|(ts' & E & H)]; [discriminate E|].
    injection E as <-. rewrite H in NE. discriminate NE. }
  intros ts' E _. injection E as <-.
  eexists. split; [reflexivity|].
  cbn [ms_id ms_server_id timestamp load_avg_1m memory_percent disk_percent
             network_in_mbps network_out_mbps].
  split; [apply RoutesFacts.next_id_fresh|].
  repeat (split; [reflexivity|]).
  split.
  { apply (PyFacts.round_ge_Z _ 2 0).
    destruct (api hetzner_id "disk" (now - 600)%Z now);
      [apply disk_loop_ge | apply Qle_refl]. }
  split.
  { intros ->. vm_compute. reflexivity. }
  intro H. rewrite H in N. injection N as <- <-.
  split; vm_compute; reflexivity.
Qed.

End WithFloatParser.

End CollectorMore.

(* ================================================================== *)
(** * Properties of routes/recommendations.py *)
(* ================================================================== *)

Module RecommendationRoutesFacts.
Import Models Analyzer Recommender Routes RecommendationRoutes.
Local Open Scope string_scope.

(** The value of the enumeration member. *)
Definition status_value (s : RecommendationStatus) : string :=
  match s with
  | pending => "pending" | accepted => "accepted" | dismissed => "dismissed"
  end.

(** The rows a caller asks for: all of them, or those of one status. *)
Definition wanted (status : option string) (r : ConsolidationRecommendation) : bool :=
  match status with
  | None => true
  | Some s => String.eqb (status_value (rec_status r)) s
  end.

Lemma RecommendationStatus_of_value (s : string) (e : RecommendationStatus) :
  RecommendationStatus_of s = Some e <-> status_value e = s.
Proof.
  unfold RecommendationStatus_of.
  destruct (String.eqb_spec s "pending") as [->|N1];
    [destruct e; cbn; split; congruence|].
  destruct (String.eqb_spec s "accepted") as [->|N2];
    [destruct e; cbn; split; congruence|].
  destruct (String.eqb_spec s "dismissed") as [->|N3];
    [destruct e; cbn; split; congruence|].
  split; [discriminate|]. destruct e; cbn; congruence.
Qed.

Lemma status_eqb_value (a b : RecommendationStatus) :
  status_eqb a b = String.eqb (status_value a) (status_value b).
Proof. destruct a, b; reflexivity. Qed.

Lemma geb_total (x y : Q) : Py.geb x y = true \/ Py.geb y x = true.
Proof.
  destruct (Qlt_le_dec x y) as [L|G].
  - right. apply PyFacts.geb_ge. apply Qlt_le_weak. exact L.
  - left. apply PyFacts.geb_ge. exact G.
Qed.

Lemma Sorted_impl {A} (R R' : A -> A -> Prop) (l : list A) :
  (forall a b, R a b -> R' a b) -> Sorted R l -> Sorted R' l.
Proof.
  intros H S. induction S as [|a l S IH Hd]; constructor; [exact IH|].
  destruct Hd; constructor. apply H. assumption.
Qed.

(** X13.  [GET /recommendations] answers 400 exactly when a status is given
    that is none of pending, accepted and dismissed.  Otherwise it answers
    the stored recommendations, or those of the status asked for, each once,
    by decreasing monthly saving. *)
Theorem list_recommendations_by_saving :
  forall status db,
    match list_recommendations status db with
    | Ok rows =>
        Permutation rows (filter (wanted status) (consolidation_recommendations db))
        /\ Sorted (fun a b => (monthly_savings_eur b <= monthly_savings_eur a)%Q) rows
        /\ forall s, status = Some s -> In s ["pending"; "accepted"; "dismissed"]
    | HTTPException code detail =>
        code = 400%Z
        /\ exists s, status = Some s
                     /\ ~ In s ["pending"; "accepted"; "dismissed"]
                     /\ detail = "Invalid status '" ++ s
                                   ++ "'. Must be one of: pending, accepted, dismissed"
    | Unhandled _ => False
    end.
Proof.
  intros status db. unfold list_recommendations.
  assert (forall rows,
             Sorted (fun a b => (monthly_savings_eur b <= monthly_savings_eur a)%Q)
                    (order_by_savings_desc rows)) as Srt.
  { intro rows. unfold order_by_savings_desc.
    eapply Sorted_impl; [|apply SortFacts.sorted_by_Sorted; intros a b; apply geb_total].
    intros a b H. cbv beta in H. apply PyFacts.geb_ge in H. exact H. }
  destruct status as [s|].
  - destruct (RecommendationStatus_of s) as [e|] eqn:E.
    + apply RecommendationStatus_of_value in E. subst s.
      split; [|split; [apply Srt|]].
      * unfold order_by_savings_desc. rewrite RoutesFacts.sorted_by_perm.
        erewrite filter_ext; [reflexivity|].
        intro r. cbn [wanted]. apply status_eqb_value.
      * intros s' Hs. injection Hs as <-. destruct e; cbn; tauto.
    + split; [reflexivity|]. exists s. split; [reflexivity|]. split; [|reflexivity].
      intros [<-|[<-|[<-|[]]]]; discriminate E.
  - split; [|split; [apply Srt|discriminate]].
    unfold order_by_savings_desc. rewrite RoutesFacts.sorted_by_perm.
    cbn [wanted]. induction (consolidation_recommendations db) as [|r l IH];
      cbn [filter]; [constructor | apply perm_skip; exact IH].
Qed.

(** *** Decisions *)

Lemma has_id_key (i : Z) (r : ConsolidationRecommendation) :
  rec_id r <> None -> (has_id i r = true <-> key_of r = i).
Proof.
  unfold has_id, key_of. destruct (rec_id r) as [j|]; [|congruence].
  intros _. apply Z.eqb_eq.
Qed.

Lemma decide_table status i db :
  RecommenderMore.keys_unique (consolidation_recommendations db) ->
  (~ In i (map key_of (consolidation_recommendations db))
   /\ decide status i db = (HTTPException 404 "Recommendation not found", db))
  \/ (exists rec,
         In rec (consolidation_recommendations db)
         /\ rec_id rec = Some i
         /\ decide status i db
            = (Ok (set_status rec status),
               {| servers := servers db;
                  metric_snapshots := metric_snapshots db;
                  running_services := running_services db;
                  consolidation_recommendations :=
                    map (fun r => if has_id i r then set_status rec status else r)
                        (consolidation_recommendations db) |})).
Proof.
  intros [F N]. unfold decide.
  destruct (filter (has_id i) (consolidation_recommendations db))
    as [|rec [|rec2 l]] eqn:Sel.
  - left. split; [|reflexivity].
    intro H. apply in_map_iff in H. destruct H as (r & Hk & Hr).
    assert (In r (filter (has_id i) (consolidation_recommendations db))) as Hin.
    { apply filter_In. split; [exact Hr|]. apply has_id_key; [|exact Hk].
      exact (proj1 (Forall_forall _ _) F r Hr). }
    rewrite Sel in Hin. destruct Hin.
  - right. exists rec.
    assert (In rec (filter (has_id i) (consolidation_recommendations db))) as Hin
        by (rewrite Sel; left; reflexivity).
    apply filter_In in Hin. destruct Hin as [Hr Hi].
    split; [exact Hr|]. split; [|reflexivity].
    unfold has_id in Hi. destruct (rec_id rec) as [j|]; [|discriminate].
    apply Z.eqb_eq in Hi. congruence.
  - exfalso.
    assert (forall r, In r (filter (has_id i) (consolidation_recommendations db)) ->
                      In r (consolidation_recommendations db) /\ key_of r = i) as K.
    { intros r H. apply filter_In in H. destruct H as [Hr Hi]. split; [exact Hr|].
      apply has_id_key; [|exact Hi]. exact (proj1 (Forall_forall _ _) F r Hr). }
    assert (NoDup (map key_of (filter (has_id i) (consolidation_recommendations db))))
      as ND by (apply (RecommenderMore.keys_unique_filter _ _ (conj F N))).
    rewrite Sel in ND, K. cbn [map] in ND.
    inversion ND as [|? ? Hnot _]; subst. apply Hnot. left.
    rewrite (proj2 (K rec (or_introl eq_refl))).
    rewrite (proj2 (K rec2 (or_intror (or_introl eq_refl)))). reflexivity.
Qed.

(** X14.  Accepting or dismissing a recommendation answers 404 exactly when
    no row has the id, and then changes nothing.  Otherwise it answers the
    row with its status set, and in the table that row alone has changed,
    in its status alone (the tables before and after agree once every status
    is reset): the keys and their order, every other row, and the other
    tables are as before. *)
Theorem decision_changes_one_status :
  forall route status i db,
    RecommenderMore.keys_unique (consolidation_recommendations db) ->
    (route = accept_recommendation /\ status = accepted)
    \/ (route = dismiss_recommendation /\ status = dismissed) ->
    (~ In i (map key_of (consolidation_recommendations db))
     /\ route i db = (HTTPException 404 "Recommendation not found", db))
    \/ (exists rec db',
           In rec (consolidation_recommendations db)
           /\ rec_id rec = Some i
           /\ route i db = (Ok (set_status rec status), db')
           /\ servers db' = servers db
           /\ metric_snapshots db' = metric_snapshots db
           /\ running_services db' = running_services db
           /\ map rec_id (consolidation_recommendations db')
              = map rec_id (consolidation_recommendations db)
           /\ map (fun r => set_status r pending) (consolidation_recommendations db')
              = map (fun r => set_status r pending) (consolidation_recommendations db)
           /\ In (set_status rec status) (consolidation_recommendations db')
           /\ RecommenderMore.keys_unique (consolidation_recommendations db')
           /\ forall r, rec_id r <> Some i ->
                        (In r (consolidation_recommendations db')
                         <-> In r (consolidation_recommendations db))).
Proof.
  intros route status i db KU Hroute.
  assert (route i db = decide status i db) as ->
      by (destruct Hroute as [[-> ->]|[-> ->]]; reflexivity).
  destruct (decide_table status i db KU) as [[Hno E]|(rec & Hr & Hi & E)];
    [left; split; assumption|].
  right. exists rec. eexists. split; [exact Hr|]. split; [exact Hi|].
  split; [exact E|].
  cbn [servers metric_snapshots running_services consolidation_recommendations].
  repeat (split; [reflexivity|]).
  assert (forall r, In r (consolidation_recommendations db) ->
                    has_id i r = true -> r = rec) as Same.
  { intros r Hin H. destruct KU as [F N].
    apply (RoutesFacts.NoDup_map_eq key_of _ r rec N Hin Hr).
    apply has_id_key in H; [|exact (proj1 (Forall_forall _ _) F r Hin)].
    rewrite H. unfold key_of. rewrite Hi. reflexivity. }
  assert (map rec_id
              (map (fun r => if has_id i r then set_status rec status else r)
                   (consolidation_recommendations db))
          = map rec_id (consolidation_recommendations db)) as Ids.
  { rewrite map_map. apply map_ext_in. intros r Hin.
    destruct (has_id i r) eqn:H; [|reflexivity].
    rewrite (Same r Hin H). reflexivity. }
  split; [exact Ids|].
  split.
  { rewrite map_map. apply map_ext_in. intros r Hin.
    destruct (has_id i r) eqn:H; [|reflexivity].
    rewrite (Same r Hin H). reflexivity. }
  split.
  { apply in_map_iff. exists rec. split; [|exact Hr].
    unfold has_id. rewrite Hi, Z.eqb_refl. reflexivity. }
  split.
  { destruct KU as [F N]. split.
    - apply Forall_forall. intros r H. apply in_map_iff in H.
      destruct H as (x & <- & Hx). destruct (has_id i x).
      + cbn [set_status rec_id]. rewrite Hi. discriminate.
      + exact (proj1 (Forall_forall _ _) F x Hx).
    - rewrite map_map. rewrite (map_ext_in _ key_of); [exact N|].
      intros r Hin. destruct (has_id i r) eqn:H; [|reflexivity].
      rewrite (Same r Hin H). reflexivity. }
  intros r Hne. rewrite in_map_iff. split.
  - intros (x & Hx & Hin). destruct (has_id i x).
    + exfalso. apply Hne. rewrite <- Hx. exact Hi.
    + subst x. exact Hin.
  - intro Hin. exists r. split; [|exact Hin].
    destruct (has_id i r) eqn:H; [|reflexivity].
    exfalso. apply Hne. rewrite (Same r Hin H). exact Hi.
Qed.

Lemma decision_changes_one_status_witness :
  exists db',
    accept_recommendation 2 RecommenderFacts.small_db
    = (Ok (set_status (RecommenderFacts.earlier pending 2) accepted), db')
    /\ map rec_status (consolidation_recommendations db') = [accepted; accepted].
Proof.
  destruct (decision_changes_one_status
              accept_recommendation accepted 2 RecommenderFacts.small_db)
    as [[H _]|(rec & db' & _ & _ & E & _)].
  - split; [repeat constructor; discriminate|].
    repeat constructor; cbn; intuition discriminate.
  - left. split; reflexivity.
  - exfalso. apply H. vm_compute. tauto.
  - eexists. split; [vm_compute; reflexivity | vm_compute; reflexivity].
Defined.

(** X15.  A decision outlives the next run of the engine: the accepted or
    dismissed row is still stored afterwards, with its status, it is none of
    the run's new recommendations, none of them takes its id, and the list
    of pending recommendations does not show it. *)
Theorem decision_survives_regeneration :
  forall route status i db rec db' now,
    RecommenderMore.keys_unique (consolidation_recommendations db) ->
    (route = accept_recommendation /\ status = accepted)
    \/ (route = dismiss_recommendation /\ status = dismissed) ->
    route i db = (Ok rec, db') ->
    let after := generate_recommendations db' now in
    rec_id rec = Some i
    /\ rec_status rec = status
    /\ In rec (consolidation_recommendations (snd after))
    /\ ~ In rec (fst after)
    /\ (forall r, In r (fst after) -> rec_id r <> Some i)
    /\ forall rows, list_recommendations (Some "pending") (snd after) = Ok rows ->
                    Permutation rows (fst after).
Proof.
  intros route status i db rec db' now KU Hroute E after.
  destruct (decision_changes_one_status route status i db KU Hroute)
    as [[_ E404]|(rec0 & db0 & Hr & Hi & E0 & _ & _ & _ & _ & _ & Hin & KU' & _)];
    [congruence|].
  rewrite E0 in E. injection E as <- <-.
  assert (is_pending status = false) as NP
      by (destruct Hroute as [[_ ->]|[_ ->]]; reflexivity).
  destruct (RecommenderFacts.generate_recommendations_tables db0 now)
    as (T & P & D & PR & _).
  fold after in T, P, D, PR. cbv zeta in T, P, D, PR.
  assert (RecommenderMore.keys_unique (consolidation_recommendations (snd after))) as KA.
  { subst after. unfold generate_recommendations. cbn [snd consolidation_recommendations].
    apply RecommenderMore.add_all_keys, RecommenderMore.keys_unique_filter. exact KU'. }
  assert (In (set_status rec0 status) (RecommenderFacts.decided_rows db0)) as InD.
  { apply filter_In. split; [exact Hin|]. cbn [set_status rec_status].
    rewrite NP. reflexivity. }
  assert (~ In (set_status rec0 status) (fst after)) as NotNew.
  { intro H. rewrite Forall_forall in P. specialize (P _ H).
    cbn [set_status rec_status] in P. rewrite P in NP. discriminate NP. }
  split; [exact Hi|]. split; [reflexivity|].
  split; [rewrite T; apply in_or_app; left; exact InD|].
  split; [exact NotNew|].
  split.
  - intros r Hnew Hid. apply NotNew.
    destruct KA as [_ N].
    assert (In r (consolidation_recommendations (snd after))) as H1
        by (rewrite T; apply in_or_app; right; exact Hnew).
    assert (In (set_status rec0 status) (consolidation_recommendations (snd after)))
      as H2 by (rewrite T; apply in_or_app; left; exact InD).
    rewrite <- (RoutesFacts.NoDup_map_eq key_of _ r (set_status rec0 status) N H1 H2);
      [exact Hnew|].
    unfold key_of. rewrite Hid. cbn [set_status rec_id]. rewrite Hi. reflexivity.
  - intros rows L.
    pose proof (list_recommendations_by_saving (Some "pending") (snd after)) as LS.
    rewrite L in LS. destruct LS as (Perm & _).
    rewrite Perm. unfold RecommenderFacts.pending_rows in PR. rewrite <- PR.
    erewrite filter_ext; [reflexivity|].
    intro r. cbn [wanted]. destruct (rec_status r); reflexivity.
Qed.

Lemma decision_survives_regeneration_witness :
  exists rec db',
    dismiss_recommendation 2 RecommenderFacts.small_db = (Ok rec, db')
    /\ rec_status rec = dismissed
    /\ In rec (consolidation_recommendations (snd (generate_recommendations db' 2000)))
    /\ ~ In rec (fst (generate_recommendations db' 2000)).
Proof.
  eexists. eexists. split; [vm_compute; reflexivity|].
  match goal with |- rec_status ?r = _ /\ In _ (_ (snd (_ ?d _))) /\ _ =>
    destruct (decision_survives_regeneration
                dismiss_recommendation dismissed 2 RecommenderFacts.small_db r d 2000)
      as (_ & S & I & N & _) end.
  - split; [repeat constructor; discriminate|].
    repeat constructor; cbn; intuition discriminate.
  - right. split; reflexivity.
  - vm_compute. reflexivity.
  - split; [exact S|]. split; [exact I | exact N].
Defined.

End RecommendationRoutesFacts.
(* ================================================================== *)
(** * Properties of routes/costs.py *)
(* ================================================================== *)

Module CostsFacts.
Import Models Analyzer Recommender Costs.
Local Open Scope string_scope.

(** *** Sums *)

Lemma sum_app (xs ys : list Q) : (Py.sum (xs ++ ys) == Py.sum xs + Py.sum ys)%Q.
Proof.
  induction xs as [|x xs IH]; cbn [app].
  - unfold Py.sum at 2. cbn. lra.
  - rewrite !PyFacts.sum_cons, IH. lra.
Qed.

Lemma sumZ_acc (xs : list Z) (a : Z) : fold_left Z.add xs a = (a + Py.sumZ xs)%Z.
Proof.
  unfold Py.sumZ. revert a. induction xs as [|x xs IH]; intro a; cbn [fold_left]; [lia|].
  rewrite IH, (IH (0 + x)%Z). lia.
Qed.

Lemma sumZ_cons (x : Z) (xs : list Z) : Py.sumZ (x :: xs) = (x + Py.sumZ xs)%Z.
Proof. unfold Py.sumZ at 1. cbn [fold_left]. rewrite sumZ_acc. lia. Qed.

Lemma sumZ_app (xs ys : list Z) : Py.sumZ (xs ++ ys) = (Py.sumZ xs + Py.sumZ ys)%Z.
Proof.
  induction xs as [|x xs IH]; cbn [app]; [reflexivity|].
  rewrite !sumZ_cons, IH. lia.
Qed.

Lemma sumZ_perm (xs ys : list Z) : Permutation xs ys -> Py.sumZ xs = Py.sumZ ys.
Proof.
  induction 1; rewrite ?sumZ_cons; lia.
Qed.

Lemma len_app {A} (xs ys : list A) : Py.len (xs ++ ys) = (Py.len xs + Py.len ys)%Z.
Proof. unfold Py.len. rewrite length_app. lia. Qed.

(** The costs of the servers of one source, and of all of them. *)
Lemma sum_cost_by_source (rows : list Server) :
  (sum_cost rows
   == sum_cost (filter (fun s => source_eqb (source s) cloud) rows)
      + sum_cost (filter (fun s => source_eqb (source s) dedicated) rows))%Q.
Proof.
  unfold sum_cost. induction rows as [|r rows IH]; cbn [filter map].
  - reflexivity.
  - destruct (source r); cbn [source_eqb map]; rewrite !PyFacts.sum_cons, IH; lra.
Qed.

(** *** Grouping *)

Section GroupBy.

Context {K : Type} (eqb : K -> K -> bool) (key : Server -> K).
Hypothesis eqb_eq : forall a b, eqb a b = true <-> a = b.

Lemma insert_group_keys (k : K) (row : Server) (groups : list (K * list Server)) :
  (In k (map fst groups)
   /\ map fst (insert_group eqb k row groups) = map fst groups)
  \/ (~ In k (map fst groups)
      /\ map fst (insert_group eqb k row groups) = (map fst groups ++ [k])%list).
Proof.
  induction groups as [|[k0 g0] rest IH]; cbn [insert_group map fst].
  - right. split; [intros []|reflexivity].
  - destruct (eqb k k0) eqn:E.
    + apply eqb_eq in E. subst k0. left. split; [left; reflexivity|reflexivity].
    + assert (k <> k0) as N by (intro H; apply eqb_eq in H; congruence).
      cbn [map fst]. destruct IH as [[Hin IH]|[Hno IH]]; rewrite IH.
      * left. split; [right; exact Hin|reflexivity].
      * right. split; [|reflexivity]. intros [H|H]; [congruence|contradiction].
Qed.

Lemma insert_group_In (k : K) (row : Server) (groups : list (K * list Server)) :
  NoDup (map fst groups) ->
  forall k' g',
    In (k', g') (insert_group eqb k row groups) ->
    (k' <> k /\ In (k', g') groups)
    \/ (k' = k
        /\ ((exists g, In (k, g) groups /\ g' = (g ++ [row])%list)
            \/ (~ In k (map fst groups) /\ g' = [row]))).
Proof.
  induction groups as [|[k0 g0] rest IH]; cbn [insert_group map fst]; intros N k' g' H.
  - destruct H as [H|[]]. injection H as <- <-. right. split; [reflexivity|].
    right. split; [intros []|reflexivity].
  - inversion N as [|? ? Hk0 N']; subst.
    destruct (eqb k k0) eqn:E.
    + apply eqb_eq in E. subst k0. destruct H as [H|H].
      * injection H as <- <-. right. split; [reflexivity|]. left.
        exists g0. split; [left; reflexivity|reflexivity].
      * left. split; [|right; exact H].
        intros ->. apply Hk0. change k with (fst (k, g')). apply in_map. exact H.
    + assert (k <> k0) as Ne by (intro X; apply eqb_eq in X; congruence).
      destruct H as [H|H].
      * injection H as <- <-. left. split; [congruence|left; reflexivity].
      * destruct (IH N' _ _ H) as [[A B]|[A [(g & B & C)|[B C]]]].
        -- left. split; [exact A|right; exact B].
        -- right. split; [exact A|]. left. exists g. split; [right; exact B|exact C].
        -- right. split; [exact A|]. right. split; [|exact C].
           intros [X|X]; [congruence|contradiction].
Qed.

Lemma insert_group_count (k : K) (row : Server) (groups : list (K * list Server)) :
  Py.sumZ (map (fun g => Py.len (snd g)) (insert_group eqb k row groups))
  = (Py.sumZ (map (fun g => Py.len (snd g)) groups) + 1)%Z.
Proof.
  induction groups as [|[k0 g0] rest IH]; cbn [insert_group map snd].
  - reflexivity.
  - destruct (eqb k k0); cbn [map snd]; rewrite !sumZ_cons.
    + rewrite len_app. change (Py.len [row]) with 1%Z. lia.
    + rewrite IH. lia.
Qed.

Lemma group_by_snoc (rows : list Server) (row : Server) :
  group_by eqb key (rows ++ [row])
  = insert_group eqb (key row) row (group_by eqb key rows).
Proof. unfold group_by. rewrite fold_left_app. reflexivity. Qed.

(** What [GROUP BY] gives: one group per key that occurs, each holding the
    rows of its key, in table order. *)
Definition grouped (rows : list Server) (groups : list (K * list Server)) : Prop :=
  NoDup (map fst groups)
  /\ (forall k g, In (k, g) groups ->
                  g = filter (fun r => eqb (key r) k) rows /\ g <> [])
  /\ (forall r, In r rows -> In (key r) (map fst groups))
  /\ Py.sumZ (map (fun g => Py.len (snd g)) groups) = Py.len rows.

Lemma group_by_grouped (rows : list Server) : grouped rows (group_by eqb key rows).
Proof.
  induction rows as [|row rows IH] using rev_ind.
  - split; [constructor|]. split; [intros k g []|]. split; [intros r []|reflexivity].
  - destruct IH as (N & G & C & L). rewrite group_by_snoc.
    set (groups := group_by eqb key rows) in *.
    assert (forall k, ~ In k (map fst groups) ->
                      filter (fun r => eqb (key r) k) rows = []) as Empty.
    { intros k Hk. destruct (filter (fun r => eqb (key r) k) rows) as [|r l] eqn:F;
        [reflexivity|].
      exfalso. apply Hk.
      assert (In r (filter (fun r => eqb (key r) k) rows)) as H
          by (rewrite F; left; reflexivity).
      apply filter_In in H. destruct H as [Hr Hkey]. apply eqb_eq in Hkey.
      rewrite <- Hkey. exact (C r Hr). }
    split; [|split; [|split]].
    + destruct (insert_group_keys (key row) row groups) as [[_ E]|[Hno E]]; rewrite E.
      * exact N.
      * apply (Permutation_NoDup (Permutation_cons_append _ _)).
        constructor; assumption.
    + intros k g H. rewrite filter_app. cbn [filter].
      destruct (insert_group_In (key row) row groups N k g H)
        as [[A B]|[-> [(g0 & B & ->)|[B ->]]]].
      * destruct (G k g B) as [-> Hne].
        assert (eqb (key row) k = false) as ->.
        { destruct (eqb (key row) k) eqn:X; [|reflexivity].
          apply eqb_eq in X. congruence. }
        rewrite app_nil_r. split; [reflexivity|exact Hne].
      * destruct (G _ _ B) as [-> _].
        rewrite (proj2 (eqb_eq (key row) (key row)) eq_refl).
        split; [reflexivity|]. intro X. apply app_eq_nil in X. destruct X; discriminate.
      * rewrite (Empty _ B), (proj2 (eqb_eq (key row) (key row)) eq_refl).
        split; [reflexivity|discriminate].
    + intros r Hr.
      assert (forall k, In k (map fst groups) ->
                        In k (map fst (insert_group eqb (key row) row groups))) as Mono.
      { intros k Hk.
        destruct (insert_group_keys (key row) row groups) as [[_ E]|[_ E]]; rewrite E;
          [exact Hk | apply in_or_app; left; exact Hk]. }
      apply in_app_or in Hr. destruct Hr as [Hr|[<-|[]]]; [exact (Mono _ (C r Hr))|].
      destruct (insert_group_keys (key row) row groups) as [[Hin E]|[_ E]]; rewrite E;
        [exact Hin | apply in_or_app; right; left; reflexivity].
    + rewrite insert_group_count, L, len_app. reflexivity.
Qed.

End GroupBy.

Lemma source_eqb_eq (a b : ServerSource) : source_eqb a b = true <-> a = b.
Proof. destruct a, b; cbn; split; congruence. Qed.

Lemma option_string_eqb_eq (a b : option string) :
  option_string_eqb a b = true <-> a = b.
Proof.
  destruct a as [x|], b as [y|]; cbn; try (split; congruence).
  rewrite String.eqb_eq. split; congruence.
Qed.

(** *** The loop over the sources *)

Definition cost_of (src : ServerSource) (source_rows : list (ServerSource * Q))
  : option Q :=
  match filter (fun row => source_eqb (fst row) src) source_rows with
  | [] => None
  | row :: _ => Some (snd row)
  end.

Lemma source_loop_acc (source_rows : list (ServerSource * Q)) :
  forall costs,
    NoDup (map fst source_rows) ->
    fold_left
      (fun costs '(source, cost) =>
         match source with
         | cloud => (cost, snd costs)
         | dedicated => (fst costs, cost)
         end)
      source_rows costs
    = (match cost_of cloud source_rows with Some c => c | None => fst costs end,
       match cost_of dedicated source_rows with Some c => c | None => snd costs end).
Proof.
  induction source_rows as [|[src c] rest IH]; intros costs N; cbn [fold_left].
  - destruct costs; reflexivity.
  - cbn [map fst] in N. inversion N as [|? ? Hsrc N']; subst.
    rewrite (IH _ N'). unfold cost_of. cbn [filter fst snd].
    assert (filter (fun row => source_eqb (fst row) src) rest = []) as Nil.
    { destruct (filter (fun row => source_eqb (fst row) src) rest) as [|x l] eqn:F;
        [reflexivity|].
      exfalso. apply Hsrc.
      assert (In x (filter (fun row => source_eqb (fst row) src) rest)) as H
          by (rewrite F; left; reflexivity).
      apply filter_In in H. destruct H as [Hx Hs]. apply source_eqb_eq in Hs.
      rewrite <- Hs. apply in_map. exact Hx. }
    destruct src; cbn [source_eqb]; rewrite Nil; cbn [fst snd]; reflexivity.
Qed.

Lemma cost_of_groups (src : ServerSource) (rows : list Server) :
  match cost_of src (map (fun '(source, rows) => (source, sum_cost rows))
                         (group_by source_eqb source rows)) with
  | Some c => c
  | None => 0%Q
  end
  = sum_cost (filter (fun s => source_eqb (source s) src) rows).
Proof.
  destruct (group_by_grouped source_eqb source source_eqb_eq rows) as (N & G & C & _).
  set (groups := group_by source_eqb source rows) in *.
  unfold cost_of.
  destruct (filter (fun row => source_eqb (fst row) src)
                   (map (fun '(source, rows) => (source, sum_cost rows)) groups))
    as [|[s c] l] eqn:F.
  - assert (filter (fun s => source_eqb (source s) src) rows = []) as ->; [|reflexivity].
    destruct (filter (fun s => source_eqb (source s) src) rows) as [|r l] eqn:F';
      [reflexivity|].
    exfalso.
    assert (In r (filter (fun s => source_eqb (source s) src) rows)) as H
        by (rewrite F'; left; reflexivity).
    apply filter_In in H. destruct H as [Hr Hs]. apply source_eqb_eq in Hs.
    specialize (C r Hr). rewrite Hs in C. apply in_map_iff in C.
    destruct C as ([k g] & Hk & Hg). cbn [fst] in Hk. subst k.
    assert (In (src, sum_cost g)
               (filter (fun row => source_eqb (fst row) src)
                       (map (fun '(source, rows) => (source, sum_cost rows)) groups)))
      as X.
    { apply filter_In. split.
      - apply in_map_iff. exists (src, g). split; [reflexivity|exact Hg].
      - cbn [fst]. apply source_eqb_eq. reflexivity. }
    rewrite F in X. destruct X.
  - assert (In (s, c)
               (filter (fun row => source_eqb (fst row) src)
                       (map (fun '(source, rows) => (source, sum_cost rows)) groups)))
      as X by (rewrite F; left; reflexivity).
    apply filter_In in X. destruct X as [Hin Hs]. cbn [fst] in Hs.
    apply source_eqb_eq in Hs. subst s.
    apply in_map_iff in Hin. destruct Hin as ([k g] & E & Hg).
    injection E as -> <-. cbn [snd].
    destruct (G _ _ Hg) as [-> _]. reflexivity.
Qed.

Lemma source_loop_groups (rows : list Server) :
  source_loop (map (fun '(source, rows) => (source, sum_cost rows))
                   (group_by source_eqb source rows))
  = (sum_cost (filter (fun s => source_eqb (source s) cloud) rows),
     sum_cost (filter (fun s => source_eqb (source s) dedicated) rows)).
Proof.
  unfold source_loop. rewrite source_loop_acc.
  - cbn [fst snd]. rewrite <- !cost_of_groups. reflexivity.
  - destruct (group_by_grouped source_eqb source source_eqb_eq rows) as (N & _).
    rewrite map_map. erewrite map_ext; [exact N|]. intros [k g]. reflexivity.
Qed.

(** X16.  The figures of [GET /costs/overview].  The server count is the
    number of inventory rows; the cloud and the dedicated figure are the
    rounded sums over the servers of that source; the total is the rounded
    sum of the two unrounded sums, so it differs from the sum of the two
    figures shown by at most one cent; and the potential saving is the
    rounded sum over the pending recommendations only. *)
Theorem cost_overview_figures :
  forall db,
    let overview := cost_overview db in
    let cloud_sum :=
      sum_cost (filter (fun s => source_eqb (source s) cloud) (servers db)) in
    let dedicated_sum :=
      sum_cost (filter (fun s => source_eqb (source s) dedicated) (servers db)) in
    server_count overview = Py.len (servers db)
    /\ cloud_cost_eur overview = Py.round cloud_sum 2
    /\ dedicated_cost_eur overview = Py.round dedicated_sum 2
    /\ (total_monthly_eur overview == Py.round (cloud_sum + dedicated_sum) 2)%Q
    /\ (Qabs (total_monthly_eur overview
              - (cloud_cost_eur overview + dedicated_cost_eur overview)) <= 0.01)%Q
    /\ potential_savings_eur overview
       = Py.round (Py.sum (map monthly_savings_eur
                               (RecommenderFacts.pending_rows db))) 2.
Proof.
  intros db overview cloud_sum dedicated_sum. subst overview.
  unfold cost_overview. rewrite source_loop_groups.
  fold cloud_sum dedicated_sum.
  cbn [server_count cloud_cost_eur dedicated_cost_eur total_monthly_eur
                    potential_savings_eur].
  split; [reflexivity|]. split; [reflexivity|]. split; [reflexivity|].
  assert (sum_cost (servers db) == cloud_sum + dedicated_sum)%Q as T
      by apply sum_cost_by_source.
  split; [apply PyFacts.round_compat; exact T|].
  split; [|reflexivity].
  pose proof (PyFacts.round_sub_near (cloud_sum + dedicated_sum) dedicated_sum) as Near.
  assert (Py.round (cloud_sum + dedicated_sum - dedicated_sum) 2 == Py.round cloud_sum 2)%Q
    as E1 by (apply PyFacts.round_compat; ring).
  assert (Py.round (sum_cost (servers db)) 2 == Py.round (cloud_sum + dedicated_sum) 2)%Q
    as E2 by (apply PyFacts.round_compat; exact T).
  rewrite E1 in Near. rewrite E2.
  apply Qabs_Qle_condition. apply Qabs_Qle_condition in Near.
  destruct Near as [N1 N2]. split; lra.
Qed.

(** *** The breakdowns *)

Section Breakdown.

Context {K : Type} (eqb : K -> K -> bool) (key : Server -> K) (label : K -> string).
Hypothesis eqb_eq : forall a b, eqb a b = true <-> a = b.

Definition breakdown (rows : list Server) : list CostBreakdown :=
  sorted_by_cost_desc
    (map (fun '(k, rows) =>
            {| category := label k;
               cost_eur := Py.round (sum_cost rows) 2;
               count := Py.len rows |})
         (group_by eqb key rows)).

Lemma breakdown_spec (rows : list Server) :
  Sorted (fun a b => (cost_eur b <= cost_eur a)%Q) (breakdown rows)
  /\ Py.sumZ (map count (breakdown rows)) = Py.len rows
  /\ (forall b, In b (breakdown rows) ->
                exists k,
                  category b = label k
                  /\ filter (fun s => eqb (key s) k) rows <> []
                  /\ cost_eur b
                     = Py.round (sum_cost (filter (fun s => eqb (key s) k) rows)) 2
                  /\ count b = Py.len (filter (fun s => eqb (key s) k) rows))
  /\ (forall s, In s rows ->
                exists b, In b (breakdown rows)
                          /\ category b = label (key s)
                          /\ count b
                             = Py.len (filter (fun s' => eqb (key s') (key s)) rows)).
Proof.
  destruct (group_by_grouped eqb key eqb_eq rows) as (N & G & C & L).
  unfold breakdown, sorted_by_cost_desc.
  set (entry := fun '(k, rows) =>
                  {| category := label k;
                     cost_eur := Py.round (sum_cost rows) 2;
                     count := Py.len rows |}).
  set (groups := group_by eqb key rows) in *.
  split; [|split; [|split]].
  - eapply RecommendationRoutesFacts.Sorted_impl;
      [|apply SortFacts.sorted_by_Sorted; intros a b;
        apply RecommendationRoutesFacts.geb_total].
    intros a b H. cbv beta in H. apply PyFacts.geb_ge in H. exact H.
  - rewrite (sumZ_perm _ _ (Permutation_map count (RoutesFacts.sorted_by_perm _ _))).
    rewrite map_map. rewrite <- L. f_equal. apply map_ext. intros [k g]. reflexivity.
  - intros b Hb. apply (Permutation_in _ (RoutesFacts.sorted_by_perm _ _)) in Hb.
    apply in_map_iff in Hb. destruct Hb as ([k g] & <- & Hg).
    destruct (G _ _ Hg) as [E Hne]. exists k. cbn [entry category cost_eur count].
    rewrite <- E. repeat split. exact Hne.
  - intros s Hs. specialize (C s Hs). apply in_map_iff in C.
    destruct C as ([k g] & Hk & Hg). cbn [fst] in Hk. subst k.
    exists (entry (key s, g)). split.
    + apply (Permutation_in _ (Permutation_sym (RoutesFacts.sorted_by_perm _ _))).
      apply in_map. exact Hg.
    + destruct (G _ _ Hg) as [E _]. cbn [entry category count]. rewrite <- E.
      split; reflexivity.
Qed.

End Breakdown.

(** The category a datacenter or a project is shown under. *)
Definition datacenter_label (dc : string) : string := or_default dc "unknown".

Definition project_label (project : option string) : string :=
  match project with
  | Some p => or_default p "unassigned"
  | None => "unassigned"
  end.

(** X17.  The two breakdowns of [GET /costs/overview].  Each lists its
    entries by decreasing cost; the counts of its entries add up to the
    server count; an entry stands for the servers of one datacenter (of one
    project), at least one, with the rounded sum of their costs and their
    number; and every server is counted in the entry of its datacenter (of
    its project), under "unknown" for an empty datacenter and "unassigned"
    for no project or an empty one. *)
Theorem cost_overview_breakdowns :
  forall db,
    let overview := cost_overview db in
    (Sorted (fun a b => (cost_eur b <= cost_eur a)%Q) (by_datacenter overview)
     /\ Py.sumZ (map count (by_datacenter overview)) = server_count overview
     /\ (forall b, In b (by_datacenter overview) ->
                   exists dc,
                     let rows := filter (fun s => String.eqb (datacenter s) dc)
                                        (servers db) in
                     category b = datacenter_label dc
                     /\ rows <> []
                     /\ cost_eur b = Py.round (sum_cost rows) 2
                     /\ count b = Py.len rows)
     /\ (forall s, In s (servers db) ->
                   exists b, In b (by_datacenter overview)
                             /\ category b = datacenter_label (datacenter s)
                             /\ count b
                                = Py.len (filter (fun s' => String.eqb (datacenter s')
                                                                       (datacenter s))
                                                 (servers db))))
    /\ (Sorted (fun a b => (cost_eur b <= cost_eur a)%Q) (by_project overview)
        /\ Py.sumZ (map count (by_project overview)) = server_count overview
        /\ (forall b, In b (by_project overview) ->
                      exists project,
                        let rows := filter (fun s => option_string_eqb (project_name s)
                                                                       project)
                                           (servers db) in
                        category b = project_label project
                        /\ rows <> []
                        /\ cost_eur b = Py.round (sum_cost rows) 2
                        /\ count b = Py.len rows)
        /\ (forall s, In s (servers db) ->
                      exists b, In b (by_project overview)
                                /\ category b = project_label (project_name s)
                                /\ count b
                                   = Py.len (filter (fun s' => option_string_eqb
                                                                 (project_name s')
                                                                 (project_name s))
                                                    (servers db)))).
Proof.
  intros db overview. subst overview. unfold cost_overview.
  destruct (source_loop _) as [cloud_cost dedicated_cost].
  cbn [by_datacenter by_project server_count].
  split.
  - exact (breakdown_spec String.eqb datacenter datacenter_label String.eqb_eq
                          (servers db)).
  - exact (breakdown_spec option_string_eqb project_name project_label
                          option_string_eqb_eq (servers db)).
Qed.

(** X18.  A run of the recommendation engine changes one figure of the cost
    overview, the potential saving, which becomes the rounded sum of the
    savings of the run's recommendations. *)
Theorem cost_overview_after_regeneration :
  forall db now,
    let before := cost_overview db in
    let after := cost_overview (snd (generate_recommendations db now)) in
    total_monthly_eur after = total_monthly_eur before
    /\ cloud_cost_eur after = cloud_cost_eur before
    /\ dedicated_cost_eur after = dedicated_cost_eur before
    /\ server_count after = server_count before
    /\ by_datacenter after = by_datacenter before
    /\ by_project after = by_project before
    /\ potential_savings_eur after
       = Py.round (Py.sum (map monthly_savings_eur
                               (fst (generate_recommendations db now)))) 2.
Proof.
  intros db now before after. subst before after.
  destruct (RecommenderFacts.generate_recommendations_tables db now)
    as (_ & _ & _ & PR & S & _).
  cbv zeta in PR, S. unfold RecommenderFacts.pending_rows in PR.
  unfold cost_overview. rewrite S, PR.
  destruct (source_loop _) as [cloud_cost dedicated_cost].
  cbn [total_monthly_eur cloud_cost_eur dedicated_cost_eur server_count
                         by_datacenter by_project potential_savings_eur].
  repeat split.
Qed.

End CostsFacts.

(* ================================================================== *)
(** * Properties of the paginated GET of services/hetzner_cloud.py *)
(* ================================================================== *)

Module HetznerCloudFacts.
Import HetznerClient HetznerCloud.
Local Open Scope string_scope.

Section WithItems.

Variable Item : Type.
Variable float_of_string : string -> option Q.
Variable transport : Z -> nat -> HttpResponse (Page Item).

(** How the request for a page ends. *)
Definition answer (page : Z) : Outcome (Page Item) :=
  fst (_request float_of_string Cloud (transport page)).

(** The items of [k] successive pages from [first] on, in order. *)
Fixpoint merged (page_data : Z -> Page Item) (first : Z) (k : nat) : list Item :=
  match k with
  | O => []
  | S k' => (items (page_data first) ++ merged page_data (first + 1) k')%list
  end.

(** The page answers with data that announce a later last page. *)
Definition continues (page_data : Z -> Page Item) (page : Z) : Prop :=
  answer page = Return (page_data page)
  /\ exists total_pages,
      last_page (page_data page) = Number total_pages /\ (page < total_pages)%Z.

Lemma pages_loop_prefix (page_data : Z -> Page Item) (k : nat) :
  forall fuel page all_items,
    (forall j, (j < k)%nat -> continues page_data (page + Z.of_nat j)) ->
    pages_loop float_of_string transport (k + fuel) page all_items
    = pages_loop float_of_string transport fuel (page + Z.of_nat k)
                 (all_items ++ merged page_data page k)%list.
Proof.
  induction k as [|k IH]; intros fuel page all_items H.
  - cbn [merged Nat.add Z.of_nat]. rewrite Z.add_0_r, app_nil_r. reflexivity.
  - destruct (H 0%nat ltac:(lia)) as (A & t & L & Ht).
    cbn [Z.of_nat] in A, L, Ht. rewrite Z.add_0_r in A, L, Ht.
    cbn [Nat.add pages_loop]. fold (answer page). rewrite A, L.
    assert ((page >=? t)%Z = false) as -> by lia.
    rewrite IH.
    + cbn [merged]. rewrite app_assoc. f_equal. lia.
    + intros j Hj. replace (page + 1 + Z.of_nat j)%Z with (page + Z.of_nat (S j))%Z by lia.
      apply H. lia.
Qed.

(** X19.  When the listing has [n] pages, each answered with its data, each
    but the last announcing a later last page and the last one announcing
    none beyond itself (or no paging information at all), [_get_all_pages]
    ends after [n] requests and returns the items of the pages 1 to [n],
    merged in page order. *)
Theorem get_all_pages_merges_pages :
  forall (page_data : Z -> Page Item) (n fuel : nat),
    (1 <= n)%nat ->
    (forall p, (1 <= p < Z.of_nat n)%Z -> continues page_data p) ->
    answer (Z.of_nat n) = Return (page_data (Z.of_nat n)) ->
    (last_page (page_data (Z.of_nat n)) = Missing
     \/ exists total_pages,
         last_page (page_data (Z.of_nat n)) = Number total_pages
         /\ (total_pages <= Z.of_nat n)%Z) ->
    (n <= fuel)%nat ->
    _get_all_pages float_of_string transport fuel
    = Some (Items (merged page_data 1 n)).
Proof.
  intros page_data n fuel Hn C A L Hf. unfold _get_all_pages.
  destruct n as [|k]; [lia|].
  replace fuel with (k + S (fuel - S k))%nat by lia.
  rewrite (pages_loop_prefix page_data k) by (intros j Hj; apply C; lia).
  replace (1 + Z.of_nat k)%Z with (Z.of_nat (S k)) by lia.
  cbn [pages_loop]. fold (answer (Z.of_nat (S k))). rewrite A.
  assert (merged page_data 1 (S k)
          = (merged page_data 1 k ++ items (page_data (Z.of_nat (S k))))%list) as ->.
  { replace (Z.of_nat (S k)) with (1 + Z.of_nat k)%Z by lia.
    generalize 1%Z. clear. induction k as [|k IH]; intro first.
    - cbn [merged Z.of_nat]. rewrite Z.add_0_r, app_nil_r. reflexivity.
    - cbn [merged] in *. rewrite (IH (first + 1)%Z), app_assoc.
      do 3 f_equal. lia. }
  cbn [app].
  destruct L as [->|(t & -> & Ht)]; [reflexivity|].
  rewrite (proj2 (Z.geb_le _ _) Ht). reflexivity.
Qed.

(** The request fails: [_request] raises. *)
Definition fails (outcome : Outcome (Page Item)) : Prop :=
  match outcome with Return _ => False | _ => True end.

(** X20.  How [_get_all_pages] goes wrong after [k] pages that each announce
    a later one.  When the request for the next page fails, the call fails
    the same way and the items fetched so far are not returned; when the
    next page holds [null] for the last page, the call raises [TypeError];
    and when every page announces a later one, the call has not ended after
    any number of requests. *)
Theorem get_all_pages_failures :
  forall (page_data : Z -> Page Item) (k : nat),
    (forall p, (1 <= p <= Z.of_nat k)%Z -> continues page_data p) ->
    (forall fuel,
        (k < fuel)%nat ->
        fails (answer (Z.of_nat k + 1)) ->
        _get_all_pages float_of_string transport fuel
        = Some (RequestFailed (answer (Z.of_nat k + 1))))
    /\ (forall fuel data,
           (k < fuel)%nat ->
           answer (Z.of_nat k + 1) = Return data ->
           last_page data = Null ->
           _get_all_pages float_of_string transport fuel = Some RaiseTypeError)
    /\ (forall fuel,
           (fuel <= k)%nat ->
           _get_all_pages float_of_string transport fuel = None).
Proof.
  intros page_data k C.
  assert (forall fuel,
             (k < fuel)%nat ->
             _get_all_pages float_of_string transport fuel
             = pages_loop float_of_string transport (S (fuel - S k))
                          (Z.of_nat k + 1) (merged page_data 1 k)) as Run.
  { intros fuel Hf. unfold _get_all_pages.
    replace fuel with (k + S (fuel - S k))%nat at 1 by lia.
    rewrite (pages_loop_prefix page_data k) by (intros j Hj; apply C; lia).
    cbn [app]. f_equal. lia. }
  split; [|split].
  - intros fuel Hf F. rewrite (Run fuel Hf). cbn [pages_loop].
    fold (answer (Z.of_nat k + 1)).
    destruct (answer (Z.of_nat k + 1)); [destruct F | reflexivity ..].
  - intros fuel data Hf A L. rewrite (Run fuel Hf). cbn [pages_loop].
    fold (answer (Z.of_nat k + 1)). rewrite A, L. reflexivity.
  - intros fuel Hf. unfold _get_all_pages.
    replace fuel with (fuel + 0)%nat by lia.
    rewrite (pages_loop_prefix page_data fuel) by (intros j Hj; apply C; lia).
    reflexivity.
Qed.

End WithItems.

(** A listing of two pages, and one whose second page is refused. *)
Definition page_of (names : list string) (last : LastPage) : HttpResponse (Page string) :=
  mkHttpResponse (Page string) 200 None "" (Some (mkPage string names last)).

Definition two_pages (page : Z) (attempt : nat) : HttpResponse (Page string) :=
  if (page =? 1)%Z then page_of ["web-1"; "web-2"] (Number 2)
  else page_of ["db-1"] (Number 2).

Definition second_page_refused (page : Z) (attempt : nat) : HttpResponse (Page string) :=
  if (page =? 1)%Z then page_of ["web-1"; "web-2"] (Number 2)
  else mkHttpResponse (Page string) 503 None "unavailable" None.

Definition two_pages_data (page : Z) : Page string :=
  if (page =? 1)%Z then mkPage string ["web-1"; "web-2"] (Number 2)
  else mkPage string ["db-1"] (Number 2).

Lemma get_all_pages_merges_pages_witness :
  _get_all_pages ClientFacts.sample_hint two_pages 5
  = Some (Items ["web-1"; "web-2"; "db-1"]).
Proof.
  apply (get_all_pages_merges_pages string ClientFacts.sample_hint two_pages
                                    two_pages_data 2 5).
  - lia.
  - intros p Hp. assert (p = 1%Z) as -> by lia.
    split; [reflexivity|]. exists 2%Z. split; [reflexivity|lia].
  - reflexivity.
  - right. exists 2%Z. split; [reflexivity|]. cbn. lia.
  - lia.
Defined.

Lemma get_all_pages_failures_witness :
  _get_all_pages ClientFacts.sample_hint second_page_refused 5
  = Some (RequestFailed (RaiseHetznerError Cloud 503 "unavailable")).
Proof.
  destruct (get_all_pages_failures string ClientFacts.sample_hint second_page_refused
                                   two_pages_data 1) as (F & _).
  - intros p Hp. assert (p = 1%Z) as -> by lia.
    split; [reflexivity|]. exists 2%Z. split; [reflexivity|lia].
  - apply (F 5%nat); [lia | exact I].
Defined.

End HetznerCloudFacts.

(* ================================================================== *)
(** * Properties of the queue of agent/infrascope-agent.py *)
(* ================================================================== *)

Module AgentFacts.
Import Agent.
Local Open Scope string_scope.

Lemma ends_with_app (suffix s : string) : ends_with suffix (s ++ suffix) = true.
Proof.
  induction s as [|c s IH]; cbn [String.append].
  - destruct suffix; cbn [ends_with]; rewrite String.eqb_refl; reflexivity.
  - cbn [ends_with]. rewrite IH. apply orb_true_r.
Qed.

Lemma is_report_queued (middle : string) :
  is_report ("report-" ++ middle ++ ".json") = true.
Proof.
  unfold is_report. apply andb_true_intro. split.
  - apply String.prefix_correct. cbn. destruct (middle ++ ".json"); reflexivity.
  - change ("report-" ++ middle ++ ".json")
      with ("r" ++ "e" ++ "p" ++ "o" ++ "r" ++ "t" ++ "-" ++ middle ++ ".json").
    cbn [String.append ends_with].
    rewrite ends_with_app, !orb_true_r. reflexivity.
Qed.

Lemma write_text_In (name text : string) (dir : list File) :
  In (mkFile name text) (write_text name text dir)
  /\ (forall g, In g dir -> fname g <> name -> In g (write_text name text dir))
  /\ (forall g, In g (write_text name text dir) -> g = mkFile name text \/ In g dir).
Proof.
  induction dir as [|h dir (IH1 & IH2 & IH3)]; cbn [write_text].
  - split; [left; reflexivity|]. split; [intros g []|]. intros g [H|[]]. left. congruence.
  - destruct (String.eqb_spec (fname h) name) as [E|N].
    + split; [left; reflexivity|]. split.
      * intros g [->|H] Hn; [congruence | right; exact H].
      * intros g [H|H]; [left; congruence | right; right; exact H].
    + split; [right; exact IH1|]. split.
      * intros g [->|H] Hn; [left; reflexivity | right; exact (IH2 g H Hn)].
      * intros g [H|H]; [right; left; exact H|].
        destruct (IH3 g H) as [X|X]; [left; exact X | right; right; exact X].
Qed.

Section WithReports.

Variable Report : Type.
Variable json_loads : string -> option Report.
Variable json_dumps : Report -> string.
Variable send_report : Report -> option bool.

(** The report files of the directory, in the order [flush_queue] takes
    them. *)
Definition queued (dir : list File) : list File :=
  Py.sorted_by (fun a b => String.leb (fname a) (fname b))
               (filter (fun f => is_report (fname f)) dir).

(** The server refuses the report of the file. *)
Definition refused (f : File) : Prop :=
  exists report, json_loads (text f) = Some report /\ send_report report = Some false.

(** The reports of the files that the server takes. *)
Definition delivered (files : list File) : list Report :=
  flat_map
    (fun f =>
       match json_loads (text f) with
       | Some report =>
           match send_report report with Some true => [report] | _ => [] end
       | None => []
       end)
    files.

(** The directory without the files named as one of [files]. *)
Definition without (files dir : list File) : list File :=
  filter (fun g => negb (existsb (fun f => String.eqb (fname g) (fname f)) files)) dir.

Lemma without_nil (dir : list File) : without [] dir = dir.
Proof.
  unfold without. cbn [existsb negb].
  induction dir as [|g dir IH]; cbn [filter]; congruence.
Qed.

Lemma without_unlink (f : File) (files dir : list File) :
  without files (unlink f dir) = without (f :: files) dir.
Proof.
  unfold without, unlink. induction dir as [|g dir IH]; cbn [filter existsb];
    [reflexivity|].
  destruct (fname g =? fname f) eqn:E; cbn [negb orb filter]; [exact IH|].
  rewrite IH. reflexivity.
Qed.

Lemma flush_loop_spec (files : list File) :
  forall dir sent,
  exists done rest,
    files = (done ++ rest)%list
    /\ flush_loop json_loads send_report files dir sent
       = (without done dir, (sent ++ delivered done)%list)
    /\ Forall (fun f => ~ refused f) done
    /\ (rest = [] \/ exists f rest', rest = f :: rest' /\ refused f).
Proof.
  induction files as [|f files IH]; intros dir sent.
  - exists [], []. cbn [flush_loop delivered flat_map app].
    rewrite without_nil, app_nil_r. repeat split; [constructor | left; reflexivity].
  - cbn [flush_loop].
    assert (forall reports,
               delivered [f] = reports ->
               ~ refused f ->
               exists done rest,
                 f :: files = (done ++ rest)%list
                 /\ flush_loop json_loads send_report files (unlink f dir)
                               (sent ++ reports)%list
                    = (without done dir, (sent ++ delivered done)%list)
                 /\ Forall (fun f => ~ refused f) done
                 /\ (rest = [] \/ exists f rest', rest = f :: rest' /\ refused f)) as Go.
    { intros reports D NR.
      destruct (IH (unlink f dir) (sent ++ reports)%list) as (done & rest & E & R & F & L).
      exists (f :: done), rest. split; [cbn [app]; rewrite E; reflexivity|].
      split.
      - rewrite R, without_unlink. f_equal. rewrite <- app_assoc. f_equal.
        rewrite <- D. unfold delivered. cbn [flat_map]. rewrite app_nil_r. reflexivity.
      - split; [constructor; assumption | exact L]. }
    destruct (json_loads (text f)) as [report|] eqn:J.
    + destruct (send_report report) as [[|]|] eqn:S.
      * apply (Go [report]).
        -- unfold delivered. cbn [flat_map]. rewrite J, S. reflexivity.
        -- intros (r & Jr & Sr). congruence.
      * exists [], (f :: files). cbn [app delivered flat_map].
        rewrite without_nil, app_nil_r. repeat split; [constructor|].
        right. exists f, files. split; [reflexivity|]. exists report. split; assumption.
      * specialize (Go []). rewrite app_nil_r in Go. apply Go.
        -- unfold delivered. cbn [flat_map]. rewrite J, S. reflexivity.
        -- intros (r & Jr & Sr). congruence.
    + specialize (Go []). rewrite app_nil_r in Go. apply Go.
      * unfold delivered. cbn [flat_map]. rewrite J. reflexivity.
      * intros (r & Jr & Sr). congruence.
Qed.

Lemma queued_In (dir : list File) (f : File) :
  In f (queued dir) <-> In f dir /\ is_report (fname f) = true.
Proof.
  unfold queued. split.
  - intro H. apply (Permutation_in _ (RoutesFacts.sorted_by_perm _ _)) in H.
    apply filter_In in H. exact H.
  - intro H. apply (Permutation_in _ (Permutation_sym (RoutesFacts.sorted_by_perm _ _))).
    apply filter_In. exact H.
Qed.

Lemma without_In (files dir : list File) (g : File) :
  In g (without files dir) <-> In g dir /\ ~ In (fname g) (map fname files).
Proof.
  unfold without. rewrite filter_In, negb_true_iff.
  split; intros [H N]; (split; [exact H|]).
  - intro X. apply in_map_iff in X. destruct X as (f & E & Hf).
    assert (existsb (fun f => fname g =? fname f) files = true) as Y.
    { apply existsb_exists. exists f. split; [exact Hf|]. apply String.eqb_eq. congruence. }
    congruence.
  - destruct (existsb (fun f => fname g =? fname f) files) eqn:Y; [|reflexivity].
    exfalso. apply N. apply existsb_exists in Y. destruct Y as (f & Hf & E).
    apply String.eqb_eq in E. rewrite E. apply in_map. exact Hf.
Qed.

(** X21.  [flush_queue] takes the report files of the directory in name
    order and stops at the first one the server refuses.  The files before
    it are removed, delivered or not: a file that does not parse and a
    report whose sending raises are removed undelivered.  The reports
    delivered are those of the removed files that the server took, in name
    order.  The refused file, the files after it, and every file that is no
    report file stay. *)
Theorem flush_queue_stops_at_refusal :
  forall dir,
  exists done rest,
    queued dir = (done ++ rest)%list
    /\ Sorted (fun a b => String.leb (fname a) (fname b) = true) (queued dir)
    /\ (forall f, In f (queued dir) <-> In f dir /\ is_report (fname f) = true)
    /\ snd (flush_queue json_loads send_report dir) = delivered done
    /\ (forall g, In g (fst (flush_queue json_loads send_report dir))
                  <-> In g dir /\ ~ In (fname g) (map fname done))
    /\ Forall (fun f => ~ refused f) done
    /\ (rest = [] \/ exists f rest', rest = f :: rest' /\ refused f).
Proof.
  intro dir. unfold flush_queue. fold (queued dir).
  destruct (flush_loop_spec (queued dir) dir []) as (done & rest & E & R & F & L).
  exists done, rest. rewrite R. cbn [fst snd app].
  split; [exact E|].
  split.
  { unfold queued.
    apply (SortFacts.sorted_by_Sorted (fun a b => String.leb (fname a) (fname b))).
    intros a b. apply String.leb_total. }
  split; [apply queued_In|].
  split; [reflexivity|].
  split; [apply without_In|].
  split; assumption.
Qed.

Lemma flush_queue_all_taken (dir : list File) :
  (forall f, In f dir -> is_report (fname f) = true ->
             exists r, json_loads (text f) = Some r /\ send_report r = Some true) ->
  snd (flush_queue json_loads send_report dir) = delivered (queued dir)
  /\ forall g, In g (fst (flush_queue json_loads send_report dir))
               <-> In g dir /\ ~ In (fname g) (map fname (queued dir)).
Proof.
  intro All. unfold flush_queue. fold (queued dir).
  destruct (flush_loop_spec (queued dir) dir []) as (done & rest & E & R & F & L).
  rewrite R. cbn [fst snd app].
  assert (rest = []) as ->.
  { destruct L as [L|(f & rest' & -> & (r & Jr & Sr))]; [exact L|].
    exfalso.
    assert (In f (queued dir)) as Hf by (rewrite E; apply in_or_app; right; left; reflexivity).
    apply queued_In in Hf. destruct Hf as [Hf Hr].
    destruct (All f Hf Hr) as (r' & Jr' & Sr'). congruence. }
  rewrite app_nil_r in E. subst done.
  split; [reflexivity | apply without_In].
Qed.

(** X22.  A queued report is delivered by the next flush that finds the
    server taking every report: when each report file parses and its report
    is taken, queueing a report and flushing delivers it and leaves no
    report file behind, and no other file is touched. *)
Theorem queued_report_is_delivered :
  forall dir now report,
    json_loads (json_dumps report) = Some report ->
    send_report report = Some true ->
    (forall f, In f dir -> is_report (fname f) = true ->
               exists r, json_loads (text f) = Some r /\ send_report r = Some true) ->
    let after := flush_queue json_loads send_report
                             (queue_report json_dumps now report dir) in
    In report (snd after)
    /\ forall g, In g (fst after) <-> In g dir /\ is_report (fname g) = false.
Proof.
  intros dir now report J S All after. subst after.
  set (name := "report-" ++ Py.str_nat now ++ ".json").
  set (dir' := queue_report json_dumps now report dir).
  destruct (write_text_In name (json_dumps report) dir) as (New & Old & Inv).
  fold (queue_report json_dumps now report dir) in New, Old, Inv. fold dir' in New, Old, Inv.
  assert (is_report name = true) as Rn by apply is_report_queued.
  assert (forall f, In f dir' -> is_report (fname f) = true ->
                    exists r, json_loads (text f) = Some r /\ send_report r = Some true)
    as All'.
  { intros f Hf Hr. destruct (Inv f Hf) as [->|H]; [|exact (All f H Hr)].
    exists report. split; assumption. }
  destruct (flush_queue_all_taken dir' All') as (Sn & Fs).
  rewrite Sn. split.
  - unfold delivered. apply in_flat_map. exists (mkFile name (json_dumps report)).
    split.
    + apply queued_In. split; [exact New|exact Rn].
    + cbn [text]. rewrite J, S. left. reflexivity.
  - intro g. rewrite Fs. split.
    + intros [Hg Hn].
      assert (is_report (fname g) = false) as NR.
      { destruct (is_report (fname g)) eqn:X; [|reflexivity].
        exfalso. apply Hn. apply in_map. apply queued_In. split; assumption. }
      split; [|exact NR].
      destruct (Inv g Hg) as [->|H]; [|exact H].
      cbn [fname] in NR. congruence.
    + intros [Hg NR]. split.
      * apply Old; [exact Hg|]. intro X. rewrite X in NR. congruence.
      * intro X. apply in_map_iff in X. destruct X as (f & Ef & Hf).
        apply queued_In in Hf. destruct Hf as [_ Hf]. congruence.
Qed.

End WithReports.

(** A directory with one queued report and a file of another kind. *)
Definition sample_dir : list File :=
  [mkFile "report-100.json" "first"; mkFile "notes.txt" "kept"].

Lemma queued_report_is_delivered_witness :
  In "second"
     (snd (flush_queue Some (fun _ : string => Some true)
                       (queue_report (fun r : string => r) 200 "second" sample_dir)))
  /\ fst (flush_queue Some (fun _ : string => Some true)
                      (queue_report (fun r : string => r) 200 "second" sample_dir))
     = [mkFile "notes.txt" "kept"].
Proof.
  split; [|vm_compute; reflexivity].
  apply (queued_report_is_delivered
           string Some (fun r => r) (fun _ => Some true) sample_dir 200 "second").
  - reflexivity.
  - reflexivity.
  - intros f _ _. exists (text f). split; reflexivity.
Defined.

End AgentFacts.

(* ================================================================== *)
(** * Properties of the read routes of routes/servers.py *)
(* ================================================================== *)

Module ServerRoutesFacts.
Import Models Analyzer Routes ServerRoutes.
Local Open Scope string_scope.

Lemma Zleb_total (x y : Z) : (x <=? y)%Z = true \/ (y <=? x)%Z = true.
Proof. destruct (Z.leb_spec x y); [left; reflexivity | right; apply Z.leb_le; lia]. Qed.

Lemma oldest_first_Sorted (rows : list MetricSnapshot) :
  Sorted (fun a b => (timestamp a <= timestamp b)%Z) (oldest_first rows).
Proof.
  unfold oldest_first.
  eapply RecommendationRoutesFacts.Sorted_impl;
    [|apply SortFacts.sorted_by_Sorted; intros a b; apply Zleb_total].
  intros a b H. cbv beta in H. apply Z.leb_le in H. exact H.
Qed.

Lemma newest_first_Sorted (rows : list MetricSnapshot) :
  Sorted (fun a b => (timestamp b <= timestamp a)%Z) (newest_first rows).
Proof.
  unfold newest_first.
  eapply RecommendationRoutesFacts.Sorted_impl;
    [|apply SortFacts.sorted_by_Sorted; intros a b; apply Zleb_total].
  intros a b H. cbv beta in H. apply Z.leb_le in H. exact H.
Qed.

(** The head of the rows by decreasing time is a row of the latest time. *)
Lemma newest_first_head (rows : list MetricSnapshot) :
  match hd_error (newest_first rows) with
  | None => rows = []
  | Some latest =>
      In latest rows /\ forall m, In m rows -> (timestamp m <= timestamp latest)%Z
  end.
Proof.
  pose proof (newest_first_Sorted rows) as S.
  pose proof (RoutesFacts.sorted_by_perm
                (fun a b => (timestamp b <=? timestamp a)%Z) rows) as P.
  fold (newest_first rows) in P.
  destruct (newest_first rows) as [|latest rest]; cbn [hd_error].
  - apply Permutation_nil. exact P.
  - split; [apply (Permutation_in _ P); left; reflexivity|].
    intros m Hm. apply (Permutation_in _ (Permutation_sym P)) in Hm.
    destruct Hm as [->|Hm]; [lia|].
    assert (Forall (fun b => (timestamp b <= timestamp latest)%Z) rest) as F.
    { apply (@Sorted_extends _ (fun a b => (timestamp b <= timestamp a)%Z));
        [|exact S].
      intros a b c Hab Hbc. lia. }
    exact (proj1 (Forall_forall _ _) F m Hm).
Qed.

Lemma server_exists (server_id : Z) (db : Db) :
  RoutesFacts.primary_key_unique db ->
  (~ In server_id (map id (servers db))
   /\ filter (fun s => (id s =? server_id)%Z) (servers db) = [])
  \/ (exists srv,
         In srv (servers db) /\ id srv = server_id
         /\ filter (fun s => (id s =? server_id)%Z) (servers db) = [srv]).
Proof.
  intro PK. unfold RoutesFacts.primary_key_unique in PK.
  induction (servers db) as [|s l IH]; cbn [filter map].
  - left. split; [intros []|reflexivity].
  - cbn [map] in PK. inversion PK as [|? ? Hs PK']; subst.
    destruct (Z.eqb_spec (id s) server_id) as [E|N].
    + right. exists s. split; [left; reflexivity|]. split; [exact E|].
      destruct (IH PK') as [[_ F]|(srv & Hin & Hid & _)]; [rewrite F; reflexivity|].
      exfalso. apply Hs. rewrite E, <- Hid. apply in_map. exact Hin.
    + destruct (IH PK') as [[Hno F]|(srv & Hin & Hid & F)].
      * left. split; [|exact F]. intros [H|H]; [congruence|contradiction].
      * right. exists srv. split; [right; exact Hin|]. split; assumption.
Qed.

(** The number of days a period stands for. *)
Definition period_days (period : string) : Z :=
  if String.eqb period "7d" then 7
  else if String.eqb period "90d" then 90
  else 30.

(** X23.  The detail and the time-series route answer 404 exactly when no
    server has the id (unique ids assumed).  Otherwise [GET
    /servers/{id}/metrics] answers the snapshots of that server taken within
    the period before the request, each once, oldest first; the period is 7
    days for "7d", 90 days for "90d", and 30 days for "30d" and for any other
    text. *)
Theorem get_server_metrics_window :
  forall server_id period db now,
    RoutesFacts.primary_key_unique db ->
    (~ In server_id (map id (servers db)) ->
     get_server_metrics server_id period db now = HTTPException 404 "Server not found"
     /\ get_server server_id db now = HTTPException 404 "Server not found")
    /\ (In server_id (map id (servers db)) ->
        (exists srv,
            In srv (servers db) /\ id srv = server_id
            /\ get_server server_id db now
               = Ok {| sd_item := item_of db now srv;
                       sd_created_at := created_at srv;
                       sd_updated_at := updated_at srv |})
        /\ exists snapshots,
            get_server_metrics server_id period db now = Ok (map point_of snapshots)
            /\ Sorted (fun a b => (timestamp a <= timestamp b)%Z) snapshots
            /\ Permutation
                 snapshots
                 (filter (fun m => (ms_server_id m =? server_id)%Z
                                   && (now - 86400 * period_days period <=? timestamp m)%Z)
                         (metric_snapshots db))).
Proof.
  intros server_id period db now PK.
  assert (_parse_period period now = (now - 86400 * period_days period)%Z) as Cut.
  { unfold _parse_period, period_days, Py.get_default, timedelta_days. cbn [Py.get].
    destruct (String.eqb_spec period "7d") as [->|N7]; [reflexivity|].
    destruct (String.eqb_spec period "30d") as [->|N30]; [reflexivity|].
    destruct (String.eqb_spec period "90d") as [->|N90]; reflexivity. }
  unfold get_server_metrics, get_server.
  destruct (server_exists server_id db PK) as [[Hno F]|(srv & Hin & Hid & F)]; rewrite F.
  - split; [intros _; split; reflexivity|]. intro H. contradiction.
  - split.
    + intro H. exfalso. apply H. rewrite <- Hid. apply in_map. exact Hin.
    + intros _. split; [exists srv; repeat split; assumption|].
      eexists. split; [reflexivity|]. split; [apply oldest_first_Sorted|].
      unfold oldest_first. rewrite RoutesFacts.sorted_by_perm, Cut. reflexivity.
Qed.

Lemma get_server_metrics_window_witness :
  get_server_metrics 2 "1y" RecommenderMore.two_server_db 2000
  = get_server_metrics 2 "30d" RecommenderMore.two_server_db 2000
  /\ exists snapshots,
      get_server_metrics 2 "1y" RecommenderMore.two_server_db 2000
      = Ok (map point_of snapshots)
      /\ map timestamp snapshots = [1000%Z; 1500%Z].
Proof.
  split; [vm_compute; reflexivity|].
  destruct (get_server_metrics_window 2 "1y" RecommenderMore.two_server_db 2000)
    as (_ & H).
  - repeat constructor; cbn; intuition discriminate.
  - destruct H as (_ & snapshots & E & _); [right; left; reflexivity|].
    exists [RecommenderMore.snapshot_of 2 2 1000 10; RecommenderMore.snapshot_of 3 2 1500 20].
    split; vm_compute; reflexivity.
Defined.

(** *** The summary of a server and its analysis *)

Lemma round2_near (x : Q) :
  (Py.round x 2 - 0.005 <= x)%Q /\ (x <= Py.round x 2 + 0.005)%Q.
Proof.
  unfold Py.round. change (Py.pow10 2) with 100%Z.
  destruct (PyFacts.round_half_even_near (x * inject_Z 100)) as [A B].
  set (r := inject_Z (Py.round_half_even (x * inject_Z 100))) in *.
  change (inject_Z 100) with 100%Q in *.
  assert (r / 100 == r * (1 # 100))%Q as -> by field.
  split; lra.
Qed.

(** X24.  What [_build_metric_summary] shows of a server.  It shows nothing
    exactly when the server has no snapshot at all.  Otherwise the current
    readings are those of a snapshot of the server that no other snapshot of
    it is later than.  When the analyzer has no statistics for the server
    (every snapshot is older than 30 days), the summary shows tier idle and
    averages and peaks of 0.  When it has, the tier shown is the analyzer's
    tier or the one just below it: the route classifies the mean itself, the
    analyzer the mean rounded to two places. *)
Theorem metric_summary_and_analysis :
  forall db server_id now,
    (_build_metric_summary db server_id now = None
     <-> forall m, In m (metric_snapshots db) -> ms_server_id m <> server_id)
    /\ forall summary,
        _build_metric_summary db server_id now = Some summary ->
        (exists latest,
            In latest (metric_snapshots db)
            /\ ms_server_id latest = server_id
            /\ (forall m, In m (metric_snapshots db) -> ms_server_id m = server_id ->
                          (timestamp m <= timestamp latest)%Z)
            /\ sm_cpu_percent summary = cpu_percent latest
            /\ sm_memory_percent summary = memory_percent latest
            /\ sm_disk_percent summary = disk_percent latest
            /\ sm_network_in_mbps summary = network_in_mbps latest
            /\ sm_network_out_mbps summary = network_out_mbps latest)
        /\ match analyze_server db server_id now with
           | None =>
               sm_utilization_tier summary = idle
               /\ (sm_avg_cpu_30d summary == 0)%Q /\ (sm_peak_cpu_30d summary == 0)%Q
               /\ (sm_avg_memory_30d summary == 0)%Q
               /\ (sm_peak_memory_30d summary == 0)%Q
           | Some analysis =>
               (tier_rank (sm_utilization_tier summary)
                <= tier_rank (utilization_tier analysis))%nat
               /\ (tier_rank (utilization_tier analysis)
                   <= S (tier_rank (sm_utilization_tier summary)))%nat
           end.
Proof.
  intros db server_id now. unfold _build_metric_summary.
  pose proof (newest_first_head
                (filter (fun m => (ms_server_id m =? server_id)%Z) (metric_snapshots db)))
    as Head.
  destruct (hd_error (newest_first _)) as [latest|].
  - destruct Head as [Hin Hmax]. apply filter_In in Hin. destruct Hin as [Hin Hsid].
    apply Z.eqb_eq in Hsid.
    split.
    { split; [discriminate|]. intro H. exfalso. exact (H latest Hin Hsid). }
    intros summary E. injection E as <-.
    cbn [sm_cpu_percent sm_memory_percent sm_disk_percent sm_network_in_mbps
                        sm_network_out_mbps sm_utilization_tier sm_avg_cpu_30d
                        sm_avg_memory_30d sm_peak_cpu_30d sm_peak_memory_30d].
    split.
    { exists latest. split; [exact Hin|]. split; [exact Hsid|].
      split; [|repeat split].
      intros m Hm Hs. apply Hmax. apply filter_In. split; [exact Hm|].
      apply Z.eqb_eq. exact Hs. }
    unfold analyze_server.
    change (filter (fun m : MetricSnapshot =>
                      (ms_server_id m =? server_id)%Z
                      && (now - 2592000 <=? timestamp m)%Z)
                   (metric_snapshots db))
      with (window_rows db server_id now).
    destruct (window_rows db server_id now) as [|m0 rows] eqn:W.
    + cbn [map sql_avg sql_max or_zero]. split; [reflexivity|].
      repeat split; vm_compute; reflexivity.
    + cbn [map sql_avg sql_max or_zero utilization_tier].
      match goal with
      | |- context [_classify_utilization ?m] => set (mean := m)
      end.
      destruct (round2_near mean) as [N1 N2].
      assert (forall t : Z, (mean < inject_Z t)%Q \/ (inject_Z t <= Py.round mean 2)%Q) as Up.
      { intro t. destruct (Qlt_le_dec mean (inject_Z t)) as [L|G]; [left; exact L|].
        right. apply PyFacts.round_ge_Z. exact G. }
      pose proof (Up 5%Z) as U5. pose proof (Up 20%Z) as U20.
      pose proof (Up 60%Z) as U60. pose proof (Up 85%Z) as U85. clear Up.
      change (inject_Z 5) with 5%Q in U5. change (inject_Z 20) with 20%Q in U20.
      change (inject_Z 60) with 60%Q in U60. change (inject_Z 85) with 85%Q in U85.
      change (_classify_utilization mean) with (classify_utilization mean).
      split; AnalyzerFacts.ladder mean; AnalyzerFacts.ladder (Py.round mean 2);
        cbn [tier_rank]; try lia; exfalso;
        destruct U5, U20, U60, U85; lra.
  - split.
    { split; [|reflexivity]. intros _ m Hm Hs.
      assert (In m (filter (fun m => (ms_server_id m =? server_id)%Z)
                           (metric_snapshots db))) as X
          by (apply filter_In; split; [exact Hm | apply Z.eqb_eq; exact Hs]).
      rewrite Head in X. destruct X. }
    intros summary E. discriminate E.
Qed.

(** *** The list *)

Section WithDatabase.

Variable ilike : string -> string -> bool.

(** X25.  [GET /servers] lists the servers that pass every filter given
    (source, status, name pattern), each with its own summary, and no other;
    by decreasing cost for "cost", by decreasing current CPU reading for
    "cpu" (a server without summary counting as 0), and by name without
    regard to case for "name" and for any other text. *)
Theorem list_servers_filtered_and_sorted :
  forall source status sort_by search db now,
    let items := list_servers ilike source status sort_by search db now in
    let cpu := fun s => match li_metrics s with
                        | Some m => sm_cpu_percent m
                        | None => 0%Q
                        end in
    (exists kept,
        Permutation items (map (item_of db now) kept)
        /\ forall srv,
            In srv kept
            <-> In srv (servers db)
                /\ (forall src, source = Some src -> source_value (Models.source srv) = src)
                /\ (forall st, status = Some st -> Models.status srv = st)
                /\ (forall text, search = Some text ->
                                 ilike (name srv) ("%" ++ text ++ "%") = true))
    /\ (sort_by = "cost" ->
        Sorted (fun a b => (li_monthly_cost_eur b <= li_monthly_cost_eur a)%Q) items)
    /\ (sort_by = "cpu" -> Sorted (fun a b => (cpu b <= cpu a)%Q) items)
    /\ (sort_by <> "cost" -> sort_by <> "cpu" ->
        Sorted (fun a b => String.leb (Py.lower (li_name a)) (Py.lower (li_name b)) = true)
               items).
Proof.
  intros source status sort_by search db now items cpu. subst items.
  unfold list_servers.
  match goal with
  | |- context [filter ?k (servers db)] => set (keep := k)
  end.
  set (rows := map (item_of db now) (filter keep (servers db))).
  assert (forall srv,
             In srv (filter keep (servers db))
             <-> In srv (servers db)
                 /\ (forall src, source = Some src -> source_value (Models.source srv) = src)
                 /\ (forall st, status = Some st -> Models.status srv = st)
                 /\ (forall text, search = Some text ->
                                  ilike (name srv) ("%" ++ text ++ "%") = true)) as Keep.
  { intro srv. rewrite filter_In. subst keep. cbv beta.
    rewrite !andb_true_iff.
    destruct source as [src|], status as [st|], search as [text|];
      rewrite ?String.eqb_eq; split;
      intros (H1 & H2); (split; [exact H1|]);
      try (destruct H2 as ((A & B) & C));
      try (destruct H2 as (A & B & C));
      repeat split; try reflexivity;
      try (intros ? X; injection X as <-; assumption);
      try (intros ? X; discriminate X);
      try (apply A; reflexivity); try (apply B; reflexivity);
      try (apply C; reflexivity). }
  assert (forall le, Permutation (Py.sorted_by le rows) rows) as P
      by (intro le; apply RoutesFacts.sorted_by_perm).
  split.
  { exists (filter keep (servers db)). split; [|exact Keep].
    destruct (sort_by =? "cost"); [apply P|]. destruct (sort_by =? "cpu"); apply P. }
  split; [|split].
  - intros ->. cbn [String.eqb Ascii.eqb Bool.eqb andb].
    eapply RecommendationRoutesFacts.Sorted_impl;
      [|apply SortFacts.sorted_by_Sorted; intros a b;
        apply RecommendationRoutesFacts.geb_total].
    intros a b H. cbv beta in H. apply PyFacts.geb_ge in H. exact H.
  - intros ->. cbn [String.eqb Ascii.eqb Bool.eqb andb].
    eapply RecommendationRoutesFacts.Sorted_impl;
      [|apply (SortFacts.sorted_by_Sorted (fun a b => Py.geb (cpu a) (cpu b)));
        intros a b; apply RecommendationRoutesFacts.geb_total].
    intros a b H. cbv beta in H. apply PyFacts.geb_ge in H. exact H.
  - intros N1 N2.
    rewrite (proj2 (String.eqb_neq _ _) N1), (proj2 (String.eqb_neq _ _) N2).
    apply (SortFacts.sorted_by_Sorted
             (fun a b => String.leb (Py.lower (li_name a)) (Py.lower (li_name b)))).
    intros a b. apply String.leb_total.
Qed.

End WithDatabase.

(** X26.  [GET /health] reports the number of inventory rows, and as the
    last collection the latest time of any snapshot: nothing exactly when
    there is no snapshot, else a time that some snapshot carries and no
    snapshot exceeds. *)
Theorem health_check_last_collection :
  forall demo_mode db,
    let health := health_check demo_mode db in
    hr_status health = "ok"
    /\ hr_demo_mode health = demo_mode
    /\ hr_server_count health = Py.len (servers db)
    /\ (hr_last_collection health = None <-> metric_snapshots db = [])
    /\ forall t, hr_last_collection health = Some t ->
                 In t (map timestamp (metric_snapshots db))
                 /\ forall m, In m (metric_snapshots db) -> (timestamp m <= t)%Z.
Proof.
  intros demo_mode db health. subst health. unfold health_check.
  cbn [hr_status hr_demo_mode hr_server_count hr_last_collection].
  repeat (split; [reflexivity|]).
  pose proof (newest_first_head (metric_snapshots db)) as Head.
  destruct (newest_first (metric_snapshots db)) as [|latest rest];
    cbn [hd_error map] in *.
  - split; [split; [intros _; exact Head | reflexivity]|]. intros t E. discriminate E.
  - destruct Head as [Hin Hmax]. split.
    + split; [discriminate|]. intro E. rewrite E in Hin. destruct Hin.
    + intros t E. injection E as <-. split; [apply in_map; exact Hin | exact Hmax].
Qed.

End ServerRoutesFacts.

(* ================================================================== *)
(** * Properties of the inventory collection of services/collector.py *)
(* ================================================================== *)

Module CollectorInventoryFacts.
Import Models Collector CollectorInventory.
Local Open Scope string_scope.

(** The primary key and the external identifier of the servers are unique. *)
Definition inventory_keys_unique (db : Db) : Prop :=
  NoDup (map id (servers db)) /\ NoDup (map hetzner_id (servers db)).

(** What no collection changes of a server row. *)
Definition identity_of (s : Server) : Z * string * ServerSource * option string * Z :=
  (id s, hetzner_id s, source s, project_name s, created_at s).

(** What the dedicated collection leaves alone besides. *)
Definition assets_of (s : Server)
  : Z * Q * Z * Q * option (list (string * string)) :=
  (cores s, memory_gb s, disk_gb s, monthly_cost_eur s, labels s).

Definition kept_by_dedicated (s : Server) :=
  (identity_of s, assets_of s).

(** A server with this external identifier was seen at this time. *)
Definition seen (now : Z) (db : Db) (key : string) : Prop :=
  exists srv, In srv (servers db) /\ hetzner_id srv = key /\ last_seen_at srv = now.

(** The key a Robot entry is stored under. *)
Definition dedicated_key (raw : RawDedicated) : string :=
  match server_number raw with
  | Some n => Py.str_nat n
  | None => or_else (server_ip raw) ""
  end.

Section Grows.

Context {K : Type} (proj : Server -> K) (key_id : K -> Z).
Hypothesis key_id_proj : forall s, key_id (proj s) = id s.

(** The database has grown: the old rows are there in their order, with
    what [proj] shows of them, new rows come after them; at most [n]
    snapshots were appended, each of this time and of a server of the
    inventory; the other tables are as before. *)
Definition grows (now : Z) (n : nat) (db db' : Db) : Prop :=
  (exists news, map proj (servers db') = (map proj (servers db) ++ news)%list)
  /\ (exists added,
         metric_snapshots db' = (metric_snapshots db ++ added)%list
         /\ (List.length added <= n)%nat
         /\ Forall (fun m => timestamp m = now
                             /\ In (ms_server_id m) (map id (servers db'))) added)
  /\ running_services db' = running_services db
  /\ consolidation_recommendations db' = consolidation_recommendations db.

Lemma ids_of_proj (l : list Server) : map id l = map key_id (map proj l).
Proof. rewrite map_map. apply map_ext. intro s. symmetry. apply key_id_proj. Qed.

Lemma grows_refl now db : grows now 0 db db.
Proof.
  split; [exists []; rewrite app_nil_r; reflexivity|].
  split; [exists []; rewrite app_nil_r; repeat split; [reflexivity|constructor]|].
  split; reflexivity.
Qed.

Lemma grows_trans now n1 n2 a b c :
  grows now n1 a b -> grows now n2 b c -> grows now (n1 + n2) a c.
Proof.
  intros ((news1 & S1) & (added1 & M1 & L1 & F1) & R1 & C1)
         ((news2 & S2) & (added2 & M2 & L2 & F2) & R2 & C2).
  split; [exists (news1 ++ news2)%list; rewrite S2, S1, app_assoc; reflexivity|].
  split.
  - exists (added1 ++ added2)%list. split; [rewrite M2, M1, app_assoc; reflexivity|].
    split; [rewrite length_app; lia|].
    apply Forall_app. split; [|exact F2].
    eapply Forall_impl; [|exact F1]. intros m [T I]. split; [exact T|].
    rewrite ids_of_proj, S2, map_app. apply in_or_app. left.
    rewrite <- ids_of_proj. exact I.
  - split; congruence.
Qed.

Lemma grows_more now n n' db db' : (n <= n')%nat -> grows now n db db' -> grows now n' db db'.
Proof.
  intros Hn (S & (added & M & L & F) & R & C).
  split; [exact S|]. split; [|split; assumption].
  exists added. repeat split; [exact M | lia | exact F].
Qed.

End Grows.

Lemma select_by_hetzner_id_cases (db : Db) (key : string) :
  NoDup (map hetzner_id (servers db)) ->
  (select_by_hetzner_id db key = [] /\ ~ In key (map hetzner_id (servers db)))
  \/ (exists srv,
         select_by_hetzner_id db key = [srv]
         /\ In srv (servers db) /\ hetzner_id srv = key).
Proof.
  unfold select_by_hetzner_id. intro N.
  induction (servers db) as [|s l IH]; cbn [filter map].
  - left. split; [reflexivity|intros []].
  - cbn [map] in N. inversion N as [|? ? Hs N']; subst.
    destruct (String.eqb_spec (hetzner_id s) key) as [E|Ne].
    + right. exists s. split; [|split; [left; reflexivity|exact E]].
      destruct (IH N') as [[F _]|(srv & _ & Hin & Hk)]; [rewrite F; reflexivity|].
      exfalso. apply Hs. rewrite E, <- Hk. apply in_map. exact Hin.
    + destruct (IH N') as [[F Hno]|(srv & F & Hin & Hk)].
      * left. split; [exact F|]. intros [H|H]; [congruence|contradiction].
      * right. exists srv. split; [exact F|]. split; [right; exact Hin|exact Hk].
Qed.

Lemma update_server_map {K} (g : Server -> K) (srv srv' : Server) (db : Db) :
  NoDup (map id (servers db)) -> In srv (servers db) ->
  id srv' = id srv -> g srv' = g srv ->
  map g (servers (update_server srv' db)) = map g (servers db).
Proof.
  intros N Hin Hid Hg. cbn [update_server servers]. rewrite map_map.
  apply map_ext_in. intros s Hs.
  destruct (Z.eqb_spec (id s) (id srv')) as [E|_]; [|reflexivity].
  rewrite Hg. f_equal. symmetry.
  apply (RoutesFacts.NoDup_map_eq id _ _ _ N Hs Hin). congruence.
Qed.

Lemma update_server_In (srv srv' : Server) (db : Db) :
  NoDup (map id (servers db)) -> In srv (servers db) -> id srv' = id srv ->
  In srv' (servers (update_server srv' db))
  /\ forall s, In s (servers db) -> s <> srv -> In s (servers (update_server srv' db)).
Proof.
  intros N Hin Hid. cbn [update_server servers]. split.
  - apply in_map_iff. exists srv. split; [|exact Hin].
    rewrite Hid, Z.eqb_refl. reflexivity.
  - intros s Hs Hne. apply in_map_iff. exists s. split; [|exact Hs].
    destruct (Z.eqb_spec (id s) (id srv')) as [E|_]; [|reflexivity].
    exfalso. apply Hne.
    apply (RoutesFacts.NoDup_map_eq id _ _ _ N Hs Hin). congruence.
Qed.

(** What an upsert by external identifier does, whatever it writes. *)
Lemma update_upserts {K} (proj : Server -> K) (now : Z) (srv srv' : Server) (db : Db) :
  inventory_keys_unique db -> In srv (servers db) ->
  id srv' = id srv -> hetzner_id srv' = hetzner_id srv -> proj srv' = proj srv ->
  last_seen_at srv' = now ->
  let db' := update_server srv' db in
  inventory_keys_unique db'
  /\ map proj (servers db') = map proj (servers db)
  /\ metric_snapshots db' = metric_snapshots db
  /\ running_services db' = running_services db
  /\ consolidation_recommendations db' = consolidation_recommendations db
  /\ (forall s, In s (servers db) -> hetzner_id s <> hetzner_id srv -> In s (servers db'))
  /\ seen now db' (hetzner_id srv)
  /\ (forall k, seen now db k -> seen now db' k).
Proof.
  intros [Ni Nh] Hin Hid Hh Hp Hl db'. subst db'.
  destruct (update_server_In srv srv' db Ni Hin Hid) as [In' Others].
  split.
  { split.
    - rewrite (update_server_map id srv srv' db Ni Hin Hid Hid). exact Ni.
    - rewrite (update_server_map hetzner_id srv srv' db Ni Hin Hid Hh). exact Nh. }
  split; [exact (update_server_map proj srv srv' db Ni Hin Hid Hp)|].
  repeat (split; [reflexivity|]).
  split; [intros s Hs Hne; apply Others; [exact Hs | congruence]|].
  split; [exists srv'; repeat split; assumption|].
  intros k (s & Hs & Hk & Hn).
  destruct (String.eqb_spec (hetzner_id s) (hetzner_id srv)) as [E|Ne].
  - exists srv'. split; [exact In'|]. split; [congruence|exact Hl].
  - exists s. split; [apply Others; [exact Hs | congruence]|]. split; assumption.
Qed.

Lemma add_upserts {K} (proj : Server -> K) (now : Z) (srv : Server) (db : Db) :
  inventory_keys_unique db ->
  id srv = next_id (map id (servers db)) ->
  ~ In (hetzner_id srv) (map hetzner_id (servers db)) ->
  last_seen_at srv = now ->
  let db' := add_server srv db in
  inventory_keys_unique db'
  /\ map proj (servers db') = (map proj (servers db) ++ [proj srv])%list
  /\ metric_snapshots db' = metric_snapshots db
  /\ running_services db' = running_services db
  /\ consolidation_recommendations db' = consolidation_recommendations db
  /\ (forall s, In s (servers db) -> In s (servers db'))
  /\ seen now db' (hetzner_id srv)
  /\ (forall k, seen now db k -> seen now db' k).
Proof.
  intros [Ni Nh] Hid Hno Hl db'. subst db'. unfold inventory_keys_unique, seen.
  cbn [add_server servers metric_snapshots running_services
                  consolidation_recommendations].
  split.
  { split; rewrite map_app; cbn [map];
      apply (Permutation_NoDup (Permutation_cons_append _ _)); constructor;
      try assumption.
    rewrite Hid. apply RoutesFacts.next_id_fresh. }
  split; [rewrite map_app; reflexivity|].
  repeat (split; [reflexivity|]).
  split; [intros s Hs; apply in_or_app; left; exact Hs|].
  split.
  - exists srv. split; [apply in_or_app; right; left; reflexivity|]. split; [reflexivity|exact Hl].
  - intros k (s & Hs & Hk & Hn). exists s.
    split; [apply in_or_app; left; exact Hs|]. split; assumption.
Qed.

(** *** The dedicated collection *)

Definition key_of_kept (k : (Z * string * ServerSource * option string * Z)
                           * (Z * Q * Z * Q * option (list (string * string)))) : Z :=
  fst (fst (fst (fst (fst k)))).

Definition key_of_identity (k : Z * string * ServerSource * option string * Z) : Z :=
  fst (fst (fst (fst k))).

Lemma dedicated_turn_spec (now : Z) (raw : RawDedicated) (db : Db) :
  inventory_keys_unique db ->
  exists db',
    dedicated_turn now raw db = inl db'
    /\ inventory_keys_unique db'
    /\ grows kept_by_dedicated now 0 db db'
    /\ (forall s, In s (servers db) -> hetzner_id s <> dedicated_key raw ->
                  In s (servers db'))
    /\ seen now db' (dedicated_key raw)
    /\ (forall k, seen now db k -> seen now db' k)
    /\ (In (dedicated_key raw) (map hetzner_id (servers db)) ->
        map kept_by_dedicated (servers db') = map kept_by_dedicated (servers db)).
Proof.
  intros Inv. unfold dedicated_turn. fold (dedicated_key raw).
  destruct (select_by_hetzner_id_cases db (dedicated_key raw) (proj2 Inv))
    as [[Sel Hno]|(srv & Sel & Hin & Hk)]; rewrite Sel.
  - eexists. split; [reflexivity|].
    match goal with |- context [add_server ?s db] => set (new := s) end.
    destruct (add_upserts kept_by_dedicated now new db Inv eq_refl Hno eq_refl)
      as (I & P & M & R & C & O & Sn & Sk).
    split; [exact I|]. split.
    { split; [eexists; exact P|]. split; [|split; assumption].
      exists []. rewrite app_nil_r. split; [exact M|].
      split; [cbn [List.length]; lia | constructor]. }
    split; [intros s Hs _; exact (O s Hs)|].
    split; [exact Sn|]. split; [exact Sk|]. intro H. contradiction.
  - eexists. split; [reflexivity|].
    match goal with |- context [update_server ?s db] => set (srv' := s) end.
    destruct (update_upserts kept_by_dedicated now srv srv' db Inv Hin
                             eq_refl eq_refl eq_refl eq_refl)
      as (I & P & M & R & C & O & Sn & Sk).
    rewrite Hk in O, Sn.
    split; [exact I|]. split.
    { split; [exists []; rewrite app_nil_r; exact P|]. split; [|split; assumption].
      exists []. rewrite app_nil_r. split; [exact M|].
      split; [cbn [List.length]; lia | constructor]. }
    split; [exact O|]. split; [exact Sn|]. split; [exact Sk|]. intros _. exact P.
Qed.

Lemma dedicated_loop_spec (now : Z) (raw_servers : list RawDedicated) :
  forall db,
    inventory_keys_unique db ->
    exists db',
      dedicated_loop now raw_servers db = (db', None)
      /\ inventory_keys_unique db'
      /\ grows kept_by_dedicated now 0 db db'
      /\ (forall s, In s (servers db) ->
                    ~ In (hetzner_id s) (map dedicated_key raw_servers) ->
                    In s (servers db'))
      /\ (forall raw, In raw raw_servers -> seen now db' (dedicated_key raw))
      /\ (forall k, seen now db k -> seen now db' k)
      /\ ((forall raw, In raw raw_servers ->
                       In (dedicated_key raw) (map hetzner_id (servers db))) ->
          map kept_by_dedicated (servers db') = map kept_by_dedicated (servers db)).
Proof.
  induction raw_servers as [|raw rest IH]; intros db Inv; cbn [dedicated_loop].
  - exists db. split; [reflexivity|]. split; [exact Inv|].
    split; [apply grows_refl|]. split; [intros s Hs _; exact Hs|].
    split; [intros raw []|]. split; [intros k H; exact H|]. intros _. reflexivity.
  - destruct (dedicated_turn_spec now raw db Inv) as (db1 & E & I1 & G1 & O1 & S1 & K1 & P1).
    rewrite E.
    destruct (IH db1 I1) as (db2 & E2 & I2 & G2 & O2 & S2 & K2 & P2).
    exists db2. split; [exact E2|]. split; [exact I2|].
    split; [exact (grows_trans kept_by_dedicated key_of_kept (fun s => eq_refl)
                               now 0 0 db db1 db2 G1 G2)|].
    split.
    { intros s Hs Hno. apply O2.
      - apply O1; [exact Hs|]. intro X. apply Hno. left. symmetry. exact X.
      - intro X. apply Hno. right. exact X. }
    split.
    { intros r [<-|Hr]; [apply K2; exact S1 | exact (S2 r Hr)]. }
    split; [intros k H; apply K2, K1; exact H|].
    intro All.
    assert (map kept_by_dedicated (servers db1) = map kept_by_dedicated (servers db)) as Q1
        by (apply P1, All; left; reflexivity).
    rewrite P2; [exact Q1|].
    intros r Hr.
    assert (map hetzner_id (servers db1) = map hetzner_id (servers db)) as ->.
    { transitivity (map (fun k => snd (fst (fst (fst (fst k)))))
                        (map kept_by_dedicated (servers db1))).
      - rewrite map_map. reflexivity.
      - rewrite Q1, map_map. reflexivity. }
    apply All. right. exact Hr.
Qed.

(** X28.  [collect_dedicated_servers] returns without touching the session
    when no Robot user is configured or the listing fails.  Otherwise, on an
    inventory with unique ids and external identifiers, it commits an
    inventory in which: the keys are still unique; every old row is there,
    in place, with its id, external identifier, source, project, creation
    time, cores, memory, disk, cost and labels; every listed server has a
    row, seen at the time of the run; rows of servers that are not listed
    are as they were; and snapshots, services and recommendations are
    untouched.  A second run on the result adds no row. *)
Theorem collect_dedicated_servers_upserts :
  forall hetzner_robot_user robot now s,
    inventory_keys_unique (working s) ->
    let run := collect_dedicated_servers hetzner_robot_user robot now s in
    (hetzner_robot_user = "" \/ robot_list_servers robot = None -> run = Done s)
    /\ (hetzner_robot_user <> "" ->
        forall raw_servers,
          robot_list_servers robot = Some raw_servers ->
          exists db',
            run = Done {| committed := db'; working := db' |}
            /\ inventory_keys_unique db'
            /\ (exists news,
                   map kept_by_dedicated (servers db')
                   = (map kept_by_dedicated (servers (working s)) ++ news)%list)
            /\ metric_snapshots db' = metric_snapshots (working s)
            /\ running_services db' = running_services (working s)
            /\ consolidation_recommendations db'
               = consolidation_recommendations (working s)
            /\ (forall raw, In raw raw_servers -> seen now db' (dedicated_key raw))
            /\ (forall srv, In srv (servers (working s)) ->
                            ~ In (hetzner_id srv) (map dedicated_key raw_servers) ->
                            In srv (servers db'))
            /\ forall later,
                exists db'',
                  collect_dedicated_servers hetzner_robot_user robot later
                                            {| committed := db'; working := db' |}
                  = Done {| committed := db''; working := db'' |}
                  /\ map kept_by_dedicated (servers db'')
                     = map kept_by_dedicated (servers db')).
Proof.
  intros user robot now s Inv run. subst run. unfold collect_dedicated_servers.
  split.
  - intros [-> | ->]; [reflexivity|]. destruct (user =? ""); reflexivity.
  - intros Hu raws ->. rewrite (proj2 (String.eqb_neq _ _) Hu).
    destruct (dedicated_loop_spec now raws (working s) Inv)
      as (db' & E & I & (Sv & (added & M & L & _) & R & C) & O & Sn & _ & _).
    rewrite E. exists db'. split; [reflexivity|]. split; [exact I|].
    split; [exact Sv|].
    split.
    { destruct added; [rewrite app_nil_r in M; exact M | cbn in L; lia]. }
    split; [exact R|]. split; [exact C|]. split; [exact Sn|]. split; [exact O|].
    intro later. cbn [working committed].
    destruct (dedicated_loop_spec later raws db' I)
      as (db'' & E2 & _ & _ & _ & _ & _ & P).
    rewrite E2. exists db''. split; [reflexivity|].
    apply P. intros raw Hr. destruct (Sn raw Hr) as (srv & Hin & Hk & _).
    rewrite <- Hk. apply in_map. exact Hin.
Qed.

(** A session of an inventory of one dedicated server, and a Robot answer
    that lists it again with a new name, and a second server. *)
Definition robot_entry (number : Z) (ip name : string) : RawDedicated :=
  {| server_ip := Some ip; server_number := Some number; server_name := Some name;
     product := Some "AX41"; dc := Some "FSN1-DC14"; rd_status := Some "ready" |}.

Definition robot_answer : HetznerClient.Outcome RobotData :=
  HetznerClient.Return
    (RobotList [Wrapped (robot_entry 321 "10.0.0.5" "db-1");
                Bare (robot_entry 322 "10.0.0.6" "db-2")]).

Definition dedicated_session : Session :=
  let db :=
    {| servers :=
         [ {| id := 7; hetzner_id := "321"; name := "old-name";
              server_type := "AX41"; source := dedicated; status := "ready";
              datacenter := "FSN1-DC14"; ipv4 := "10.0.0.5"; cores := 6;
              memory_gb := 64; disk_gb := 512; monthly_cost_eur := 46.41;
              labels := None; project_name := Some "analytics"; created_at := 10;
              last_seen_at := 20; updated_at := 20 |} ];
       metric_snapshots := []; running_services := [];
       consolidation_recommendations := [] |} in
  {| committed := db; working := db |}.

Lemma collect_dedicated_servers_upserts_witness :
  exists db',
    collect_dedicated_servers "robot-user" robot_answer 1000 dedicated_session
    = Done {| committed := db'; working := db' |}
    /\ map id (servers db') = [7%Z; 8%Z]
    /\ map name (servers db') = ["db-1"; "db-2"]
    /\ map monthly_cost_eur (servers db') = [46.41%Q; 0%Q]
    /\ map project_name (servers db') = [Some "analytics"; None].
Proof.
  destruct (collect_dedicated_servers_upserts
              "robot-user" robot_answer 1000 dedicated_session) as (_ & H).
  - split; repeat constructor; cbn; intuition discriminate.
  - destruct (H ltac:(discriminate) _ eq_refl) as (db' & E & _).
    exists db'. split; [exact E|].
    assert (db' = working (session_of (collect_dedicated_servers
                                         "robot-user" robot_answer 1000
                                         dedicated_session))) as ->
        by (rewrite E; reflexivity).
    vm_compute. repeat split.
Defined.

(** *** Prices *)

Lemma dict_set_get {V} (k k' : string) (v : V) (d : list (string * V)) :
  Py.get k' (dict_set k v d) = if String.eqb k' k then Some v else Py.get k' d.
Proof.
  induction d as [|[k0 v0] d IH]; cbn [dict_set Py.get].
  - destruct (k' =? k); reflexivity.
  - destruct (String.eqb_spec k k0) as [->|N]; cbn [Py.get].
    + destruct (k' =? k0); reflexivity.
    + rewrite IH. destruct (String.eqb_spec k' k0) as [->|N'].
      * rewrite (proj2 (String.eqb_neq _ _) (fun X => N (eq_sym X))). reflexivity.
      * reflexivity.
Qed.

Lemma reference_entry_In (prices : list PriceEntry) (entry : PriceEntry) :
  reference_entry prices = Some entry ->
  In entry prices /\ location entry = Some "fsn1".
Proof.
  induction prices as [|e rest IH]; cbn [reference_entry]; [discriminate|].
  destruct (location e) as [l|] eqn:L.
  - destruct (String.eqb_spec l "fsn1") as [->|N].
    + intro E. injection E as <-. split; [left; reflexivity|exact L].
    + intro E. destruct (IH E) as [A B]. split; [right; exact A|exact B].
  - intro E. destruct (IH E) as [A B]. split; [right; exact A|exact B].
Qed.

Section WithApis.

Variable float_of_string : string -> option Q.

Lemma first_inline_price_spec (prices : list PriceEntry) :
  match first_inline_price float_of_string prices with
  | Some p =>
      exists before entry after,
        prices = (before ++ entry :: after)%list
        /\ Forall (fun e => monthly_gross float_of_string e = None) before
        /\ monthly_gross float_of_string entry = Some p
  | None => Forall (fun e => monthly_gross float_of_string e = None) prices
  end.
Proof.
  induction prices as [|e rest IH]; cbn [first_inline_price]; [constructor|].
  destruct (monthly_gross float_of_string e) as [p|] eqn:M.
  - exists [], e, rest. repeat split; [constructor|exact M].
  - destruct (first_inline_price float_of_string rest) as [p|].
    + destruct IH as (before & entry & after & -> & F & E).
      exists (e :: before), entry, after. repeat split; [constructor; assumption|exact E].
    + constructor; assumption.
Qed.

Lemma price_map_entries (R : string -> Q -> Prop) (types : list RawServerType) :
  forall price_map,
    (forall name p, Py.get name price_map = Some p -> R name p) ->
    (forall st entry p,
        In st types -> reference_entry (st_prices st) = Some entry ->
        monthly_gross float_of_string entry = Some p ->
        R (or_else (st_name st) "") p) ->
    forall name p,
      Py.get name
             (fold_left
                (fun price_map st =>
                   let name := match st_name st with Some n => n | None => "" end in
                   match reference_entry (st_prices st) with
                   | Some price_entry =>
                       match monthly_gross float_of_string price_entry with
                       | Some monthly => dict_set name monthly price_map
                       | None => price_map
                       end
                   | None => price_map
                   end)
                types price_map) = Some p ->
      R name p.
Proof.
  induction types as [|st rest IH]; intros price_map Hm Ht name p; cbn [fold_left].
  - apply Hm.
  - apply IH.
    + intros n q. cbv zeta.
      destruct (reference_entry (st_prices st)) as [entry|] eqn:E; [|apply Hm].
      destruct (monthly_gross float_of_string entry) as [m|] eqn:M; [|apply Hm].
      rewrite dict_set_get. destruct (String.eqb_spec n (or_else (st_name st) "")) as [->|N].
      * change (match st_name st with Some n => n | None => "" end)
          with (or_else (st_name st) "").
        rewrite String.eqb_refl. intro X. injection X as <-.
        exact (Ht st entry m (or_introl eq_refl) E M).
      * change (match st_name st with Some n => n | None => "" end)
          with (or_else (st_name st) "").
        rewrite (proj2 (String.eqb_neq _ _) N). apply Hm.
    + intros st' entry q Hin. apply Ht. right. exact Hin.
Qed.

(** X27.  Where a monthly price comes from.  [_extract_monthly_price] takes
    the first inline price of the server type that converts to a number,
    whatever the price map says, and falls back to the map's price for the
    type name, or 0, only when no inline price converts.  Every price in the
    map [_build_cloud_price_map] builds is the gross monthly price of the
    first fsn1 entry of a listed type of that name, and the map is empty
    when the listing of the types fails. *)
Theorem monthly_price_sources :
  forall server_type_obj price_map type_name,
    (forall before entry after p,
        st_prices server_type_obj = (before ++ entry :: after)%list ->
        Forall (fun e => monthly_gross float_of_string e = None) before ->
        monthly_gross float_of_string entry = Some p ->
        _extract_monthly_price float_of_string server_type_obj price_map type_name = p)
    /\ (Forall (fun e => monthly_gross float_of_string e = None)
               (st_prices server_type_obj) ->
        _extract_monthly_price float_of_string server_type_obj price_map type_name
        = match Py.get type_name price_map with Some p => p | None => 0%Q end)
    /\ (forall types name p,
           Py.get name (_build_cloud_price_map float_of_string (HetznerCloud.Items types))
           = Some p ->
           exists st entry,
             In st types /\ or_else (st_name st) "" = name
             /\ reference_entry (st_prices st) = Some entry
             /\ In entry (st_prices st) /\ location entry = Some "fsn1"
             /\ monthly_gross float_of_string entry = Some p)
    /\ (forall failure,
           (forall types, failure <> HetznerCloud.Items types) ->
           _build_cloud_price_map float_of_string failure = []).
Proof.
  intros st price_map type_name. unfold _extract_monthly_price.
  pose proof (first_inline_price_spec (st_prices st)) as Spec.
  split; [|split; [|split]].
  - intros before entry after p E F M.
    destruct (first_inline_price float_of_string (st_prices st)) as [q|].
    + destruct Spec as (before' & entry' & after' & E' & F' & M').
      rewrite E in E'. clear E.
      revert before' E' F'. induction F as [|e before He F IH]; intros before' E' F'.
      * destruct before' as [|e' before'].
        -- cbn [app] in E'. injection E' as <- _. congruence.
        -- cbn [app] in E'. injection E' as -> _.
           inversion F' as [|? ? He' _]; subst. congruence.
      * destruct before' as [|e' before'].
        -- cbn [app] in E'. injection E' as -> _. congruence.
        -- cbn [app] in E'. injection E' as _ E'.
           inversion F' as [|? ? _ F'']; subst. exact (IH before' E' F'').
    + exfalso. rewrite E in Spec. apply Forall_app in Spec. destruct Spec as [_ Spec].
      inversion Spec as [|? ? He _]; subst. congruence.
  - intro F. destruct (first_inline_price float_of_string (st_prices st)) as [q|];
      [|reflexivity].
    exfalso. destruct Spec as (before & entry & after & E & _ & M).
    rewrite E in F. apply Forall_app in F. destruct F as [_ F].
    inversion F as [|? ? He _]; subst. congruence.
  - intros types name p. unfold _build_cloud_price_map.
    apply (price_map_entries
             (fun name p =>
                exists st entry,
                  In st types /\ or_else (st_name st) "" = name
                  /\ reference_entry (st_prices st) = Some entry
                  /\ In entry (st_prices st) /\ location entry = Some "fsn1"
                  /\ monthly_gross float_of_string entry = Some p)).
    + intros n q X. discriminate X.
    + intros st' entry q Hin E M. exists st', entry.
      destruct (reference_entry_In _ _ E) as [A B]. repeat split; assumption.
  - intros failure H. destruct failure as [types| |]; [|reflexivity|reflexivity].
    exfalso. exact (H types eq_refl).
Qed.

End WithApis.

(** *** The cloud collection *)

(** The key a Cloud entry is stored under. *)
Definition cloud_key (raw : RawCloudServer) : string :=
  match raw_id raw with Some i => Py.str_nat i | None => "" end.

Section WithMetrics.

Variable float_of_string : string -> option Q.
Variable metrics_api : MetricsApi.

Lemma collect_cloud_metrics_frame (db : Db) (server : Server) (key : string) (now : Z) :
  let db' := _collect_cloud_metrics float_of_string metrics_api db server key now in
  servers db' = servers db
  /\ running_services db' = running_services db
  /\ consolidation_recommendations db' = consolidation_recommendations db
  /\ exists added,
      metric_snapshots db' = (metric_snapshots db ++ added)%list
      /\ (List.length added <= 1)%nat
      /\ Forall (fun m => timestamp m = now /\ ms_server_id m = id server) added.
Proof.
  cbv zeta. unfold _collect_cloud_metrics.
  assert (exists added : list MetricSnapshot,
             metric_snapshots db = (metric_snapshots db ++ added)%list
             /\ (List.length added <= 1)%nat
             /\ Forall (fun m => timestamp m = now /\ ms_server_id m = id server) added)
    as Same.
  { exists []. rewrite app_nil_r. split; [reflexivity|].
    split; [cbn [List.length]; lia | constructor]. }
  destruct (metrics_api key "cpu" _ now) as [ts|];
    [|repeat (split; [reflexivity|]); exact Same].
  destruct (nonempty (cpu_values float_of_string ts)); cbn [negb];
    [|repeat (split; [reflexivity|]); exact Same].
  match goal with
  | |- context [let '(_, _) := ?e in _] => destruct e as [net_in net_out]
  end.
  cbn [servers running_services consolidation_recommendations metric_snapshots].
  repeat (split; [reflexivity|]).
  eexists. split; [reflexivity|]. split; [cbn [List.length]; lia|].
  constructor; [|constructor]. split; reflexivity.
Qed.

(** The metrics of a server that the upsert has just stored. *)
Lemma upsert_then_metrics (now : Z) (key : string) (db db1 : Db) (server : Server) :
  inventory_keys_unique db1 ->
  grows identity_of now 0 db db1 ->
  In server (servers db1) ->
  let db' := _collect_cloud_metrics float_of_string metrics_api db1 server key now in
  servers db' = servers db1
  /\ inventory_keys_unique db'
  /\ grows identity_of now 1 db db'.
Proof.
  intros Inv G Hin db'. subst db'.
  destruct (collect_cloud_metrics_frame db1 server key now) as (S & R & C & added & M & L & F).
  split; [exact S|].
  split; [unfold inventory_keys_unique; rewrite S; exact Inv|].
  apply (grows_trans identity_of key_of_identity (fun s => eq_refl) now 0 1 db db1 _ G).
  split; [exists []; rewrite app_nil_r, S; reflexivity|].
  split; [|split; assumption].
  exists added. split; [exact M|]. split; [exact L|].
  eapply Forall_impl; [|exact F]. intros m [T I]. split; [exact T|].
  rewrite S, I. apply in_map. exact Hin.
Qed.

Lemma cloud_turn_spec (price_map : list (string * Q)) (now : Z)
      (raw : RawCloudServer) (db : Db) :
  inventory_keys_unique db ->
  raw_id raw <> None ->
  exists db',
    cloud_turn float_of_string metrics_api price_map now raw db = inl db'
    /\ inventory_keys_unique db'
    /\ grows identity_of now 1 db db'
    /\ (forall s, In s (servers db) -> hetzner_id s <> cloud_key raw -> In s (servers db'))
    /\ seen now db' (cloud_key raw)
    /\ (forall k, seen now db k -> seen now db' k)
    /\ (In (cloud_key raw) (map hetzner_id (servers db)) ->
        map identity_of (servers db') = map identity_of (servers db)).
Proof.
  intros Inv Hid. unfold cloud_turn, cloud_key.
  destruct (raw_id raw) as [i|]; [clear Hid | contradiction]. cbv zeta.
  destruct (select_by_hetzner_id_cases db (Py.str_nat i) (proj2 Inv))
    as [[Sel Hno]|(srv & Sel & Hin & Hk)]; rewrite Sel.
  - eexists. split; [reflexivity|].
    match goal with |- context [add_server ?s db] => set (new := s) end.
    destruct (add_upserts identity_of now new db Inv eq_refl Hno eq_refl)
      as (I & P & M & R & C & O & Sn & Sk).
    assert (grows identity_of now 0 db (add_server new db)) as G.
    { split; [eexists; exact P|]. split; [|split; assumption].
      exists []. rewrite app_nil_r. split; [exact M|].
      split; [cbn [List.length]; lia | constructor]. }
    destruct (upsert_then_metrics now (Py.str_nat i) db (add_server new db) new I G)
      as (S' & I' & G'); [apply in_or_app; right; left; reflexivity|].
    split; [exact I'|]. split; [exact G'|].
    unfold seen. rewrite S'.
    split; [intros s Hs _; exact (O s Hs)|].
    split; [exact Sn|]. split; [exact Sk|]. intro H. contradiction.
  - eexists. split; [reflexivity|].
    match goal with |- context [update_server ?s db] => set (srv' := s) end.
    destruct (update_upserts identity_of now srv srv' db Inv Hin
                             eq_refl eq_refl eq_refl eq_refl)
      as (I & P & M & R & C & O & Sn & Sk).
    rewrite Hk in O, Sn.
    assert (grows identity_of now 0 db (update_server srv' db)) as G.
    { split; [exists []; rewrite app_nil_r; exact P|]. split; [|split; assumption].
      exists []. rewrite app_nil_r. split; [exact M|].
      split; [cbn [List.length]; lia | constructor]. }
    destruct (upsert_then_metrics now (Py.str_nat i) db (update_server srv' db) srv' I G)
      as (S' & I' & G');
      [exact (proj1 (update_server_In srv srv' db (proj1 Inv) Hin eq_refl))|].
    split; [exact I'|]. split; [exact G'|].
    unfold seen. rewrite S'.
    split; [exact O|]. split; [exact Sn|]. split; [exact Sk|]. intros _. exact P.
Qed.

Lemma hetzner_ids_of_identity (a b : Db) :
  map identity_of (servers a) = map identity_of (servers b) ->
  map hetzner_id (servers a) = map hetzner_id (servers b).
Proof.
  intro E.
  transitivity (map (fun k => snd (fst (fst (fst k)))) (map identity_of (servers a))).
  - rewrite map_map. reflexivity.
  - rewrite E, map_map. reflexivity.
Qed.

Lemma cloud_loop_spec (price_map : list (string * Q)) (now : Z)
      (raw_servers : list RawCloudServer) :
  forall db,
    inventory_keys_unique db ->
    exists db' exception,
      cloud_loop float_of_string metrics_api price_map now raw_servers db
      = (db', exception)
      /\ inventory_keys_unique db'
      /\ grows identity_of now (List.length raw_servers) db db'
      /\ (forall s, In s (servers db) ->
                    ~ In (hetzner_id s) (map cloud_key raw_servers) ->
                    In s (servers db'))
      /\ (forall k, seen now db k -> seen now db' k)
      /\ (Forall (fun raw => raw_id raw <> None) raw_servers ->
          exception = None
          /\ (forall raw, In raw raw_servers -> seen now db' (cloud_key raw))
          /\ ((forall raw, In raw raw_servers ->
                           In (cloud_key raw) (map hetzner_id (servers db))) ->
              map identity_of (servers db') = map identity_of (servers db)))
      /\ (forall before bad after,
             raw_servers = (before ++ bad :: after)%list ->
             Forall (fun raw => raw_id raw <> None) before ->
             raw_id bad = None ->
             exception = Some "KeyError"
             /\ cloud_loop float_of_string metrics_api price_map now before db
                = (db', None)).
Proof.
  induction raw_servers as [|raw rest IH]; intros db Inv; cbn [cloud_loop].
  - exists db, None. split; [reflexivity|]. split; [exact Inv|].
    split; [apply grows_refl|]. split; [intros s Hs _; exact Hs|].
    split; [intros k H; exact H|].
    split.
    + intros _. split; [reflexivity|]. split; [intros raw []|]. intros _. reflexivity.
    + intros [|b before] bad after E; discriminate E.
  - destruct (raw_id raw) as [i|] eqn:Hid.
    + destruct (cloud_turn_spec price_map now raw db Inv)
        as (db1 & E & I1 & G1 & O1 & S1 & K1 & P1); [congruence|].
      rewrite E.
      destruct (IH db1 I1) as (db2 & exc & E2 & I2 & G2 & O2 & K2 & Ok & Bad).
      exists db2, exc. split; [exact E2|]. split; [exact I2|].
      split; [exact (grows_trans identity_of key_of_identity (fun s => eq_refl)
                                 now 1 (List.length rest) db db1 db2 G1 G2)|].
      split.
      { intros s Hs Hno. apply O2.
        - apply O1; [exact Hs|]. intro X. apply Hno. left. symmetry. exact X.
        - intro X. apply Hno. right. exact X. }
      split; [intros k H; apply K2, K1; exact H|].
      split.
      * intro F. inversion F as [|? ? _ F']; subst.
        destruct (Ok F') as (-> & Sn & P2). split; [reflexivity|].
        split; [intros r [<-|Hr]; [apply K2; exact S1 | exact (Sn r Hr)]|].
        intro All.
        assert (map identity_of (servers db1) = map identity_of (servers db)) as Q1
            by (apply P1, All; left; reflexivity).
        rewrite P2; [exact Q1|].
        intros r Hr. rewrite (hetzner_ids_of_identity db1 db Q1).
        apply All. right. exact Hr.
      * intros before bad after Eq F Hbad.
        destruct before as [|b before].
        -- cbn [app] in Eq. injection Eq as -> _. congruence.
        -- cbn [app] in Eq. injection Eq as <- Eq.
           inversion F as [|? ? _ F']; subst.
           destruct (Bad before bad after eq_refl F' Hbad) as [-> L].
           split; [reflexivity|]. cbn [cloud_loop]. rewrite E. exact L.
    + unfold cloud_turn. rewrite Hid.
      exists db, (Some "KeyError"). split; [reflexivity|]. split; [exact Inv|].
      split; [apply (grows_more identity_of now 0); [lia | apply grows_refl]|].
      split; [intros s Hs _; exact Hs|].
      split; [intros k H; exact H|].
      split.
      * intro F. inversion F as [|? ? X _]; subst. congruence.
      * intros before bad after Eq F Hbad. split; [reflexivity|].
        destruct before as [|b before]; [reflexivity|].
        cbn [app] in Eq. injection Eq as <- _.
        inversion F as [|? ? X _]; subst. congruence.
Qed.

(** X29.  [collect_cloud_servers] returns without touching the session when
    the listing of the servers fails.  On an inventory with unique ids and
    external identifiers and a listing whose entries all carry an id, it
    commits an inventory in which: the keys are still unique; every old row
    is there, in place, with its id, external identifier, source, project and
    creation time; every listed server has a row, seen at the time of the
    run; rows of servers that are not listed are as they were; at most one
    snapshot per listed server was appended, each of the time of the run and
    of a server of the inventory; services and recommendations are untouched.
    An entry without id ends the run by [KeyError]: nothing is committed, and
    the session holds what the entries before it gave. *)
Theorem collect_cloud_servers_upserts :
  forall cloud_servers cloud_types now s,
    inventory_keys_unique (working s) ->
    let run := collect_cloud_servers float_of_string metrics_api
                                     cloud_servers cloud_types now s in
    let price_map := _build_cloud_price_map float_of_string cloud_types in
    ((forall raw_servers, cloud_servers <> HetznerCloud.Items raw_servers) ->
     run = Done s)
    /\ forall raw_servers,
        cloud_servers = HetznerCloud.Items raw_servers ->
        (Forall (fun raw => raw_id raw <> None) raw_servers ->
         exists db',
           run = Done {| committed := db'; working := db' |}
           /\ inventory_keys_unique db'
           /\ (exists news,
                  map identity_of (servers db')
                  = (map identity_of (servers (working s)) ++ news)%list)
           /\ (exists added,
                  metric_snapshots db' = (metric_snapshots (working s) ++ added)%list
                  /\ (List.length added <= List.length raw_servers)%nat
                  /\ Forall (fun m => timestamp m = now
                                      /\ In (ms_server_id m) (map id (servers db')))
                            added)
           /\ running_services db' = running_services (working s)
           /\ consolidation_recommendations db'
              = consolidation_recommendations (working s)
           /\ (forall raw, In raw raw_servers -> seen now db' (cloud_key raw))
           /\ (forall srv, In srv (servers (working s)) ->
                           ~ In (hetzner_id srv) (map cloud_key raw_servers) ->
                           In srv (servers db')))
        /\ (forall before bad after,
               raw_servers = (before ++ bad :: after)%list ->
               Forall (fun raw => raw_id raw <> None) before ->
               raw_id bad = None ->
               exists db1,
                 run = Raised "KeyError" {| committed := committed s; working := db1 |}
                 /\ cloud_loop float_of_string metrics_api price_map now before
                               (working s)
                    = (db1, None)).
Proof.
  intros cloud_servers cloud_types now s Inv run price_map. subst run price_map.
  unfold collect_cloud_servers.
  split.
  - intro H. destruct cloud_servers as [raws| |]; [|reflexivity|reflexivity].
    exfalso. exact (H raws eq_refl).
  - intros raws ->.
    destruct (cloud_loop_spec (_build_cloud_price_map float_of_string cloud_types)
                              now raws (working s) Inv)
      as (db' & exc & E & I & (Sv & Sn & R & C) & O & K & Ok & Bad).
    rewrite E. split.
    + intro F. destruct (Ok F) as (-> & Seen & _).
      exists db'. split; [reflexivity|]. split; [exact I|]. split; [exact Sv|].
      split; [exact Sn|]. split; [exact R|]. split; [exact C|].
      split; [exact Seen | exact O].
    + intros before bad after Eq F Hbad.
      destruct (Bad before bad after Eq F Hbad) as [-> L].
      exists db'. split; [reflexivity | exact L].
Qed.

(** *** The cycle *)

Lemma cloud_run_spec cloud_servers cloud_types now s :
  inventory_keys_unique (working s) ->
  let s' := session_of (collect_cloud_servers float_of_string metrics_api
                                              cloud_servers cloud_types now s) in
  inventory_keys_unique (working s')
  /\ (exists n, grows identity_of now n (working s) (working s'))
  /\ (committed s' = committed s \/ committed s' = working s').
Proof.
  intros Inv. cbv zeta. unfold collect_cloud_servers.
  destruct cloud_servers as [raws| |]; cbn [session_of].
  2,3: split; [exact Inv|]; split; [exists 0%nat; apply grows_refl | left; reflexivity].
  destruct (cloud_loop_spec (_build_cloud_price_map float_of_string cloud_types)
                            now raws (working s) Inv)
    as (db' & exc & E & I & G & _).
  rewrite E. destruct exc as [e|]; cbn [session_of commit working committed].
  - split; [exact I|]. split; [eexists; exact G | left; reflexivity].
  - split; [exact I|]. split; [eexists; exact G | right; reflexivity].
Qed.

Lemma dedicated_run_spec hetzner_robot_user robot now s :
  inventory_keys_unique (working s) ->
  let s' := session_of (collect_dedicated_servers hetzner_robot_user robot now s) in
  inventory_keys_unique (working s')
  /\ grows identity_of now 0 (working s) (working s')
  /\ (s' = s \/ committed s' = working s').
Proof.
  intros Inv. cbv zeta. unfold collect_dedicated_servers.
  destruct (hetzner_robot_user =? ""); cbn [session_of];
    [split; [exact Inv|]; split; [apply grows_refl | left; reflexivity]|].
  destruct (robot_list_servers robot) as [raws|]; cbn [session_of];
    [|split; [exact Inv|]; split; [apply grows_refl | left; reflexivity]].
  destruct (dedicated_loop_spec now raws (working s) Inv)
    as (db' & E & I & ((news & Sv) & Sn & R & C) & _).
  rewrite E. cbn [session_of commit working committed].
  split; [exact I|]. split; [|right; reflexivity].
  split; [|split; [exact Sn | split; assumption]].
  exists (map fst news).
  transitivity (map fst (map kept_by_dedicated (servers db'))).
  - rewrite map_map. reflexivity.
  - rewrite Sv, map_app, map_map. reflexivity.
Qed.

(** X30.  A collection cycle on an inventory with unique ids and external
    identifiers.  Whatever the two sources answer, the cycle deletes no
    server and keeps the keys unique: every old row is there afterwards, in
    place, with its id, external identifier, source, project and creation
    time; snapshots are only appended, each of the time of the cycle;
    services and recommendations are untouched.  The two collectors are
    isolated: when the cloud listing fails the result is that of the
    dedicated collection alone, and when the dedicated collection is skipped
    or its listing fails the result is what the cloud collection committed.
    But they share the session: when the cloud collection ends by an
    exception, what it had stored before is committed with the dedicated
    collection's commit, and dropped when there is none. *)
Theorem run_collection_keeps_inventory :
  forall cloud_servers cloud_types hetzner_robot_user robot now db,
    inventory_keys_unique db ->
    let db' := run_collection float_of_string metrics_api cloud_servers cloud_types
                              hetzner_robot_user robot now db in
    let fresh := {| committed := db; working := db |} in
    let cloud := collect_cloud_servers float_of_string metrics_api
                                       cloud_servers cloud_types now fresh in
    inventory_keys_unique db'
    /\ (exists news,
           map identity_of (servers db') = (map identity_of (servers db) ++ news)%list)
    /\ (exists added,
           metric_snapshots db' = (metric_snapshots db ++ added)%list
           /\ Forall (fun m => timestamp m = now) added)
    /\ running_services db' = running_services db
    /\ consolidation_recommendations db' = consolidation_recommendations db
    /\ ((forall raw_servers, cloud_servers <> HetznerCloud.Items raw_servers) ->
        db' = committed (session_of (collect_dedicated_servers
                                       hetzner_robot_user robot now fresh)))
    /\ (hetzner_robot_user = "" \/ robot_list_servers robot = None ->
        db' = committed (session_of cloud))
    /\ (forall exception s,
           cloud = Raised exception s ->
           committed s = db
           /\ (hetzner_robot_user = "" \/ robot_list_servers robot = None -> db' = db)
           /\ (hetzner_robot_user <> "" ->
               forall raw_servers,
                 robot_list_servers robot = Some raw_servers ->
                 db' = fst (dedicated_loop now raw_servers (working s)))).
Proof.
  intros cloud_servers cloud_types user robot now db Inv db' fresh cloud.
  subst db'. unfold run_collection. fold fresh. fold cloud.
  destruct (cloud_run_spec cloud_servers cloud_types now fresh Inv) as (I1 & (n & G1) & C1).
  fold cloud in I1, G1, C1. cbn [working committed fresh] in G1, C1.
  destruct (dedicated_run_spec user robot now (session_of cloud) I1) as (I2 & G2 & C2).
  set (s2 := session_of (collect_dedicated_servers user robot now (session_of cloud))) in *.
  assert (grows identity_of now n db (working s2)) as G.
  { replace n with (n + 0)%nat by lia.
    exact (grows_trans identity_of key_of_identity (fun s => eq_refl)
                       now n 0 db _ _ G1 G2). }
  assert (committed s2 = db \/ committed s2 = working (session_of cloud)
          \/ committed s2 = working s2) as Which.
  { destruct C2 as [->|C2]; [|right; right; exact C2].
    destruct C1 as [C1|C1]; [left; exact C1 | right; left; exact C1]. }
  assert (inventory_keys_unique (committed s2)
          /\ exists m, grows identity_of now m db (committed s2)) as [IC (m & GC)].
  { destruct Which as [->|[->| ->]].
    - split; [exact Inv | exists 0%nat; apply grows_refl].
    - split; [exact I1 | exists n; exact G1].
    - split; [exact I2 | exists n; exact G]. }
  split; [exact IC|].
  destruct GC as (Sv & (added & M & _ & F) & R & C).
  split; [exact Sv|].
  split.
  { exists added. split; [exact M|]. eapply Forall_impl; [|exact F].
    intros x [T _]. exact T. }
  split; [exact R|]. split; [exact C|].
  split.
  { intro H. subst s2 cloud. unfold collect_cloud_servers.
    destruct cloud_servers as [raws| |]; [|reflexivity|reflexivity].
    exfalso. exact (H raws eq_refl). }
  split.
  { intro H. subst s2. unfold collect_dedicated_servers.
    destruct H as [-> | ->]; [reflexivity|]. destruct (user =? ""); reflexivity. }
  intros exception s Ec.
  assert (committed s = db) as Cs.
  { subst cloud. unfold collect_cloud_servers in Ec.
    destruct cloud_servers as [raws| |]; try discriminate Ec.
    destruct (cloud_loop _ _ _ _ _ _) as [d [e|]]; [|discriminate Ec].
    injection Ec as _ <-. reflexivity. }
  split; [exact Cs|].
  subst s2. rewrite Ec. cbn [session_of]. unfold collect_dedicated_servers.
  split.
  - intros [-> | ->]; [cbn [String.eqb session_of]; exact Cs|].
    destruct (user =? ""); cbn [session_of]; exact Cs.
  - intros Hu raws ->. rewrite (proj2 (String.eqb_neq _ _) Hu).
    destruct (dedicated_loop_spec now raws (working s)) as (d & E & _).
    { rewrite Ec in I1. exact I1. }
    rewrite E. reflexivity.
Qed.

End WithMetrics.

(** A Cloud listing of one server, and one whose second entry has no id;
    no metrics are served. *)
Definition cloud_entry (i : option Z) (n : string) : RawCloudServer :=
  {| raw_id := i; raw_name := Some n;
     raw_server_type :=
       Dict {| st_name := Some "cx21"; st_cores := Some 2%Z; st_memory := Some 4%Q;
               st_disk := Some 40%Z;
               st_prices := [mkPriceEntry (Some "fsn1") (Some (JNum 5.39%Q))] |};
     raw_status := Some "running";
     raw_datacenter := Dict (Some "fsn1-dc14");
     raw_public_net := Dict (Dict (Some "203.0.113.7"));
     raw_labels := None |}.

Definition no_metrics : MetricsApi := fun _ _ _ _ => None.

Definition no_types : HetznerCloud.Result RawServerType :=
  HetznerCloud.RequestFailed
    (HetznerClient.RaiseHetznerError HetznerClient.Cloud 503 "unavailable").

Lemma collect_cloud_servers_upserts_witness :
  exists db',
    collect_cloud_servers ClientFacts.sample_hint no_metrics
                          (HetznerCloud.Items [cloud_entry (Some 42%Z) "web-1"])
                          no_types 1000 dedicated_session
    = Done {| committed := db'; working := db' |}
    /\ map hetzner_id (servers db') = ["321"; "42"]
    /\ map monthly_cost_eur (servers db') = [46.41%Q; 5.39%Q].
Proof.
  destruct (collect_cloud_servers_upserts
              ClientFacts.sample_hint no_metrics
              (HetznerCloud.Items [cloud_entry (Some 42%Z) "web-1"])
              no_types 1000 dedicated_session) as (_ & H).
  - split; repeat constructor; cbn; intuition discriminate.
  - destruct (H _ eq_refl) as (Ok & _).
    destruct Ok as (db' & E & _); [repeat constructor; discriminate|].
    exists db'. split; [exact E|].
    assert (db' = working (session_of
                             (collect_cloud_servers
                                ClientFacts.sample_hint no_metrics
                                (HetznerCloud.Items [cloud_entry (Some 42%Z) "web-1"])
                                no_types 1000 dedicated_session))) as ->
        by (rewrite E; reflexivity).
    vm_compute. repeat split.
Defined.

(** The cloud collection stores one server and stops at the entry without
    id; the dedicated collection's commit keeps that server. *)
Lemma run_collection_keeps_inventory_witness :
  inventory_keys_unique
    (run_collection ClientFacts.sample_hint no_metrics
                    (HetznerCloud.Items [cloud_entry (Some 42%Z) "web-1";
                                         cloud_entry None "web-2"])
                    no_types "robot-user" robot_answer 1000
                    (committed dedicated_session))
  /\ map hetzner_id
         (servers
            (run_collection ClientFacts.sample_hint no_metrics
                            (HetznerCloud.Items [cloud_entry (Some 42%Z) "web-1";
                                                 cloud_entry None "web-2"])
                            no_types "robot-user" robot_answer 1000
                            (committed dedicated_session)))
     = ["321"; "42"; "322"].
Proof.
  destruct (run_collection_keeps_inventory
              ClientFacts.sample_hint no_metrics
              (HetznerCloud.Items [cloud_entry (Some 42%Z) "web-1";
                                   cloud_entry None "web-2"])
              no_types "robot-user" robot_answer 1000 (committed dedicated_session))
    as (I & _).
  - split; repeat constructor; cbn; intuition discriminate.
  - split; [exact I | vm_compute; reflexivity].
Defined.

End CollectorInventoryFacts.
